(** * fs/fsopen.c: filesystem access-by-fd

    A shallow embedding of the file-descriptor front end of the filesystem
    context (fscontext_read, fscontext_release, fspick, vfs_fsconfig and the
    fsconfig system call) together with the properties the specification
    states about them.

    Kernel objects live in a small store (descriptor table, file objects,
    filesystem contexts) addressed by pointers; every function of the file is
    a computation in a state monad over that store which also records, in
    order, the calls it makes to the rest of the kernel, each paired with the
    store as it was when the call was made. *)

From stdpp Require Import gmap strings list.
From Stdlib Require Import ZArith Lia.

Local Open Scope Z_scope.

(** ** Error numbers

    The numbers of include/uapi/asm-generic/errno*.h, which is not part of
    the sources; what follows only uses that they are positive and differ
    from each other. *)

Module Errno.
Definition EPERM : Z := 1.
Definition EBADF : Z := 9.
Definition ENOMEM : Z := 12.
Definition EFAULT : Z := 14.
Definition EBUSY : Z := 16.
Definition EINVAL : Z := 22.
Definition ENODATA : Z := 61.
Definition EMSGSIZE : Z := 90.
Definition EOPNOTSUPP : Z := 95.
End Errno.
Import Errno.

(** ** Data model *)

(** Modelled from the spec: enum fs_context_phase is declared in
    include/linux/fs_context.h, which is not part of the sources; the six
    phases are those of the state machine of the specification, under the
    names fsopen.c uses. *)
Inductive fs_context_phase :=
| FS_CONTEXT_CREATE_PARAMS
| FS_CONTEXT_CREATING
| FS_CONTEXT_AWAITING_MOUNT
| FS_CONTEXT_AWAITING_RECONF
| FS_CONTEXT_RECONF_PARAMS
| FS_CONTEXT_FAILED.

#[global] Instance fs_context_phase_eq_dec : EqDecision fs_context_phase.
Proof. solve_decision. Defined.

Inductive fs_context_purpose :=
| FS_CONTEXT_FOR_USER_MOUNT
| FS_CONTEXT_FOR_RECONFIGURE.

(** Modelled from the spec: enum fsconfig_command is declared in
    include/uapi/linux/fs.h, which is not part of the sources; the commands
    and their order are those of the command enumeration of the
    specification. *)
Inductive fsconfig_command :=
| fsconfig_set_flag
| fsconfig_set_string
| fsconfig_set_binary
| fsconfig_set_path
| fsconfig_set_path_empty
| fsconfig_set_fd
| fsconfig_cmd_create
| fsconfig_cmd_reconfigure.

(** The number a command has as the [unsigned int cmd] of the system call. *)
Definition fsconfig_command_to_Z (c : fsconfig_command) : Z :=
  match c with
  | fsconfig_set_flag => 0
  | fsconfig_set_string => 1
  | fsconfig_set_binary => 2
  | fsconfig_set_path => 3
  | fsconfig_set_path_empty => 4
  | fsconfig_set_fd => 5
  | fsconfig_cmd_create => 6
  | fsconfig_cmd_reconfigure => 7
  end.

(** Which [case] label of a [switch (cmd)] a number selects; [None] is the
    [default:] label. *)
Definition fsconfig_command_of_Z (cmd : Z) : option fsconfig_command :=
  if cmd =? 0 then Some fsconfig_set_flag
  else if cmd =? 1 then Some fsconfig_set_string
  else if cmd =? 2 then Some fsconfig_set_binary
  else if cmd =? 3 then Some fsconfig_set_path
  else if cmd =? 4 then Some fsconfig_set_path_empty
  else if cmd =? 5 then Some fsconfig_set_fd
  else if cmd =? 6 then Some fsconfig_cmd_create
  else if cmd =? 7 then Some fsconfig_cmd_reconfigure
  else None.

(** Pointers into the store. *)
Definition fc_ptr := nat.
Definition file_ptr := nat.

Record file_system_type := {
  fs_name : string;
  fs_owner : nat;
}.

Record super_block := {
  s_type : file_system_type;
  (** whether [s_op->reconfigure] is a non-NULL function pointer *)
  s_op_reconfigure : bool;
}.

Record dentry := { d_sb : super_block }.

Record path := {
  path_mnt : nat;
  path_dentry : dentry;
}.

(** Modelled from the spec: struct fc_log is declared in
    include/linux/fs_context.h, which is not part of the sources.  [buffer]
    is the circular array of slots, a slot being NULL or a message;
    [need_free] is the mask of the slots whose message this code must
    kfree; [head] and [tail] are the unsigned insertion and removal
    counters. *)
Record fc_log := {
  log_usage : nat;
  log_head : Z;
  log_tail : Z;
  log_need_free : Z;
  log_owner : nat;
  log_buffer : list (option string);
}.

(** Modelled from the spec: struct fs_context is declared in
    include/linux/fs_context.h, which is not part of the sources; the fields
    are those of the MountContext of the specification ([uapi_mutex] is
    represented by the lock and unlock calls of the trace). *)
Record fs_context := {
  phase : fs_context_phase;
  fs_type : file_system_type;
  purpose : fs_context_purpose;
  root : option dentry;
  source : option string;
  log : option fc_log;
}.

Definition set_phase (ph : fs_context_phase) (fc : fs_context) : fs_context :=
  {| phase := ph; fs_type := fs_type fc; purpose := purpose fc;
     root := root fc; source := source fc; log := log fc |}.

Definition set_log (l : option fc_log) (fc : fs_context) : fs_context :=
  {| phase := phase fc; fs_type := fs_type fc; purpose := purpose fc;
     root := root fc; source := source fc; log := l |}.

(** The [f_op] of a file: the operations table of this file, or another. *)
Inductive file_operations :=
| fscontext_fops
| other_fops (id : nat).

#[global] Instance file_operations_eq_dec : EqDecision file_operations.
Proof. solve_decision. Defined.

Record file := {
  f_op : file_operations;
  private_data : option fc_ptr;
}.

Definition set_private_data (p : option fc_ptr) (f : file) : file :=
  {| f_op := f_op f; private_data := p |}.

(** The store: the descriptor table of the calling process, the file objects
    and the filesystem contexts. *)
Record kernel := {
  fdtable : gmap Z file_ptr;
  files : gmap file_ptr file;
  contexts : gmap fc_ptr fs_context;
}.

Definition set_contexts (m : gmap fc_ptr fs_context) (k : kernel) : kernel :=
  {| fdtable := fdtable k; files := files k; contexts := m |}.

Definition set_files (m : gmap file_ptr file) (k : kernel) : kernel :=
  {| fdtable := fdtable k; files := m; contexts := contexts k |}.

Definition set_fdtable (m : gmap Z file_ptr) (k : kernel) : kernel :=
  {| fdtable := m; files := files k; contexts := contexts k |}.

(** The store with the context at [fc] replaced by [c]. *)
Definition update_fc (fc : fc_ptr) (c : fs_context) (k : kernel) : kernel :=
  set_contexts (<[fc := c]> (contexts k)) k.

Definition update_file (f : file_ptr) (x : file) (k : kernel) : kernel :=
  set_files (<[f := x]> (files k)) k.

Definition phase_of (k : kernel) (fc : fc_ptr) : option fs_context_phase :=
  phase <$> contexts k !! fc.

Arguments update_fc : simpl never.
Arguments update_file : simpl never.

(** ** Calls into the rest of the kernel *)

Inductive event :=
| EvMutexLockInterruptible (fc : fc_ptr)
| EvMutexUnlock (fc : fc_ptr)
| EvCopyToUser (buf : Z) (p : string) (n : Z)
| EvKfree (p : string)
| EvPutFsContext (fc : fc_ptr)
| EvUserPathAt (dfd : Z) (upath : Z) (lookup_flags : Z)
| EvPathPut (target : path)
| EvVfsNewFsContext (t : file_system_type) (reference : option dentry)
    (sb_flags : Z) (purp : fs_context_purpose)
| EvKzallocLog (fc : fc_ptr)
| EvAnonInodeGetfd (fc : fc_ptr) (o_flags : Z)
| EvFdget (fd : Z)
| EvFdput (fd : Z)
| EvStrndupUser (uaddr : Z) (n : Z)
| EvMemdupUserNul (uaddr : Z) (len : Z)
| EvInitFsContext (fc : fc_ptr)
| EvSecurityFsContextAlloc (fc : fc_ptr)
| EvVfsGetTree (fc : fc_ptr)
| EvVfsSetFsSource (fc : fc_ptr) (value : string) (len : Z)
| EvVfsParseFsOption (fc : fc_ptr) (key : string) (value : option string)
    (aux : Z).

(** What the rest of the kernel answers.  The functions that work on a
    context receive its contents and give back their return value and the
    contents they leave. *)
Record environment := {
  ns_capable : bool;
  user_path_at : Z -> Z -> Z -> Z * path;
  vfs_new_fs_context :
    file_system_type -> option dentry -> Z -> fs_context_purpose ->
    Z + fs_context;
  kzalloc_log : bool;
  anon_inode_getfd : Z;
  strndup_user : Z -> Z -> Z + string;
  memdup_user_nul : Z -> Z -> Z + string;
  mutex_lock_interruptible : Z;
  copy_to_user : Z -> string -> Z -> Z;
  (** [fs_type->init_fs_context], NULL for a legacy filesystem *)
  init_fs_context :
    file_system_type -> option (fs_context -> Z * fs_context);
  security_fs_context_alloc : fs_context -> Z * fs_context;
  vfs_get_tree : fs_context -> Z * fs_context;
  vfs_set_fs_source : fs_context -> string -> Z -> Z * fs_context;
  vfs_parse_fs_option :
    fs_context -> string -> option string -> Z -> Z * fs_context;
}.

(** ** The monad of kernel code *)

(** A computation ends with a value or in an oops (BUG(), a NULL or wild
    pointer dereference). *)
Inductive outcome (A : Type) :=
| Done (a : A)
| Oops.
Arguments Done {A} a.
Arguments Oops {A}.

Definition trace := list (event * kernel).

Definition M (A : Type) : Type := kernel -> outcome A * kernel * trace.

#[global] Instance M_ret : MRet M := fun A a k => (Done a, k, []).

#[global] Instance M_bind : MBind M := fun A B f m k =>
  match m k with
  | (Done a, k1, t1) =>
      match f a k1 with
      | (r, k2, t2) => (r, k2, t1 ++ t2)
      end
  | (Oops, k1, t1) => (Oops, k1, t1)
  end.

Definition oops {A} : M A := fun k => (Oops, k, []).
Definition emit (e : event) : M unit := fun k => (Done tt, k, [(e, k)]).
Definition get_kernel : M kernel := fun k => (Done k, k, []).
Definition put_kernel (k' : kernel) : M unit := fun _ => (Done tt, k', []).

(** The calls a computation made, without the stores. *)
Definition calls (t : trace) : list event := t.*1.

Definition result_of {A} (x : outcome A * kernel * trace) : outcome A := x.1.1.
Definition kernel_of {A} (x : outcome A * kernel * trace) : kernel := x.1.2.
Definition trace_of {A} (x : outcome A * kernel * trace) : trace := x.2.

(** [*p] for a context pointer and for a file pointer. *)
Definition load_fc (fc : fc_ptr) : M fs_context := fun k =>
  match contexts k !! fc with
  | Some c => (Done c, k, [])
  | None => (Oops, k, [])
  end.

Definition store_fc (fc : fc_ptr) (c : fs_context) : M unit := fun k =>
  match contexts k !! fc with
  | Some _ => (Done tt, update_fc fc c k, [])
  | None => (Oops, k, [])
  end.

Definition load_file (f : file_ptr) : M file := fun k =>
  match files k !! f with
  | Some x => (Done x, k, [])
  | None => (Oops, k, [])
  end.

Definition store_file (f : file_ptr) (x : file) : M unit := fun k =>
  match files k !! f with
  | Some _ => (Done tt, update_file f x k, [])
  | None => (Oops, k, [])
  end.

(** [fc->phase = ph] *)
Definition store_phase (fc : fc_ptr) (ph : fs_context_phase) : M unit :=
  c ← load_fc fc; store_fc fc (set_phase ph c).

(** [strlen(p)] *)
Definition strlen (p : string) : Z := Z.of_nat (String.length p).

(** ** fscontext_read: read back one message of the log *)

Section fscontext_read.
Variable E : environment.
(** Width in bits of the [tail] counter of struct fc_log, a declaration
    the sources do not include. *)
Variable counter_bits : Z.

(** [log->tail++] on an unsigned counter of that width *)
Definition tail_incr (t : Z) : Z := (t + 1) mod 2 ^ counter_bits.

(** [log->tail & (logsize - 1)] with [logsize = ARRAY_SIZE(log->buffer)] *)
Definition tail_index (l : fc_log) : Z :=
  Z.land (log_tail l) (Z.of_nat (length (log_buffer l)) - 1).

(** [log->need_free & (1 << index)] as a [bool] *)
Definition need_free_bit (l : fc_log) (index : Z) : bool :=
  negb (Z.land (log_need_free l) (Z.shiftl 1 index) =? 0).

(** The log once the slot [index] has been taken out of it. *)
Definition log_pop (l : fc_log) (index : Z) : fc_log :=
  {| log_usage := log_usage l;
     log_head := log_head l;
     log_tail := tail_incr (log_tail l);
     log_need_free := Z.land (log_need_free l) (Z.lnot (Z.shiftl 1 index));
     log_owner := log_owner l;
     log_buffer := <[Z.to_nat index := None]> (log_buffer l) |}.

Definition fscontext_read (f : file_ptr) (_buf : Z) (len : Z) : M Z :=
  file ← load_file f;
  match private_data file with
  | None => oops
  | Some fc =>
      _ ← load_fc fc;
      _ ← emit (EvMutexLockInterruptible fc);
      let ret := mutex_lock_interruptible E in
      if ret <? 0 then mret ret
      else
        c ← load_fc fc;
        match log c with
        | None => oops
        | Some l =>
            if log_head l =? log_tail l then
              _ ← emit (EvMutexUnlock fc);
              mret (- ENODATA)
            else
              let index := tail_index l in
              match log_buffer l !! Z.to_nat index with
              | None => oops
              | Some p =>
                  let need_free := need_free_bit l index in
                  _ ← store_fc fc (set_log (Some (log_pop l index)) c);
                  _ ← emit (EvMutexUnlock fc);
                  match p with
                  | None => oops
                  | Some msg =>
                      let n := strlen msg in
                      ret ← (if len <? n then mret (- EMSGSIZE)
                             else
                               _ ← emit (EvCopyToUser _buf msg n);
                               if copy_to_user E _buf msg n =? 0
                               then mret n
                               else mret (- EFAULT));
                      _ ← (if need_free then emit (EvKfree msg)
                           else mret tt);
                      mret ret
                  end
              end
        end
  end.
End fscontext_read.

(** ** fscontext_release *)

(** [put_fs_context(fc)], of fs/fs_context.c: drops the reference to the
    context. *)
Definition put_fs_context (fc : fc_ptr) : M unit := emit (EvPutFsContext fc).

Definition fscontext_release (f : file_ptr) : M Z :=
  file ← load_file f;
  match private_data file with
  | Some fc =>
      _ ← store_file f (set_private_data None file);
      _ ← put_fs_context fc;
      mret 0
  | None => mret 0
  end.

(** ** Attaching a context to a file and a descriptor *)

(** Flags of include/uapi/asm-generic/fcntl.h. *)
Definition O_RDWR : Z := 2.
Definition O_CLOEXEC : Z := 524288.

Section entry_points.
Variable E : environment.
(** [ARRAY_SIZE(log->buffer)] of struct fc_log, a declaration the sources
    do not include. *)
Variable logsize : nat.

Definition fscontext_create_fd (fc : fc_ptr) (o_flags : Z) : M Z :=
  _ ← emit (EvAnonInodeGetfd fc (Z.lor O_RDWR o_flags));
  let fd := anon_inode_getfd E in
  if fd <? 0 then
    _ ← put_fs_context fc;
    mret fd
  else
    k ← get_kernel;
    let fp := fresh (dom (files k)) in
    _ ← put_kernel
          (set_fdtable (<[fd := fp]> (fdtable k))
             (set_files
                (<[fp := {| f_op := fscontext_fops;
                            private_data := Some fc |}]> (files k)) k));
    mret fd.

Definition fscontext_alloc_log (fc : fc_ptr) : M Z :=
  _ ← emit (EvKzallocLog fc);
  c ← load_fc fc;
  if kzalloc_log E then
    _ ← store_fc fc
          (set_log
             (Some {| log_usage := 1; log_head := 0; log_tail := 0;
                      log_need_free := 0;
                      log_owner := fs_owner (fs_type c);
                      log_buffer := replicate logsize None |}) c);
    mret 0
  else
    _ ← store_fc fc (set_log None c);
    mret (- ENOMEM).

(** ** fspick: pick a superblock into a context for reconfiguration *)

(** Flags of include/uapi/linux/fs.h and include/linux/namei.h. *)
Definition FSPICK_CLOEXEC : Z := 1.
Definition FSPICK_SYMLINK_NOFOLLOW : Z := 2.
Definition FSPICK_NO_AUTOMOUNT : Z := 4.
Definition FSPICK_EMPTY_PATH : Z := 8.
Definition LOOKUP_FOLLOW : Z := 1.
Definition LOOKUP_AUTOMOUNT : Z := 4.
Definition LOOKUP_EMPTY : Z := 16384.

Definition flag_set (flags bit : Z) : bool := negb (Z.land flags bit =? 0).

Definition fspick_lookup_flags (flags : Z) : Z :=
  let lf := Z.lor LOOKUP_FOLLOW LOOKUP_AUTOMOUNT in
  let lf := if flag_set flags FSPICK_SYMLINK_NOFOLLOW
            then Z.land lf (Z.lnot LOOKUP_FOLLOW) else lf in
  let lf := if flag_set flags FSPICK_NO_AUTOMOUNT
            then Z.land lf (Z.lnot LOOKUP_AUTOMOUNT) else lf in
  if flag_set flags FSPICK_EMPTY_PATH then Z.lor lf LOOKUP_EMPTY else lf.

Definition FSPICK_VALID_FLAGS : Z :=
  Z.lor FSPICK_CLOEXEC
    (Z.lor FSPICK_SYMLINK_NOFOLLOW
       (Z.lor FSPICK_NO_AUTOMOUNT FSPICK_EMPTY_PATH)).

Definition path_put (target : path) : M unit := emit (EvPathPut target).

Definition fspick (dfd : Z) (upath : Z) (flags : Z) : M Z :=
  if negb (ns_capable E) then mret (- EPERM)
  else if negb (Z.land flags (Z.lnot FSPICK_VALID_FLAGS) =? 0) then
    mret (- EINVAL)
  else
    let lookup_flags := fspick_lookup_flags flags in
    _ ← emit (EvUserPathAt dfd upath lookup_flags);
    let '(ret, target) := user_path_at E dfd upath lookup_flags in
    if ret <? 0 then mret ret
    else
      let sb := d_sb (path_dentry target) in
      if negb (s_op_reconfigure sb) then
        _ ← path_put target;
        mret (- EOPNOTSUPP)
      else
        _ ← emit (EvVfsNewFsContext (s_type sb) (Some (path_dentry target))
                    0 FS_CONTEXT_FOR_RECONFIGURE);
        match vfs_new_fs_context E (s_type sb) (Some (path_dentry target))
                0 FS_CONTEXT_FOR_RECONFIGURE with
        | inl err =>
            _ ← path_put target;
            mret err
        | inr c =>
            k ← get_kernel;
            let fc := fresh (dom (contexts k)) in
            _ ← put_kernel (set_contexts (<[fc := c]> (contexts k)) k);
            _ ← store_phase fc FS_CONTEXT_RECONF_PARAMS;
            ret ← fscontext_alloc_log fc;
            if ret <? 0 then
              _ ← put_fs_context fc;
              _ ← path_put target;
              mret ret
            else
              _ ← path_put target;
              fscontext_create_fd fc
                (if flag_set flags FSPICK_CLOEXEC then O_CLOEXEC else 0)
        end.

(** ** vfs_fsconfig: check the state and apply the configuration *)

(** [fc->phase == FS_CONTEXT_CREATE_PARAMS ||
     fc->phase == FS_CONTEXT_RECONF_PARAMS] *)
Definition params_phase (ph : fs_context_phase) : bool :=
  match ph with
  | FS_CONTEXT_CREATE_PARAMS | FS_CONTEXT_RECONF_PARAMS => true
  | _ => false
  end.

(** A call of a function of the rest of the kernel on the context [fc]. *)
Definition call (ev : event) (fc : fc_ptr)
    (f : fs_context -> Z * fs_context) : M Z :=
  c ← load_fc fc;
  _ ← emit ev;
  _ ← store_fc fc (f c).2;
  mret (f c).1.

(** The reinitialisation of a context whose reconfiguration is pending;
    [Some ret] when vfs_fsconfig returns [ret] from inside it. *)
Definition vfs_fsconfig_reinit (fc : fc_ptr) : M (option Z) :=
  c ← load_fc fc;
  if decide (phase c = FS_CONTEXT_AWAITING_RECONF) then
    early ← match init_fs_context E (fs_type c) with
            | Some hook =>
                ret ← call (EvInitFsContext fc) fc hook;
                if ret <? 0 then
                  _ ← store_phase fc FS_CONTEXT_FAILED;
                  mret (Some ret)
                else mret None
            | None => mret None
            end;
    match early with
    | Some ret => mret (Some ret)
    | None =>
        ret ← call (EvSecurityFsContextAlloc fc) fc
                (security_fs_context_alloc E);
        if ret <? 0 then
          _ ← store_phase fc FS_CONTEXT_FAILED;
          mret (Some ret)
        else
          _ ← store_phase fc FS_CONTEXT_RECONF_PARAMS;
          mret None
    end
  else mret None.

(** The body of [case fsconfig_set_flag: case fsconfig_set_binary:], which
    [case fsconfig_set_string:] falls through to. *)
Definition vfs_fsconfig_option (fc : fc_ptr) (key value : option string)
    (aux : Z) : M Z :=
  c ← load_fc fc;
  if negb (params_phase (phase c)) then mret (- EBUSY)
  else
    match key with
    | None => oops
    | Some k =>
        call (EvVfsParseFsOption fc k value aux) fc
          (fun c => vfs_parse_fs_option E c k value aux)
    end.

Definition vfs_fsconfig_switch (fc : fc_ptr) (cmd : Z)
    (key value : option string) (aux : Z) : M Z :=
  match fsconfig_command_of_Z cmd with
  | Some fsconfig_set_string =>
      c ← load_fc fc;
      if negb (params_phase (phase c)) then mret (- EBUSY)
      else
        match key with
        | None => oops
        | Some k =>
            if String.eqb k "source" then
              match value with
              | None => oops
              | Some v =>
                  call (EvVfsSetFsSource fc v (strlen v)) fc
                    (fun c => vfs_set_fs_source E c v (strlen v))
              end
            else vfs_fsconfig_option fc key value aux
        end
  | Some fsconfig_set_flag | Some fsconfig_set_binary =>
      vfs_fsconfig_option fc key value aux
  | Some fsconfig_set_path | Some fsconfig_set_path_empty
  | Some fsconfig_set_fd =>
      c ← load_fc fc;
      if negb (params_phase (phase c)) then mret (- EBUSY)
      else oops
  | Some fsconfig_cmd_create =>
      c ← load_fc fc;
      if negb (bool_decide (phase c = FS_CONTEXT_CREATE_PARAMS)) then
        mret (- EBUSY)
      else
        _ ← store_phase fc FS_CONTEXT_CREATING;
        ret ← call (EvVfsGetTree fc) fc (vfs_get_tree E);
        _ ← (if ret =? 0 then store_phase fc FS_CONTEXT_AWAITING_MOUNT
             else store_phase fc FS_CONTEXT_FAILED);
        mret ret
  | _ => mret (- EOPNOTSUPP)
  end.

Definition vfs_fsconfig (fc : fc_ptr) (cmd : Z) (key value : option string)
    (aux : Z) : M Z :=
  early ← vfs_fsconfig_reinit fc;
  match early with
  | Some ret => mret ret
  | None => vfs_fsconfig_switch fc cmd key value aux
  end.

(** ** The fsconfig system call *)

Definition AT_FDCWD : Z := -100.

(** The first [switch (cmd)] of the system call: the shape of the
    arguments each command takes.  [Some ret] when the call returns [ret]
    from it, [None] when it [break]s out of it.  A user pointer is NULL
    when it is 0. *)
Definition fsconfig_check_shape (cmd _key _value aux : Z) : option Z :=
  match fsconfig_command_of_Z cmd with
  | Some fsconfig_set_flag =>
      if (_key =? 0) || negb (_value =? 0) || negb (aux =? 0)
      then Some (- EINVAL) else None
  | Some fsconfig_set_string =>
      if (_key =? 0) || (_value =? 0) || negb (aux =? 0)
      then Some (- EINVAL) else None
  | Some fsconfig_set_binary =>
      if (_key =? 0) || (_value =? 0) || (aux <=? 0) || (1024 * 1024 <? aux)
      then Some (- EINVAL) else None
  | Some fsconfig_set_path | Some fsconfig_set_path_empty =>
      if (_key =? 0) || (_value =? 0)
         || (negb (aux =? AT_FDCWD) && (aux <? 0))
      then Some (- EINVAL) else None
  | Some fsconfig_set_fd =>
      if (_key =? 0) || negb (_value =? 0) || (aux <? 0)
      then Some (- EINVAL) else None
  | Some fsconfig_cmd_create | Some fsconfig_cmd_reconfigure =>
      if negb (_key =? 0) || negb (_value =? 0) || negb (aux =? 0)
      then Some (- EINVAL) else None
  | None => Some (- EOPNOTSUPP)
  end.

(** [kfree(p)], which does nothing on NULL *)
Definition kfree (p : option string) : M unit :=
  match p with
  | Some s => emit (EvKfree s)
  | None => mret tt
  end.

(** The exits [out_f:] and [out_key:] *)
Definition out_f (fd ret : Z) : M Z :=
  _ ← emit (EvFdput fd);
  mret ret.

Definition out_key (fd : Z) (key : option string) (ret : Z) : M Z :=
  _ ← kfree key;
  out_f fd ret.

(** From [mutex_lock_interruptible] to the end of the system call. *)
Definition fsconfig_locked (fd : Z) (fc : option fc_ptr) (cmd : Z)
    (key value : option string) (aux : Z) : M Z :=
  match fc with
  | None => oops
  | Some fc =>
      _ ← load_fc fc;
      _ ← emit (EvMutexLockInterruptible fc);
      let lr := mutex_lock_interruptible E in
      ret ← (if lr =? 0 then
               r ← vfs_fsconfig fc cmd key value aux;
               _ ← emit (EvMutexUnlock fc);
               mret r
             else mret lr);
      _ ← match fsconfig_command_of_Z cmd with
          | Some fsconfig_set_string | Some fsconfig_set_binary =>
              kfree value
          | _ => mret tt
          end;
      out_key fd key ret
  end.

(** The second [switch (cmd)]: the copy of the value. *)
Definition fsconfig_copy_value (fd : Z) (fc : option fc_ptr)
    (cmd : Z) (key : option string) (_value aux : Z) : M Z :=
  match fsconfig_command_of_Z cmd with
  | Some fsconfig_set_string =>
      _ ← emit (EvStrndupUser _value 256);
      match strndup_user E _value 256 with
      | inl err => out_key fd key err
      | inr v => fsconfig_locked fd fc cmd key (Some v) aux
      end
  | Some fsconfig_set_binary =>
      _ ← emit (EvMemdupUserNul _value aux);
      match memdup_user_nul E _value aux with
      | inl err => out_key fd key err
      | inr v => fsconfig_locked fd fc cmd key (Some v) aux
      end
  | Some fsconfig_set_path | Some fsconfig_set_path_empty
  | Some fsconfig_set_fd =>
      out_key fd key (- EOPNOTSUPP)
  | _ => fsconfig_locked fd fc cmd key None aux
  end.

Definition fsconfig (fd : Z) (cmd : Z) (_key _value : Z) (aux : Z) : M Z :=
  if fd <? 0 then mret (- EINVAL)
  else
    match fsconfig_check_shape cmd _key _value aux with
    | Some ret => mret ret
    | None =>
        _ ← emit (EvFdget fd);
        k ← get_kernel;
        match fdtable k !! fd with
        | None => mret (- EBADF)
        | Some fp =>
            file ← load_file fp;
            if negb (bool_decide (f_op file = fscontext_fops)) then
              out_f fd (- EINVAL)
            else
              let fc := private_data file in
              if negb (_key =? 0) then
                _ ← emit (EvStrndupUser _key 256);
                match strndup_user E _key 256 with
                | inl err => out_f fd err
                | inr key =>
                    fsconfig_copy_value fd fc cmd (Some key) _value aux
                end
              else fsconfig_copy_value fd fc cmd None _value aux
        end
    end.
End entry_points.

(** ** A concrete system

    One filesystem type, one context at address 7 bound to descriptor 3
    through the file at address 1, and descriptor 4 open on a file of
    another kind.  The properties below are instantiated on it. *)

Module Sample.
Definition tmpfs : file_system_type :=
  {| fs_name := "tmpfs"; fs_owner := 0 |}.

Definition sb_no_reconfigure : super_block :=
  {| s_type := tmpfs; s_op_reconfigure := false |}.

Definition target : path :=
  {| path_mnt := 0; path_dentry := {| d_sb := sb_no_reconfigure |} |}.

(** A log of two slots holding one owned message. *)
Definition one_message : fc_log :=
  {| log_usage := 1; log_head := 1; log_tail := 0; log_need_free := 1;
     log_owner := 0; log_buffer := [Some "hello"%string; None] |}.

Definition empty_log : fc_log :=
  {| log_usage := 1; log_head := 0; log_tail := 0; log_need_free := 0;
     log_owner := 0; log_buffer := [None; None] |}.

Definition ctx (ph : fs_context_phase) : fs_context :=
  {| phase := ph; fs_type := tmpfs; purpose := FS_CONTEXT_FOR_USER_MOUNT;
     root := None; source := None; log := Some one_message |}.

Definition system (ph : fs_context_phase) : kernel :=
  {| fdtable := {[ 3 := 1%nat; 4 := 2%nat ]};
     files := {[ 1%nat := {| f_op := fscontext_fops;
                             private_data := Some 7%nat |};
                 2%nat := {| f_op := other_fops 0;
                             private_data := None |} ]};
     contexts := {[ 7%nat := ctx ph ]} |}.

(** User memory holds the key at address 100 and a value at 200. *)
Definition user_string (key : string) (uaddr : Z) : Z + string :=
  if uaddr =? 100 then inr key
  else if uaddr =? 200 then inr "none"%string
  else inl (- EFAULT).

(** The rest of the kernel, every call of which succeeds except that the
    driver's reinitialisation returns [reinit]. *)
Definition env (key : string) (reinit : Z) : environment :=
  {| ns_capable := true;
     user_path_at := fun _ _ _ => (0, target);
     vfs_new_fs_context := fun _ _ _ _ => inl (- ENOMEM);
     kzalloc_log := true;
     anon_inode_getfd := 5;
     strndup_user := fun uaddr _ => user_string key uaddr;
     memdup_user_nul := fun uaddr _ => user_string key uaddr;
     mutex_lock_interruptible := 0;
     copy_to_user := fun _ _ _ => 0;
     init_fs_context := fun _ => Some (fun c => (reinit, c));
     security_fs_context_alloc := fun c => (0, c);
     vfs_get_tree := fun c => (0, c);
     vfs_set_fs_source := fun c _ _ => (0, c);
     vfs_parse_fs_option := fun c _ _ _ => (0, c) |}.
End Sample.

(** The calls that release a path, and those that build a context, its log
    or its descriptor. *)
Definition is_path_put (e : event) : bool :=
  match e with EvPathPut _ => true | _ => false end.

Definition builds_context (e : event) : bool :=
  match e with
  | EvVfsNewFsContext _ _ _ _ | EvKzallocLog _ | EvAnonInodeGetfd _ _ => true
  | _ => false
  end.

(** The commands that set a parameter by value: flag, string and binary. *)
Definition sets_parameter (cmd : fsconfig_command) : bool :=
  match cmd with
  | fsconfig_set_flag | fsconfig_set_string | fsconfig_set_binary => true
  | _ => false
  end.

(** ** What the reinitialisation of a pending reconfiguration amounts to

    The return value and the context left by [fs_type->init_fs_context], a
    legacy filesystem without the operation leaving the context as it is;
    the call this makes; and the store the security check then runs on. *)

Definition reinit_init (E : environment) (c : fs_context) : Z * fs_context :=
  match init_fs_context E (fs_type c) with
  | Some hook => hook c
  | None => (0, c)
  end.

Definition reinit_init_trace (E : environment) (fc : fc_ptr) (c : fs_context)
    (k : kernel) : trace :=
  match init_fs_context E (fs_type c) with
  | Some _ => [(EvInitFsContext fc, k)]
  | None => []
  end.

Definition reinit_init_kernel (E : environment) (fc : fc_ptr) (c : fs_context)
    (k : kernel) : kernel :=
  match init_fs_context E (fs_type c) with
  | Some hook => update_fc fc (hook c).2 k
  | None => k
  end.

(** ** fsopen: open a filesystem by name so that it can be configured *)

Section fsopen.
Variable E : environment.
Variable logsize : nat.
(** [PAGE_SIZE], which depends on the architecture. *)
Variable PAGE_SIZE : Z.
(** [get_fs_type] and [put_filesystem] of fs/filesystems.c, which is not
    part of the sources: any computations of the rest of the kernel. *)
Variable get_fs_type : string -> M (option file_system_type).
Variable put_filesystem : file_system_type -> M unit.

Definition FSOPEN_CLOEXEC : Z := 1.
Definition ENODEV : Z := 19.

Definition fsopen (_fs_name : Z) (flags : Z) : M Z :=
  if negb (ns_capable E) then mret (- EPERM)
  else if negb (Z.land flags (Z.lnot FSOPEN_CLOEXEC) =? 0) then
    mret (- EINVAL)
  else
    _ ← emit (EvStrndupUser _fs_name PAGE_SIZE);
    match strndup_user E _fs_name PAGE_SIZE with
    | inl err => mret err
    | inr fs_name =>
        found ← get_fs_type fs_name;
        _ ← kfree (Some fs_name);
        match found with
        | None => mret (- ENODEV)
        | Some t =>
            _ ← emit (EvVfsNewFsContext t None 0 FS_CONTEXT_FOR_USER_MOUNT);
            made ← match vfs_new_fs_context E t None 0
                           FS_CONTEXT_FOR_USER_MOUNT with
                   | inl err => mret (inl err)
                   | inr c =>
                       k ← get_kernel;
                       let fc := fresh (dom (contexts k)) in
                       _ ← put_kernel
                             (set_contexts (<[fc := c]> (contexts k)) k);
                       mret (inr fc)
                   end;
            _ ← put_filesystem t;
            match made with
            | inl err => mret err
            | inr fc =>
                _ ← store_phase fc FS_CONTEXT_CREATE_PARAMS;
                ret ← fscontext_alloc_log E logsize fc;
                if ret <? 0 then
                  _ ← put_fs_context fc;
                  mret ret
                else
                  fscontext_create_fd E fc
                    (if flag_set flags FSOPEN_CLOEXEC then O_CLOEXEC else 0)
            end
        end
    end.
End fsopen.

(** ** Vocabulary of the further properties *)

(** Descriptor [fd] is open on a file of this kind whose context is [c], at
    address [fc]. *)
Definition fscontext_fd (k : kernel) (fd : Z) (fc : fc_ptr) (c : fs_context)
    : Prop :=
  exists fp file0,
    fdtable k !! fd = Some fp /\ files k !! fp = Some file0
    /\ f_op file0 = fscontext_fops /\ private_data file0 = Some fc
    /\ contexts k !! fc = Some c.

(** Kinds of calls. *)
Definition is_put_fs_context (e : event) : bool :=
  match e with EvPutFsContext _ => true | _ => false end.

Definition is_lock (e : event) : bool :=
  match e with EvMutexLockInterruptible _ => true | _ => false end.

Definition is_unlock (e : event) : bool :=
  match e with EvMutexUnlock _ => true | _ => false end.

Definition is_fdget (e : event) : bool :=
  match e with EvFdget _ => true | _ => false end.

Definition is_fdput (e : event) : bool :=
  match e with EvFdput _ => true | _ => false end.

(** The calls vfs_fsconfig makes on behalf of a command. *)
Definition is_collaborator (e : event) : bool :=
  match e with
  | EvInitFsContext _ | EvSecurityFsContextAlloc _ | EvVfsGetTree _
  | EvVfsSetFsSource _ _ _ | EvVfsParseFsOption _ _ _ _ => true
  | _ => false
  end.

(** How many times a kind of call occurs. *)
Definition count (p : event -> bool) (t : trace) : nat :=
  length (filter p (calls t)).

(** The number of messages of a log that wait to be read, the counters
    being [bits] wide. *)
Definition log_pending (bits : Z) (l : fc_log) : Z :=
  (log_head l - log_tail l) mod 2 ^ bits.

(** The phases in which nothing can be configured any more. *)
Definition closed_phase (ph : fs_context_phase) : bool :=
  match ph with
  | FS_CONTEXT_CREATING | FS_CONTEXT_AWAITING_MOUNT | FS_CONTEXT_FAILED =>
      true
  | _ => false
  end.

(** The phase changes one call of vfs_fsconfig can make. *)
Definition phase_step (ph ph' : fs_context_phase) : bool :=
  match ph, ph' with
  | FS_CONTEXT_CREATE_PARAMS,
    (FS_CONTEXT_CREATE_PARAMS | FS_CONTEXT_AWAITING_MOUNT | FS_CONTEXT_FAILED)
  | FS_CONTEXT_AWAITING_RECONF,
    (FS_CONTEXT_RECONF_PARAMS | FS_CONTEXT_FAILED)
  | FS_CONTEXT_RECONF_PARAMS, FS_CONTEXT_RECONF_PARAMS
  | FS_CONTEXT_CREATING, FS_CONTEXT_CREATING
  | FS_CONTEXT_AWAITING_MOUNT, FS_CONTEXT_AWAITING_MOUNT
  | FS_CONTEXT_FAILED, FS_CONTEXT_FAILED => true
  | _, _ => false
  end.

(** A run put after the calls [t]. *)
Definition after {A} (t : trace) (x : outcome A * kernel * trace)
    : outcome A * kernel * trace :=
  (result_of x, kernel_of x, t ++ trace_of x).

(** The store [k'] differs from [k] at most in the context at [fc]. *)
Definition same_but (fc : fc_ptr) (k k' : kernel) : Prop :=
  fdtable k' = fdtable k /\ files k' = files k
  /\ forall fc', fc' <> fc -> contexts k' !! fc' = contexts k !! fc'.

(** A computation that touches no more of the store than the context at
    [fc] and calls nothing but the collaborators of vfs_fsconfig. *)
Definition local_to {A} (fc : fc_ptr) (m : M A) : Prop :=
  forall k,
    same_but fc k (kernel_of (m k))
    /\ forall e ks, (e, ks) ∈ trace_of (m k) -> is_collaborator e = true.

(** The log fscontext_alloc_log makes for the context [c]: [n] empty slots,
    nothing to read, one reference. *)
Definition new_log (n : nat) (c : fs_context) : fc_log :=
  {| log_usage := 1; log_head := 0; log_tail := 0; log_need_free := 0;
     log_owner := fs_owner (fs_type c); log_buffer := replicate n None |}.

(** The file anon_inode_getfd makes for the context at [fc]. *)
Definition fscontext_file (fc : fc_ptr) : file :=
  {| f_op := fscontext_fops; private_data := Some fc |}.

(** The commands the system call takes as far as the lock: all but the path
    and descriptor commands, and the numbers that are no command. *)
Definition dispatched (cmd : Z) : bool :=
  match fsconfig_command_of_Z cmd with
  | Some fsconfig_set_flag | Some fsconfig_set_string
  | Some fsconfig_set_binary | Some fsconfig_cmd_create
  | Some fsconfig_cmd_reconfigure => true
  | _ => false
  end.

(** [key] is what the system call holds of the user's key: nothing for a
    NULL pointer, else the string strndup_user copied. *)
Definition key_copied (E : environment) (_key : Z) (key : option string)
    : Prop :=
  if _key =? 0 then key = None
  else exists s, key = Some s /\ strndup_user E _key 256 = inr s.

(** [value] is what the system call holds of the user's value: a copy for
    the string and binary commands, nothing for the others. *)
Definition value_copied (E : environment) (cmd _value aux : Z)
    (value : option string) : Prop :=
  match fsconfig_command_of_Z cmd with
  | Some fsconfig_set_string =>
      exists v, value = Some v /\ strndup_user E _value 256 = inr v
  | Some fsconfig_set_binary =>
      exists v, value = Some v /\ memdup_user_nul E _value aux = inr v
  | _ => value = None
  end.

(** The calls that copy them, made on the store [k]. *)
Definition fsconfig_copies (cmd _key _value aux : Z) (k : kernel) : trace :=
  (if _key =? 0 then [] else [(EvStrndupUser _key 256, k)])
  ++ match fsconfig_command_of_Z cmd with
     | Some fsconfig_set_string => [(EvStrndupUser _value 256, k)]
     | Some fsconfig_set_binary => [(EvMemdupUserNul _value aux, k)]
     | _ => []
     end.

(** The calls that end the system call on the store [k]: the value and the
    key are freed, the descriptor is put. *)
Definition fsconfig_cleanup (fd : Z) (key value : option string) (k : kernel)
    : trace :=
  match value with Some v => [(EvKfree v, k)] | None => [] end
  ++ match key with Some s => [(EvKfree s, k)] | None => [] end
  ++ [(EvFdput fd, k)].

(** Every descriptor of the store is open on a file, and every file of this
    kind holds a context. *)
Definition well_formed (k : kernel) : Prop :=
  forall fd fp,
    fdtable k !! fd = Some fp ->
    exists file0,
      files k !! fp = Some file0
      /\ (f_op file0 = fscontext_fops ->
          exists fc c,
            private_data file0 = Some fc /\ contexts k !! fc = Some c).

(** ** Variants of the concrete system

    The rest of the kernel with the answers that matter to the entry points
    left open, a target that can be reconfigured, the context
    vfs_new_fs_context makes, and a registry of filesystem types that knows
    "tmpfs". *)

Module Further.
Definition target_rw : path :=
  {| path_mnt := 0;
     path_dentry :=
       {| d_sb := {| s_type := Sample.tmpfs; s_op_reconfigure := true |} |} |}.

Definition made (purp : fs_context_purpose) : fs_context :=
  {| phase := FS_CONTEXT_FAILED; fs_type := Sample.tmpfs; purpose := purp;
     root := None; source := None; log := None |}.

Definition env (key : string) (cap : bool) (lookup : Z * path)
    (new_fc : Z + fs_context) (kz : bool) (getfd lock : Z) : environment :=
  {| ns_capable := cap;
     user_path_at := fun _ _ _ => lookup;
     vfs_new_fs_context := fun _ _ _ _ => new_fc;
     kzalloc_log := kz;
     anon_inode_getfd := getfd;
     strndup_user := fun uaddr _ => Sample.user_string key uaddr;
     memdup_user_nul := fun uaddr _ => Sample.user_string key uaddr;
     mutex_lock_interruptible := lock;
     copy_to_user := fun _ _ _ => 0;
     init_fs_context := fun _ => Some (fun c => (0, c));
     security_fs_context_alloc := fun c => (0, c);
     vfs_get_tree := fun c => (0, c);
     vfs_set_fs_source := fun c _ _ => (0, c);
     vfs_parse_fs_option := fun c _ _ _ => (0, c) |}.

(** Everything succeeds: the path resolves to [target_rw], a context is
    made, descriptor 5 is given. *)
Definition ok (key : string) : environment :=
  env key true (0, target_rw) (inr (made FS_CONTEXT_FOR_RECONFIGURE)) true 5 0.

Definition registry (name : string) : M (option file_system_type) :=
  mret (if String.eqb name "tmpfs" then Some Sample.tmpfs else None).

Definition release_type (t : file_system_type) : M unit := mret tt.

Definition bound_file : file :=
  {| f_op := fscontext_fops; private_data := Some 7%nat |}.
(** A log of two slots with two messages waiting, the older one, owned, in
    slot 1, and the store whose context holds it. *)
Definition two_messages : fc_log :=
  {| log_usage := 1; log_head := 3; log_tail := 1; log_need_free := 2;
     log_owner := 0;
     log_buffer := [Some "late"%string; Some "hello"%string] |}.

Definition ctx_with (l : fc_log) : fs_context :=
  {| phase := FS_CONTEXT_CREATE_PARAMS; fs_type := Sample.tmpfs;
     purpose := FS_CONTEXT_FOR_USER_MOUNT; root := None; source := None;
     log := Some l |}.

Definition system_with (l : fc_log) : kernel :=
  {| fdtable := {[ 3 := 1%nat ]};
     files := {[ 1%nat := bound_file ]};
     contexts := {[ 7%nat := ctx_with l ]} |}.
End Further.

(** * Properties *)

(** ** Running a computation *)

Ltac unfold_monad :=
  unfold mbind, M_bind, mret, M_ret, emit, oops, get_kernel, put_kernel,
    load_fc, store_fc, load_file, store_file in *.

(** Run straight-line code: every load of a context finds either the
    context a hypothesis gives or the one just stored. *)
Ltac run_step :=
  first
    [ rewrite lookup_insert_eq
    | match goal with
      | H : contexts ?k !! ?fc = Some _ |- context [contexts ?k !! ?fc] =>
          rewrite H
      end ];
  simpl.

Ltac run :=
  unfold call, store_phase; unfold_monad; simpl; repeat run_step.

Lemma contexts_update_fc fc c k :
  contexts (update_fc fc c k) !! fc = Some c.
Proof. unfold update_fc; simpl. apply lookup_insert_eq. Qed.

Lemma update_fc_twice fc c1 c2 k :
  update_fc fc c2 (update_fc fc c1 k) = update_fc fc c2 k.
Proof.
  unfold update_fc, set_contexts; simpl. by rewrite insert_insert_eq.
Qed.

Lemma phase_of_update_fc fc c k :
  phase_of (update_fc fc c k) fc = Some (phase c).
Proof. unfold phase_of. by rewrite contexts_update_fc. Qed.

Lemma files_update_file f x k :
  files (update_file f x k) !! f = Some x.
Proof. unfold update_file; simpl. apply lookup_insert_eq. Qed.

(** A computation that ends normally makes the store and trace the next one
    starts from. *)
Lemma bind_done {A B} (m : M A) (g : A -> M B) k a k1 t1 :
  m k = (Done a, k1, t1) ->
  (m ≫= g) k = (result_of (g a k1), kernel_of (g a k1), t1 ++ trace_of (g a k1)).
Proof.
  intros H. unfold mbind, M_bind. rewrite H.
  by destruct (g a k1) as [[r k2] t2].
Qed.

Lemma trace_of_emit {B} (e : event) (g : unit -> M B) k :
  trace_of ((emit e ≫= g) k) = (e, k) :: trace_of (g tt k).
Proof.
  unfold mbind, M_bind, emit. by destruct (g tt k) as [[r k2] t2].
Qed.

Lemma load_fc_run fc c k :
  contexts k !! fc = Some c -> load_fc fc k = (Done c, k, []).
Proof. intros H. unfold load_fc. by rewrite H. Qed.

(** ** The diagnostic log *)

Lemma land_le_r a b : 0 <= a -> 0 <= b -> Z.land a b <= b.
Proof.
  intros Ha Hb.
  assert (H : 0 <= Z.land b (Z.lnot a)) by (apply Z.land_nonneg; lia).
  rewrite <- Z.sub_land_same_l in H. rewrite (Z.land_comm a b). lia.
Qed.

(** The index of the slot to read lies inside the array. *)
Lemma tail_index_lt l :
  0 <= log_tail l -> (0 < length (log_buffer l))%nat ->
  (Z.to_nat (tail_index l) < length (log_buffer l))%nat.
Proof.
  intros Ht Hn. unfold tail_index.
  pose proof (land_le_r (log_tail l) (Z.of_nat (length (log_buffer l)) - 1)).
  assert (0 <= Z.land (log_tail l) (Z.of_nat (length (log_buffer l)) - 1))
    by (apply Z.land_nonneg; lia).
  lia.
Qed.

Lemma need_free_bit_log_pop bits l i :
  need_free_bit (log_pop bits l i) i = false.
Proof.
  unfold need_free_bit, log_pop; simpl.
  rewrite <- Z.land_assoc, (Z.land_comm (Z.lnot _)), Z.land_lnot_diag,
    Z.land_0_r.
  reflexivity.
Qed.

(** C5.  A read whose lock is acquired on a log that is not empty takes the
    message at the tail out of the log, whatever the size of the caller's
    buffer.  The slot is the one at index [tail & (size - 1)], which is
    [tail] modulo the size when the size is a power of two.  In the log the
    context holds afterwards the tail has advanced by one (modulo the width
    of the counter), the head is as it was, that slot is NULL and its
    ownership bit clear, and every other slot is as it was.  When the
    message is longer than the buffer the read returns -EMSGSIZE, copies
    nothing, and frees the message exactly when its ownership bit was set.
    A read on an empty log returns -ENODATA after locking and unlocking and
    leaves the store, hence the tail, as it was. *)
Theorem fscontext_read_pops_before_size_check
    (E : environment) (bits : Z) (k : kernel) (f : file_ptr) (file0 : file)
    (fc : fc_ptr) (c : fs_context) (l : fc_log) (_buf len : Z) :
  files k !! f = Some file0 ->
  private_data file0 = Some fc ->
  contexts k !! fc = Some c ->
  log c = Some l ->
  0 <= mutex_lock_interruptible E ->
  0 <= log_tail l ->
  (0 < length (log_buffer l))%nat ->
  let R := fscontext_read E bits f _buf len k in
  let index := Z.land (log_tail l) (Z.of_nat (length (log_buffer l)) - 1) in
  (log_head l <> log_tail l ->
     (forall j, 0 <= j -> Z.of_nat (length (log_buffer l)) = 2 ^ j ->
        index = log_tail l mod 2 ^ j)
     /\ (exists c' l',
           contexts (kernel_of R) !! fc = Some c'
           /\ log c' = Some l'
           /\ phase c' = phase c
           /\ log_head l' = log_head l
           /\ log_tail l' = (log_tail l + 1) mod 2 ^ bits
           /\ log_buffer l' !! Z.to_nat index = Some None
           /\ (forall i, i <> Z.to_nat index ->
                 log_buffer l' !! i = log_buffer l !! i)
           /\ Z.land (log_need_free l') (Z.shiftl 1 index) = 0)
     /\ forall msg,
          log_buffer l !! Z.to_nat index = Some (Some msg) ->
          len < strlen msg ->
          result_of R = Done (- EMSGSIZE)
          /\ calls (trace_of R)
             = [EvMutexLockInterruptible fc; EvMutexUnlock fc]
               ++ (if Z.land (log_need_free l) (Z.shiftl 1 index) =? 0
                   then [] else [EvKfree msg]))
  /\ (log_head l = log_tail l ->
        result_of R = Done (- ENODATA) /\ kernel_of R = k
        /\ calls (trace_of R)
           = [EvMutexLockInterruptible fc; EvMutexUnlock fc]).
Proof.
  intros Hf Hpd Hc Hl Hlock Ht Hn R index.
  pose proof (tail_index_lt l Ht Hn) as Hidx.
  assert (Hlk : (mutex_lock_interruptible E <? 0) = false) by lia.
  assert (Hindex : tail_index l = index) by reflexivity.
  subst R. unfold fscontext_read. unfold_monad.
  rewrite Hf; simpl. rewrite Hpd, Hc; simpl. rewrite Hlk, Hc; simpl.
  rewrite Hl. split.
  - intros Hne. apply Z.eqb_neq in Hne. rewrite Hne, Hindex.
    rewrite Hindex in Hidx.
    destruct (log_buffer l !! Z.to_nat index) as [p|] eqn:Hp.
    2:{ apply lookup_ge_None in Hp. lia. }
    rewrite Hc. simpl.
    split; [|split].
    + intros j Hj Hsize. subst index. rewrite Hsize.
      replace (2 ^ j - 1) with (Z.ones j) by (rewrite Z.ones_equiv; lia).
      by apply Z.land_ones.
    + exists (set_log (Some (log_pop bits l index)) c), (log_pop bits l index).
      split.
      { destruct p as [msg|]; simpl.
        - destruct (len <? strlen msg); simpl.
          + destruct (need_free_bit l index); simpl;
              unfold kernel_of; simpl; apply contexts_update_fc.
          + destruct (copy_to_user E _buf msg (strlen msg) =? 0); simpl;
              destruct (need_free_bit l index); simpl;
              unfold kernel_of; simpl; apply contexts_update_fc.
        - unfold kernel_of; simpl; apply contexts_update_fc. }
      split; [done|]. split; [done|]. split; [done|]. split; [done|].
      split; [simpl; by apply list_lookup_insert_eq|].
      split; [intros i Hi; simpl; by apply list_lookup_insert_ne|].
      pose proof (need_free_bit_log_pop bits l index) as Hbit.
      unfold need_free_bit in Hbit. apply negb_false_iff in Hbit.
      by apply Z.eqb_eq in Hbit.
    + intros msg Hmsg Hlen. injection Hmsg as ->.
      apply Z.ltb_lt in Hlen. rewrite Hlen. simpl.
      unfold need_free_bit.
      destruct (Z.land (log_need_free l) (Z.shiftl 1 index) =? 0); simpl;
        split; reflexivity.
  - intros Heq. apply Z.eqb_eq in Heq. rewrite Heq. simpl.
    repeat split; reflexivity.
Qed.

(** With two messages waiting and the tail at 1, a read into a buffer of 3
    bytes loses "hello", the older one, in slot 1: the log in the store
    afterwards has its tail at 2 and only "late" left, in slot 0. *)
Lemma fscontext_read_pops_before_size_check_witness :
  let R := fscontext_read (Sample.env "source" 0) 8 1%nat 0 3
             (Further.system_with Further.two_messages) in
  (exists c' l',
     contexts (kernel_of R) !! 7%nat = Some c'
     /\ log c' = Some l'
     /\ log_head l' = 3
     /\ log_tail l' = 2
     /\ log_buffer l' !! 1%nat = Some None
     /\ log_buffer l' !! 0%nat = Some (Some "late"%string)
     /\ Z.land (log_need_free l') 2 = 0)
  /\ result_of R = Done (- EMSGSIZE)
  /\ calls (trace_of R)
     = [EvMutexLockInterruptible 7%nat; EvMutexUnlock 7%nat; EvKfree "hello"].
Proof.
  intros R.
  assert (Hne : log_head Further.two_messages <> log_tail Further.two_messages)
    by discriminate.
  assert (Hlock : 0 <= mutex_lock_interruptible (Sample.env "source" 0))
    by (simpl; lia).
  assert (Htail : 0 <= log_tail Further.two_messages) by (simpl; lia).
  assert (Hsize : (0 < length (log_buffer Further.two_messages))%nat)
    by (simpl; lia).
  destruct (proj1
    (fscontext_read_pops_before_size_check
       (Sample.env "source" 0) 8 (Further.system_with Further.two_messages)
       1%nat Further.bound_file 7%nat
       (Further.ctx_with Further.two_messages) Further.two_messages 0 3
       eq_refl eq_refl eq_refl eq_refl Hlock Htail Hsize) Hne)
    as (_ & (c' & l' & Hc' & Hl' & _ & Hhead & Htl & Hslot & Hrest & Hbit)
          & Hmsg).
  split.
  - exists c', l'.
    split; [exact Hc'|]. split; [exact Hl'|]. split; [exact Hhead|].
    split; [exact Htl|]. split; [exact Hslot|].
    split; [exact (Hrest 0%nat ltac:(discriminate))|exact Hbit].
  - apply (Hmsg "hello"%string); reflexivity.
Defined.

(** ** The descriptor binding *)

Lemma fscontext_release_bound k f file0 fc :
  files k !! f = Some file0 ->
  private_data file0 = Some fc ->
  fscontext_release f k
  = (Done 0, update_file f (set_private_data None file0) k,
     [(EvPutFsContext fc, update_file f (set_private_data None file0) k)]).
Proof.
  intros Hf Hpd. unfold fscontext_release. unfold_monad.
  rewrite Hf; simpl. rewrite Hpd, Hf. reflexivity.
Qed.

Lemma fscontext_release_unbound k f file0 :
  files k !! f = Some file0 ->
  private_data file0 = None ->
  fscontext_release f k = (Done 0, k, []).
Proof.
  intros Hf Hpd. unfold fscontext_release. unfold_monad.
  rewrite Hf; simpl. rewrite Hpd. reflexivity.
Qed.

(** C10.  Releasing a file returns 0 and leaves its context pointer NULL; a
    second release of the same file returns 0 and does nothing.  When the
    file held a context, the two releases together drop its reference once,
    and the drop happens on a store in which the pointer is already NULL. *)
Theorem fscontext_release_idempotent
    (k : kernel) (f : file_ptr) (file0 : file) :
  files k !! f = Some file0 ->
  let R1 := fscontext_release f k in
  let R2 := fscontext_release f (kernel_of R1) in
  result_of R1 = Done 0
  /\ private_data <$> files (kernel_of R1) !! f = Some None
  /\ R2 = (Done 0, kernel_of R1, [])
  /\ (forall fc, private_data file0 = Some fc ->
        calls (trace_of R1 ++ trace_of R2) = [EvPutFsContext fc]
        /\ forall e ks, (e, ks) ∈ trace_of R1 ->
             private_data <$> files ks !! f = Some None)
  /\ (private_data file0 = None -> R1 = (Done 0, k, [])).
Proof.
  intros Hf R1 R2.
  destruct (private_data file0) as [fc|] eqn:Hpd.
  - pose proof (fscontext_release_bound k f file0 fc Hf Hpd) as H1.
    assert (H2 : R2 = (Done 0, kernel_of R1, [])).
    { subst R2 R1. rewrite H1. unfold kernel_of; simpl.
      eapply fscontext_release_unbound; [apply files_update_file|done]. }
    subst R1. rewrite H2, H1. unfold result_of, kernel_of, trace_of; simpl.
    rewrite lookup_insert_eq.
    do 3 (split; [done|]). split; [|discriminate].
    intros fc' [= <-]. split; [done|].
    intros e ks Hin. apply list_elem_of_singleton in Hin.
    injection Hin as -> ->. by rewrite files_update_file.
  - pose proof (fscontext_release_unbound k f file0 Hf Hpd) as H1.
    subst R2 R1. rewrite H1. unfold result_of, kernel_of, trace_of; simpl.
    rewrite H1, Hf; simpl. rewrite Hpd. repeat split; done.
Qed.

(** Closing the sample descriptor twice puts context 7 once. *)
Lemma fscontext_release_idempotent_witness :
  let k := Sample.system FS_CONTEXT_CREATE_PARAMS in
  calls (trace_of (fscontext_release 1%nat k)
         ++ trace_of (fscontext_release 1%nat
                        (kernel_of (fscontext_release 1%nat k))))
  = [EvPutFsContext 7%nat].
Proof.
  refine (proj1 (proj1 (proj2 (proj2 (proj2
    (fscontext_release_idempotent (Sample.system FS_CONTEXT_CREATE_PARAMS)
       1%nat {| f_op := fscontext_fops; private_data := Some 7%nat |} _))))
    7%nat _)); reflexivity.
Defined.

(** ** The state machine of vfs_fsconfig *)

Lemma run_eta {A} (x : outcome A * kernel * trace) :
  (result_of x, kernel_of x, trace_of x) = x.
Proof. by destruct x as [[r k] t]. Qed.

(** Outside FS_CONTEXT_AWAITING_RECONF nothing is reinitialised. *)
Lemma vfs_fsconfig_reinit_skip E fc c k :
  contexts k !! fc = Some c ->
  phase c <> FS_CONTEXT_AWAITING_RECONF ->
  vfs_fsconfig_reinit E fc k = (Done None, k, []).
Proof.
  intros Hc Hph. unfold vfs_fsconfig_reinit.
  rewrite (bind_done _ _ _ _ _ _ (load_fc_run _ _ _ Hc)).
  by destruct (decide (phase c = FS_CONTEXT_AWAITING_RECONF)).
Qed.

Lemma vfs_fsconfig_not_pending E fc c cmd key value aux k :
  contexts k !! fc = Some c ->
  phase c <> FS_CONTEXT_AWAITING_RECONF ->
  vfs_fsconfig E fc cmd key value aux k
  = vfs_fsconfig_switch E fc cmd key value aux k.
Proof.
  intros Hc Hph. unfold vfs_fsconfig.
  rewrite (bind_done _ _ _ _ _ _ (vfs_fsconfig_reinit_skip E _ _ _ Hc Hph)).
  apply run_eta.
Qed.

(** In FS_CONTEXT_AWAITING_RECONF the context is reinitialised, then
    checked by the security module, and moves to FS_CONTEXT_FAILED or to
    FS_CONTEXT_RECONF_PARAMS. *)
Lemma vfs_fsconfig_reinit_pending E fc c k :
  contexts k !! fc = Some c ->
  phase c = FS_CONTEXT_AWAITING_RECONF ->
  let i := reinit_init E c in
  let s := security_fs_context_alloc E i.2 in
  let ti := reinit_init_trace E fc c k in
  let ts := ti ++ [(EvSecurityFsContextAlloc fc, reinit_init_kernel E fc c k)] in
  vfs_fsconfig_reinit E fc k
  = if i.1 <? 0 then
      (Done (Some i.1), update_fc fc (set_phase FS_CONTEXT_FAILED i.2) k, ti)
    else if s.1 <? 0 then
      (Done (Some s.1), update_fc fc (set_phase FS_CONTEXT_FAILED s.2) k, ts)
    else
      (Done None, update_fc fc (set_phase FS_CONTEXT_RECONF_PARAMS s.2) k, ts).
Proof.
  intros Hc Hph i s ti ts. subst ts ti s i.
  unfold reinit_init, reinit_init_trace, reinit_init_kernel,
    vfs_fsconfig_reinit.
  run. destruct (decide (phase c = FS_CONTEXT_AWAITING_RECONF)) as [_|]; [|done].
  destruct (init_fs_context E (fs_type c)) as [hook|]; run.
  - destruct ((hook c).1 <? 0); run; [by rewrite update_fc_twice|].
    destruct ((security_fs_context_alloc E (hook c).2).1 <? 0); run;
      by rewrite !update_fc_twice.
  - destruct ((security_fs_context_alloc E c).1 <? 0); run;
      by rewrite !update_fc_twice.
Qed.

(** The whole of vfs_fsconfig on a context in FS_CONTEXT_AWAITING_RECONF. *)
Lemma vfs_fsconfig_pending E fc c cmd key value aux k :
  contexts k !! fc = Some c ->
  phase c = FS_CONTEXT_AWAITING_RECONF ->
  let i := reinit_init E c in
  let s := security_fs_context_alloc E i.2 in
  let ti := reinit_init_trace E fc c k in
  let ts := ti ++ [(EvSecurityFsContextAlloc fc, reinit_init_kernel E fc c k)] in
  let k2 := update_fc fc (set_phase FS_CONTEXT_RECONF_PARAMS s.2) k in
  let R2 := vfs_fsconfig_switch E fc cmd key value aux k2 in
  vfs_fsconfig E fc cmd key value aux k
  = if i.1 <? 0 then
      (Done i.1, update_fc fc (set_phase FS_CONTEXT_FAILED i.2) k, ti)
    else if s.1 <? 0 then
      (Done s.1, update_fc fc (set_phase FS_CONTEXT_FAILED s.2) k, ts)
    else (result_of R2, kernel_of R2, ts ++ trace_of R2).
Proof.
  intros Hc Hph i s ti ts k2 R2.
  unfold vfs_fsconfig, mbind, M_bind.
  rewrite (vfs_fsconfig_reinit_pending E fc c k Hc Hph).
  fold i s ti ts k2.
  destruct (i.1 <? 0); [simpl; by rewrite ?app_nil_r|].
  destruct (s.1 <? 0); [simpl; by rewrite ?app_nil_r|].
  fold R2. by destruct R2 as [[r k3] t3].
Qed.

(** What the [switch] does for the create command, phase by phase. *)
Lemma vfs_fsconfig_switch_create_busy E fc c key value aux k :
  contexts k !! fc = Some c ->
  phase c <> FS_CONTEXT_CREATE_PARAMS ->
  vfs_fsconfig_switch E fc (fsconfig_command_to_Z fsconfig_cmd_create)
    key value aux k
  = (Done (- EBUSY), k, []).
Proof.
  intros Hc Hph. unfold vfs_fsconfig_switch. run.
  by rewrite bool_decide_eq_false_2.
Qed.

Lemma vfs_fsconfig_switch_create E fc c key value aux k :
  contexts k !! fc = Some c ->
  phase c = FS_CONTEXT_CREATE_PARAMS ->
  let c1 := set_phase FS_CONTEXT_CREATING c in
  let g := vfs_get_tree E c1 in
  vfs_fsconfig_switch E fc (fsconfig_command_to_Z fsconfig_cmd_create)
    key value aux k
  = (Done g.1,
     update_fc fc
       (set_phase (if g.1 =? 0 then FS_CONTEXT_AWAITING_MOUNT
                   else FS_CONTEXT_FAILED) g.2) k,
     [(EvVfsGetTree fc, update_fc fc c1 k)]).
Proof.
  intros Hc Hph c1 g. subst g c1. unfold vfs_fsconfig_switch. run.
  rewrite bool_decide_eq_true_2 by done. run.
  destruct ((vfs_get_tree E (set_phase FS_CONTEXT_CREATING c)).1 =? 0); run;
    by rewrite !update_fc_twice.
Qed.

(** C1 (amended).  The create command returns 0 only from
    FS_CONTEXT_CREATE_PARAMS.  In the phases Creating, AwaitingMount,
    ReconfParams and Failed it returns -EBUSY and changes nothing.  In
    AwaitingReconf the context is reinitialised first, by the driver's
    init_fs_context (if it has one) and then by the security check: when
    the first returns a negative value, or else the second does, that value
    is returned with the phase Failed; when both succeed the command returns
    -EBUSY with the phase ReconfParams, vfs_get_tree not being called.
    Dispatched from CreateParams, vfs_get_tree is called once, on a store in
    which the phase is Creating; its return value is returned and the phase
    becomes AwaitingMount when it is 0 and Failed otherwise. *)
Theorem vfs_fsconfig_create_transitions
    (E : environment) (k : kernel) (fc : fc_ptr) (c : fs_context)
    (key value : option string) (aux : Z) :
  contexts k !! fc = Some c ->
  let R := vfs_fsconfig E fc (fsconfig_command_to_Z fsconfig_cmd_create)
             key value aux k in
  let i := reinit_init E c in
  let s := security_fs_context_alloc E i.2 in
  let ti := reinit_init_trace E fc c k in
  let ts := ti ++ [(EvSecurityFsContextAlloc fc, reinit_init_kernel E fc c k)] in
  (result_of R = Done 0 -> phase c = FS_CONTEXT_CREATE_PARAMS)
  /\ (phase c <> FS_CONTEXT_CREATE_PARAMS ->
      phase c <> FS_CONTEXT_AWAITING_RECONF ->
      R = (Done (- EBUSY), k, []))
  /\ (phase c = FS_CONTEXT_AWAITING_RECONF ->
      (i.1 < 0 ->
         R = (Done i.1, update_fc fc (set_phase FS_CONTEXT_FAILED i.2) k, ti))
      /\ (0 <= i.1 -> s.1 < 0 ->
          R = (Done s.1, update_fc fc (set_phase FS_CONTEXT_FAILED s.2) k, ts))
      /\ (0 <= i.1 -> 0 <= s.1 ->
          R = (Done (- EBUSY),
               update_fc fc (set_phase FS_CONTEXT_RECONF_PARAMS s.2) k, ts)))
  /\ (phase c = FS_CONTEXT_CREATE_PARAMS ->
      let c1 := set_phase FS_CONTEXT_CREATING c in
      let g := vfs_get_tree E c1 in
      phase_of (update_fc fc c1 k) fc = Some FS_CONTEXT_CREATING
      /\ R = (Done g.1,
              update_fc fc
                (set_phase (if g.1 =? 0 then FS_CONTEXT_AWAITING_MOUNT
                            else FS_CONTEXT_FAILED) g.2) k,
              [(EvVfsGetTree fc, update_fc fc c1 k)])).
Proof.
  intros Hc R i s ti ts.
  assert (Hbusy : phase c <> FS_CONTEXT_CREATE_PARAMS ->
                  phase c <> FS_CONTEXT_AWAITING_RECONF ->
                  R = (Done (- EBUSY), k, [])).
  { intros H1 H2. subst R.
    rewrite (vfs_fsconfig_not_pending E fc c) by done.
    by apply vfs_fsconfig_switch_create_busy with c. }
  assert (Hpending : phase c = FS_CONTEXT_AWAITING_RECONF ->
    R = if i.1 <? 0 then
          (Done i.1, update_fc fc (set_phase FS_CONTEXT_FAILED i.2) k, ti)
        else if s.1 <? 0 then
          (Done s.1, update_fc fc (set_phase FS_CONTEXT_FAILED s.2) k, ts)
        else
          (Done (- EBUSY),
           update_fc fc (set_phase FS_CONTEXT_RECONF_PARAMS s.2) k, ts)).
  { intros Hph. subst R.
    rewrite (vfs_fsconfig_pending E fc c _ key value aux k Hc Hph).
    fold i s ti ts.
    destruct (i.1 <? 0); [done|]. destruct (s.1 <? 0); [done|].
    erewrite vfs_fsconfig_switch_create_busy;
      [|apply contexts_update_fc|done].
    unfold result_of, kernel_of, trace_of; cbn [fst snd].
    by rewrite app_nil_r. }
  split; [|split; [exact Hbusy|split]].
  - intros H0.
    destruct (decide (phase c = FS_CONTEXT_CREATE_PARAMS)) as [|Hn]; [done|].
    destruct (decide (phase c = FS_CONTEXT_AWAITING_RECONF)) as [Hp|Hp].
    + rewrite (Hpending Hp) in H0.
      destruct (i.1 <? 0) eqn:Hi; [injection H0; lia|].
      destruct (s.1 <? 0) eqn:Hs; [injection H0; lia|].
      discriminate.
    + rewrite (Hbusy Hn Hp) in H0. discriminate.
  - intros Hph. rewrite (Hpending Hph). split; [|split].
    + intros Hi. apply Z.ltb_lt in Hi. by rewrite Hi.
    + intros Hi Hs. apply Z.ltb_ge in Hi. apply Z.ltb_lt in Hs.
      by rewrite Hi, Hs.
    + intros Hi Hs. apply Z.ltb_ge in Hi. apply Z.ltb_ge in Hs.
      by rewrite Hi, Hs.
  - intros Hph c1 g. split; [apply phase_of_update_fc|].
    subst R. rewrite (vfs_fsconfig_not_pending E fc c) by (done || congruence).
    by apply vfs_fsconfig_switch_create.
Qed.

(** On the sample system the create command moves a context in CreateParams
    to AwaitingMount through Creating, and on a context in AwaitingReconf
    it is busy after the driver and the security module have been
    called. *)
Lemma vfs_fsconfig_create_transitions_witness :
  (let k := Sample.system FS_CONTEXT_CREATE_PARAMS in
   let c := Sample.ctx FS_CONTEXT_CREATE_PARAMS in
   vfs_fsconfig (Sample.env "source" 0) 7%nat
     (fsconfig_command_to_Z fsconfig_cmd_create) None None 0 k
   = (Done 0, update_fc 7%nat (set_phase FS_CONTEXT_AWAITING_MOUNT c) k,
      [(EvVfsGetTree 7%nat,
        update_fc 7%nat (set_phase FS_CONTEXT_CREATING c) k)]))
  /\ (let k := Sample.system FS_CONTEXT_AWAITING_RECONF in
      let c := Sample.ctx FS_CONTEXT_AWAITING_RECONF in
      vfs_fsconfig (Sample.env "source" 0) 7%nat
        (fsconfig_command_to_Z fsconfig_cmd_create) None None 0 k
      = (Done (- EBUSY),
         update_fc 7%nat (set_phase FS_CONTEXT_RECONF_PARAMS c) k,
         [(EvInitFsContext 7%nat, k);
          (EvSecurityFsContextAlloc 7%nat, update_fc 7%nat c k)])).
Proof.
  split.
  - refine (proj2 (proj2 (proj2 (proj2
      (vfs_fsconfig_create_transitions (Sample.env "source" 0)
         (Sample.system FS_CONTEXT_CREATE_PARAMS) 7%nat
         (Sample.ctx FS_CONTEXT_CREATE_PARAMS) None None 0 _))) _));
      reflexivity.
  - refine (proj2 (proj2 (proj1 (proj2 (proj2
      (vfs_fsconfig_create_transitions (Sample.env "source" 0)
         (Sample.system FS_CONTEXT_AWAITING_RECONF) 7%nat
         (Sample.ctx FS_CONTEXT_AWAITING_RECONF) None None 0 _))) _)) _ _);
      first [reflexivity | simpl; lia].
Defined.

(** C1 as stated fails: in AwaitingReconf, a phase other than CreateParams,
    the create command of a context whose driver cannot be reinitialised
    returns the driver's error -ENOMEM, not -EBUSY. *)
Lemma vfs_fsconfig_create_pending_not_busy :
  let k := Sample.system FS_CONTEXT_AWAITING_RECONF in
  let R := vfs_fsconfig (Sample.env "source" (- ENOMEM)) 7%nat
             (fsconfig_command_to_Z fsconfig_cmd_create) None None 0 k in
  phase_of k 7%nat = Some FS_CONTEXT_AWAITING_RECONF
  /\ result_of R = Done (- ENOMEM)
  /\ result_of R <> Done (- EBUSY)
  /\ phase_of (kernel_of R) 7%nat = Some FS_CONTEXT_FAILED.
Proof. vm_compute. repeat split; discriminate. Qed.

(** In a phase that accepts no parameter the parameter commands are busy. *)
Lemma vfs_fsconfig_switch_parameter_busy E fc c cmd key value aux k :
  contexts k !! fc = Some c ->
  sets_parameter cmd = true ->
  params_phase (phase c) = false ->
  vfs_fsconfig_switch E fc (fsconfig_command_to_Z cmd) key value aux k
  = (Done (- EBUSY), k, []).
Proof.
  intros Hc Hcmd Hph. unfold vfs_fsconfig_switch, vfs_fsconfig_option.
  destruct cmd; try discriminate; run; by rewrite Hph.
Qed.

(** What the [switch] does with a keyed parameter command in a phase that
    accepts parameters: one call, to the source setter or to the option
    parser. *)
Lemma vfs_fsconfig_switch_source E fc c v aux k :
  contexts k !! fc = Some c ->
  params_phase (phase c) = true ->
  vfs_fsconfig_switch E fc (fsconfig_command_to_Z fsconfig_set_string)
    (Some "source"%string) (Some v) aux k
  = (Done (vfs_set_fs_source E c v (strlen v)).1,
     update_fc fc (vfs_set_fs_source E c v (strlen v)).2 k,
     [(EvVfsSetFsSource fc v (strlen v), k)]).
Proof.
  intros Hc Hph. unfold vfs_fsconfig_switch. run. rewrite Hph; simpl. by run.
Qed.

Lemma vfs_fsconfig_switch_option E fc c cmd ks value aux k :
  contexts k !! fc = Some c ->
  params_phase (phase c) = true ->
  sets_parameter cmd = true ->
  ~ (cmd = fsconfig_set_string /\ ks = "source"%string) ->
  vfs_fsconfig_switch E fc (fsconfig_command_to_Z cmd) (Some ks) value aux k
  = (Done (vfs_parse_fs_option E c ks value aux).1,
     update_fc fc (vfs_parse_fs_option E c ks value aux).2 k,
     [(EvVfsParseFsOption fc ks value aux, k)]).
Proof.
  intros Hc Hph Hcmd Hnot.
  unfold vfs_fsconfig_switch, vfs_fsconfig_option.
  destruct cmd; try discriminate; simpl; run; rewrite Hph; simpl.
  - by run.
  - destruct (String.eqb_spec ks "source") as [->|_]; [by destruct Hnot|].
    run. rewrite Hph; simpl. by run.
  - by run.
Qed.

(** C2 (amended).  A flag, string or binary parameter command returns 0
    only when the phase is CreateParams, ReconfParams or AwaitingReconf.  In
    the phases Creating, AwaitingMount and Failed it returns -EBUSY and
    changes nothing.  In AwaitingReconf the context is reinitialised first,
    by the driver's init_fs_context (if it has one) and then by the
    security check: when the first returns a negative value, or else the
    second does, that value is returned with the phase Failed and the
    parameter is not looked at; when both succeed the command is carried
    out on the context they left, moved to ReconfParams, which for a
    command with a key means one call of vfs_set_fs_source (string form,
    key "source") or of vfs_parse_fs_option (otherwise) on that context,
    whose return value is returned. *)
Theorem vfs_fsconfig_set_parameter_phase
    (E : environment) (k : kernel) (fc : fc_ptr) (c : fs_context)
    (cmd : fsconfig_command) (key value : option string) (aux : Z) :
  contexts k !! fc = Some c ->
  sets_parameter cmd = true ->
  let R := vfs_fsconfig E fc (fsconfig_command_to_Z cmd) key value aux k in
  let i := reinit_init E c in
  let s := security_fs_context_alloc E i.2 in
  let ti := reinit_init_trace E fc c k in
  let ts := ti ++ [(EvSecurityFsContextAlloc fc, reinit_init_kernel E fc c k)] in
  let c2 := set_phase FS_CONTEXT_RECONF_PARAMS s.2 in
  let k2 := update_fc fc c2 k in
  (result_of R = Done 0 ->
     phase c = FS_CONTEXT_CREATE_PARAMS \/ phase c = FS_CONTEXT_RECONF_PARAMS
     \/ phase c = FS_CONTEXT_AWAITING_RECONF)
  /\ (phase c = FS_CONTEXT_CREATING \/ phase c = FS_CONTEXT_AWAITING_MOUNT
      \/ phase c = FS_CONTEXT_FAILED ->
      R = (Done (- EBUSY), k, []))
  /\ (phase c = FS_CONTEXT_AWAITING_RECONF ->
      (i.1 < 0 ->
         R = (Done i.1, update_fc fc (set_phase FS_CONTEXT_FAILED i.2) k, ti))
      /\ (0 <= i.1 -> s.1 < 0 ->
          R = (Done s.1, update_fc fc (set_phase FS_CONTEXT_FAILED s.2) k, ts))
      /\ (0 <= i.1 -> 0 <= s.1 ->
          let R2 := vfs_fsconfig_switch E fc (fsconfig_command_to_Z cmd)
                      key value aux k2 in
          R = (result_of R2, kernel_of R2, ts ++ trace_of R2)
          /\ forall ks,
               key = Some ks ->
               (forall v,
                  cmd = fsconfig_set_string -> ks = "source"%string ->
                  value = Some v ->
                  R = (Done (vfs_set_fs_source E c2 v (strlen v)).1,
                       update_fc fc (vfs_set_fs_source E c2 v (strlen v)).2 k,
                       ts ++ [(EvVfsSetFsSource fc v (strlen v), k2)]))
               /\ (~ (cmd = fsconfig_set_string /\ ks = "source"%string) ->
                   R = (Done (vfs_parse_fs_option E c2 ks value aux).1,
                        update_fc fc
                          (vfs_parse_fs_option E c2 ks value aux).2 k,
                        ts ++ [(EvVfsParseFsOption fc ks value aux, k2)])))).
Proof.
  intros Hc Hcmd R i s ti ts c2 k2.
  assert (Hbusy : phase c = FS_CONTEXT_CREATING
                  \/ phase c = FS_CONTEXT_AWAITING_MOUNT
                  \/ phase c = FS_CONTEXT_FAILED ->
                  R = (Done (- EBUSY), k, [])).
  { intros Hph. subst R.
    rewrite (vfs_fsconfig_not_pending E fc c) by (done || intuition congruence).
    apply vfs_fsconfig_switch_parameter_busy with c; [done..|].
    by destruct Hph as [-> | [-> | ->]]. }
  split; [|split; [exact Hbusy|]].
  - intros H0. destruct (phase c) eqn:Hph; auto;
      rewrite Hbusy in H0 by auto; discriminate.
  - intros Hph.
    pose proof (vfs_fsconfig_pending E fc c (fsconfig_command_to_Z cmd)
                  key value aux k Hc Hph) as HR.
    cbv zeta in HR. fold i s ti ts c2 k2 R in HR.
    split; [|split].
    + intros Hi. apply Z.ltb_lt in Hi. by rewrite Hi in HR.
    + intros Hi Hs. apply Z.ltb_ge in Hi. apply Z.ltb_lt in Hs.
      by rewrite Hi, Hs in HR.
    + intros Hi Hs R2. apply Z.ltb_ge in Hi. apply Z.ltb_ge in Hs.
      rewrite Hi, Hs in HR. fold R2 in HR. split; [exact HR|].
      intros ks ->. split.
      * intros v -> -> ->. rewrite HR. subst R2.
        rewrite (vfs_fsconfig_switch_source E fc c2 v aux k2)
          by (apply contexts_update_fc || done).
        unfold result_of, kernel_of, trace_of; cbn [fst snd].
        subst k2. by rewrite update_fc_twice.
      * intros Hnot. rewrite HR. subst R2.
        rewrite (vfs_fsconfig_switch_option E fc c2 cmd ks value aux k2)
          by (apply contexts_update_fc || done).
        unfold result_of, kernel_of, trace_of; cbn [fst snd].
        subst k2. by rewrite update_fc_twice.
Qed.

(** A flag set on the sample context is busy while it is in AwaitingMount;
    while it is in AwaitingReconf it goes to the option parser once the
    driver and the security module have been called. *)
Lemma vfs_fsconfig_set_parameter_phase_witness :
  vfs_fsconfig (Sample.env "ro" 0) 7%nat
    (fsconfig_command_to_Z fsconfig_set_flag) (Some "ro"%string) None 0
    (Sample.system FS_CONTEXT_AWAITING_MOUNT)
  = (Done (- EBUSY), Sample.system FS_CONTEXT_AWAITING_MOUNT, [])
  /\ (let k := Sample.system FS_CONTEXT_AWAITING_RECONF in
      let c := Sample.ctx FS_CONTEXT_AWAITING_RECONF in
      let c2 := set_phase FS_CONTEXT_RECONF_PARAMS c in
      vfs_fsconfig (Sample.env "ro" 0) 7%nat
        (fsconfig_command_to_Z fsconfig_set_flag) (Some "ro"%string) None 0 k
      = (Done 0, update_fc 7%nat c2 k,
         [(EvInitFsContext 7%nat, k);
          (EvSecurityFsContextAlloc 7%nat, update_fc 7%nat c k);
          (EvVfsParseFsOption 7%nat "ro" None 0, update_fc 7%nat c2 k)])).
Proof.
  split.
  - refine (proj1 (proj2
      (vfs_fsconfig_set_parameter_phase (Sample.env "ro" 0)
         (Sample.system FS_CONTEXT_AWAITING_MOUNT) 7%nat
         (Sample.ctx FS_CONTEXT_AWAITING_MOUNT) fsconfig_set_flag
         (Some "ro"%string) None 0 _ _)) _);
      [reflexivity | reflexivity | right; left; reflexivity].
  - refine (proj2 (proj2 (proj2 (proj2 (proj2 (proj2
      (vfs_fsconfig_set_parameter_phase (Sample.env "ro" 0)
         (Sample.system FS_CONTEXT_AWAITING_RECONF) 7%nat
         (Sample.ctx FS_CONTEXT_AWAITING_RECONF) fsconfig_set_flag
         (Some "ro"%string) None 0 _ _)) _)) _ _) "ro"%string _) _);
      first [reflexivity | simpl; lia | by intros [[=] _]].
Defined.

(** C2 as stated fails: in AwaitingReconf, a phase other than CreateParams
    and ReconfParams, setting a flag succeeds and the phase changes. *)
Lemma vfs_fsconfig_set_flag_pending_succeeds :
  let k := Sample.system FS_CONTEXT_AWAITING_RECONF in
  let R := vfs_fsconfig (Sample.env "ro" 0) 7%nat
             (fsconfig_command_to_Z fsconfig_set_flag)
             (Some "ro"%string) None 0 k in
  phase_of k 7%nat = Some FS_CONTEXT_AWAITING_RECONF
  /\ result_of R = Done 0
  /\ result_of R <> Done (- EBUSY)
  /\ phase_of (kernel_of R) 7%nat = Some FS_CONTEXT_RECONF_PARAMS
  /\ phase_of (kernel_of R) 7%nat <> phase_of k 7%nat.
Proof. vm_compute. repeat split; discriminate. Qed.

(** ** The reconfigure command *)

(** The [switch] of vfs_fsconfig has no case for the reconfigure command,
    which takes the [default:] label. *)
Lemma vfs_fsconfig_switch_reconfigure E fc key value aux k :
  vfs_fsconfig_switch E fc (fsconfig_command_to_Z fsconfig_cmd_reconfigure)
    key value aux k
  = (Done (- EOPNOTSUPP), k, []).
Proof. reflexivity. Qed.

(** C3 (the code departs from it).  On a descriptor bound to a context in
    FS_CONTEXT_RECONF_PARAMS, the reconfigure command with the shape the
    system call demands of it (no key, no value, aux 0) passes the shape
    check, reaches vfs_fsconfig under the lock and is rejected there with
    -EOPNOTSUPP, the context unchanged. *)
Theorem fsconfig_reconfigure_not_supported
    (E : environment) (k : kernel) (fd : Z) (fp : file_ptr)
    (file0 : file) (fc : fc_ptr) (c : fs_context) :
  0 <= fd ->
  fdtable k !! fd = Some fp ->
  files k !! fp = Some file0 ->
  f_op file0 = fscontext_fops ->
  private_data file0 = Some fc ->
  contexts k !! fc = Some c ->
  phase c = FS_CONTEXT_RECONF_PARAMS ->
  mutex_lock_interruptible E = 0 ->
  fsconfig_check_shape
    (fsconfig_command_to_Z fsconfig_cmd_reconfigure) 0 0 0 = None
  /\ vfs_fsconfig E fc (fsconfig_command_to_Z fsconfig_cmd_reconfigure)
       None None 0 k
     = (Done (- EOPNOTSUPP), k, [])
  /\ fsconfig E fd (fsconfig_command_to_Z fsconfig_cmd_reconfigure) 0 0 0 k
     = (Done (- EOPNOTSUPP), k,
        [(EvFdget fd, k); (EvMutexLockInterruptible fc, k);
         (EvMutexUnlock fc, k); (EvFdput fd, k)]).
Proof.
  intros Hfd Hfp Hfile Hop Hpd Hc Hph Hlock.
  assert (Hv : vfs_fsconfig E fc
                 (fsconfig_command_to_Z fsconfig_cmd_reconfigure)
                 None None 0 k
               = (Done (- EOPNOTSUPP), k, [])).
  { rewrite (vfs_fsconfig_not_pending E fc c) by (done || congruence).
    apply vfs_fsconfig_switch_reconfigure. }
  split; [reflexivity|]. split; [exact Hv|].
  unfold fsconfig. apply Z.ltb_ge in Hfd. rewrite Hfd. simpl.
  unfold fsconfig_copy_value, fsconfig_locked, out_key, out_f, kfree. simpl.
  unfold_monad. rewrite Hfp, Hfile. simpl. rewrite Hop. simpl.
  rewrite Hpd, Hc, Hlock. simpl.
  change 7 with (fsconfig_command_to_Z fsconfig_cmd_reconfigure).
  rewrite Hv. reflexivity.
Qed.

(** The call on descriptor 3 of the sample system. *)
Lemma fsconfig_reconfigure_not_supported_witness :
  result_of
    (fsconfig (Sample.env "source" 0) 3
       (fsconfig_command_to_Z fsconfig_cmd_reconfigure) 0 0 0
       (Sample.system FS_CONTEXT_RECONF_PARAMS))
  = Done (- EOPNOTSUPP).
Proof.
  refine (f_equal result_of (proj2 (proj2
    (fsconfig_reconfigure_not_supported (Sample.env "source" 0)
       (Sample.system FS_CONTEXT_RECONF_PARAMS) 3 1%nat
       {| f_op := fscontext_fops; private_data := Some 7%nat |} 7%nat
       (Sample.ctx FS_CONTEXT_RECONF_PARAMS) _ _ _ _ _ _ _ _))));
    first [reflexivity | simpl; lia].
Defined.

(** ** Routing of a parameter *)

(** C7.  In a phase that accepts parameters, a parameter command with a key
    (and, for the string form, a value) makes exactly one call: the string
    form whose key is equal to "source" calls vfs_set_fs_source with the
    value and its length; the string form with any other key, and the flag
    and binary forms with any key, call vfs_parse_fs_option with the key,
    the value and aux.  The value returned is the one that call returns. *)
Theorem vfs_fsconfig_source_routing
    (E : environment) (k : kernel) (fc : fc_ptr) (c : fs_context)
    (cmd : fsconfig_command) (key : string) (value : option string)
    (aux : Z) :
  contexts k !! fc = Some c ->
  params_phase (phase c) = true ->
  sets_parameter cmd = true ->
  (cmd = fsconfig_set_string -> is_Some value) ->
  let R := vfs_fsconfig E fc (fsconfig_command_to_Z cmd) (Some key) value
             aux k in
  (cmd = fsconfig_set_string /\ key = "source"%string ->
     exists v, value = Some v
       /\ calls (trace_of R) = [EvVfsSetFsSource fc v (strlen v)]
       /\ result_of R = Done (vfs_set_fs_source E c v (strlen v)).1)
  /\ (~ (cmd = fsconfig_set_string /\ key = "source"%string) ->
        calls (trace_of R) = [EvVfsParseFsOption fc key value aux]
        /\ result_of R = Done (vfs_parse_fs_option E c key value aux).1).
Proof.
  intros Hc Hph Hcmd Hval R.
  assert (Hnp : phase c <> FS_CONTEXT_AWAITING_RECONF)
    by (intros Heq; rewrite Heq in Hph; discriminate).
  subst R. rewrite (vfs_fsconfig_not_pending E fc c) by done.
  unfold vfs_fsconfig_switch, vfs_fsconfig_option.
  destruct (String.eqb_spec key "source") as [Hkey|Hkey].
  - destruct cmd; try discriminate; simpl.
    + split; [intros [[=] _]|]. intros _. run. rewrite Hph; simpl. by run.
    + destruct (Hval eq_refl) as [v ->]. split; [|intros []; done].
      intros _. exists v. run. rewrite Hph; simpl. subst key; simpl. by run.
    + split; [intros [[=] _]|]. intros _. run. rewrite Hph; simpl. by run.
  - split; [intros [_ ?]; done|]. intros _.
    apply String.eqb_neq in Hkey.
    destruct cmd; try discriminate; simpl; run; rewrite Hph; simpl;
      rewrite ?Hkey; run; rewrite ?Hph; simpl; by run.
Qed.

(** The key "source" on the sample system goes to vfs_set_fs_source. *)
Lemma vfs_fsconfig_source_routing_witness :
  calls (trace_of
    (vfs_fsconfig (Sample.env "source" 0) 7%nat
       (fsconfig_command_to_Z fsconfig_set_string)
       (Some "source"%string) (Some "none"%string) 0
       (Sample.system FS_CONTEXT_CREATE_PARAMS)))
  = [EvVfsSetFsSource 7%nat "none" 4].
Proof.
  destruct (proj1
    (vfs_fsconfig_source_routing (Sample.env "source" 0)
       (Sample.system FS_CONTEXT_CREATE_PARAMS) 7%nat
       (Sample.ctx FS_CONTEXT_CREATE_PARAMS) fsconfig_set_string
       "source"%string (Some "none"%string) 0
       eq_refl eq_refl eq_refl (fun _ => ex_intro _ _ eq_refl))
    (conj eq_refl eq_refl)) as (v & Hv & Hcalls & _).
  injection Hv as <-. exact Hcalls.
Defined.

(** ** Reinitialisation before any command *)

(** With collaborators that leave the phase alone, the [switch] leaves a
    context in FS_CONTEXT_RECONF_PARAMS there, whatever the command and
    however it ends. *)
Lemma vfs_fsconfig_switch_keeps_reconf_params E fc c cmd key value aux k :
  (forall c v n, phase (vfs_set_fs_source E c v n).2 = phase c) ->
  (forall c key v aux, phase (vfs_parse_fs_option E c key v aux).2 = phase c) ->
  contexts k !! fc = Some c ->
  phase c = FS_CONTEXT_RECONF_PARAMS ->
  phase_of (kernel_of (vfs_fsconfig_switch E fc cmd key value aux k)) fc
  = Some FS_CONTEXT_RECONF_PARAMS.
Proof.
  intros Hsrc Hopt Hc Hph.
  assert (Hk : phase_of k fc = Some FS_CONTEXT_RECONF_PARAMS)
    by (unfold phase_of; rewrite Hc; simpl; congruence).
  unfold vfs_fsconfig_switch, vfs_fsconfig_option.
  destruct (fsconfig_command_of_Z cmd) as [[]|]; run; rewrite ?Hph; simpl;
    try exact Hk.
  - destruct key as [key|]; run; [|exact Hk].
    unfold kernel_of; cbn [fst snd].
    rewrite phase_of_update_fc, Hopt. congruence.
  - destruct key as [key|]; run; [|exact Hk].
    destruct (String.eqb key "source").
    + destruct value as [v|]; run; [|exact Hk].
      unfold kernel_of; cbn [fst snd].
    rewrite phase_of_update_fc, Hsrc. congruence.
    + run. rewrite Hph; simpl. run.
      unfold kernel_of; cbn [fst snd].
    rewrite phase_of_update_fc, Hopt. congruence.
  - destruct key as [key|]; run; [|exact Hk].
    unfold kernel_of; cbn [fst snd].
    rewrite phase_of_update_fc, Hopt. congruence.
Qed.

(** C9.  On a context in FS_CONTEXT_AWAITING_RECONF, whatever the command:
    the driver's init_fs_context (if it has one) and then the security check
    are called before anything else.  If the first returns a negative value,
    or else the second does, that value is returned, the phase is Failed and
    the command is not looked at.  Otherwise the command is carried out by the
    [switch] on the context moved to ReconfParams, and the phase is
    ReconfParams at the end whether the command succeeds or not. *)
Theorem vfs_fsconfig_reinit_first
    (E : environment) (k : kernel) (fc : fc_ptr) (c : fs_context)
    (cmd : Z) (key value : option string) (aux : Z) :
  (forall c v n, phase (vfs_set_fs_source E c v n).2 = phase c) ->
  (forall c key v aux, phase (vfs_parse_fs_option E c key v aux).2 = phase c) ->
  contexts k !! fc = Some c ->
  phase c = FS_CONTEXT_AWAITING_RECONF ->
  let R := vfs_fsconfig E fc cmd key value aux k in
  let i := reinit_init E c in
  let s := security_fs_context_alloc E i.2 in
  let ti := reinit_init_trace E fc c k in
  let ts := ti ++ [(EvSecurityFsContextAlloc fc, reinit_init_kernel E fc c k)] in
  (i.1 < 0 ->
     R = (Done i.1, update_fc fc (set_phase FS_CONTEXT_FAILED i.2) k, ti)
     /\ phase_of (kernel_of R) fc = Some FS_CONTEXT_FAILED)
  /\ (0 <= i.1 -> s.1 < 0 ->
      R = (Done s.1, update_fc fc (set_phase FS_CONTEXT_FAILED s.2) k, ts)
      /\ phase_of (kernel_of R) fc = Some FS_CONTEXT_FAILED)
  /\ (0 <= i.1 -> 0 <= s.1 ->
      let k2 := update_fc fc (set_phase FS_CONTEXT_RECONF_PARAMS s.2) k in
      let R2 := vfs_fsconfig_switch E fc cmd key value aux k2 in
      R = (result_of R2, kernel_of R2, ts ++ trace_of R2)
      /\ phase_of k2 fc = Some FS_CONTEXT_RECONF_PARAMS
      /\ phase_of (kernel_of R) fc = Some FS_CONTEXT_RECONF_PARAMS).
Proof.
  intros Hsrc Hopt Hc Hph R i s ti ts.
  pose proof (vfs_fsconfig_pending E fc c cmd key value aux k Hc Hph) as HR.
  cbv zeta in HR. fold i s ti ts R in HR.
  split; [|split].
  - intros Hi. apply Z.ltb_lt in Hi. rewrite Hi in HR. rewrite HR.
    split; [done|]. apply phase_of_update_fc.
  - intros Hi Hs. apply Z.ltb_ge in Hi. apply Z.ltb_lt in Hs.
    rewrite Hi, Hs in HR. rewrite HR.
    split; [done|]. apply phase_of_update_fc.
  - intros Hi Hs k2 R2. apply Z.ltb_ge in Hi. apply Z.ltb_ge in Hs.
    rewrite Hi, Hs in HR. fold k2 R2 in HR. rewrite HR.
    split; [done|]. split; [apply phase_of_update_fc|].
    unfold kernel_of at 1; simpl. subst R2.
    apply vfs_fsconfig_switch_keeps_reconf_params
      with (c := set_phase FS_CONTEXT_RECONF_PARAMS s.2);
      [done | done | apply contexts_update_fc | done].
Qed.

(** On the sample system in AwaitingReconf the create command is busy, yet
    the context has been reinitialised and is in ReconfParams. *)
Lemma vfs_fsconfig_reinit_first_witness :
  let R := vfs_fsconfig (Sample.env "source" 0) 7%nat
             (fsconfig_command_to_Z fsconfig_cmd_create) None None 0
             (Sample.system FS_CONTEXT_AWAITING_RECONF) in
  phase_of (kernel_of R) 7%nat = Some FS_CONTEXT_RECONF_PARAMS.
Proof.
  refine (proj2 (proj2 (proj2 (proj2
    (vfs_fsconfig_reinit_first (Sample.env "source" 0)
       (Sample.system FS_CONTEXT_AWAITING_RECONF) 7%nat
       (Sample.ctx FS_CONTEXT_AWAITING_RECONF)
       (fsconfig_command_to_Z fsconfig_cmd_create) None None 0
       (fun _ _ _ => eq_refl) (fun _ _ _ _ => eq_refl) eq_refl eq_refl))
    _ _)));
    simpl; lia.
Defined.

(** ** The fsconfig system call: validation *)

(** Whatever it returns, the shape check returns -EINVAL or -EOPNOTSUPP. *)
Lemma fsconfig_check_shape_errors cmd _key _value aux ret :
  fsconfig_check_shape cmd _key _value aux = Some ret ->
  ret = - EINVAL \/ ret = - EOPNOTSUPP.
Proof.
  unfold fsconfig_check_shape.
  destruct (fsconfig_command_of_Z cmd) as [[]|];
    repeat match goal with
           | |- context [if ?b then _ else _] => destruct b
           end;
    intros [= <-]; auto.
Qed.

(** C4 (amended).  On a descriptor that is open on a file of another kind,
    fsconfig never returns -EBADF: a call that passes the shape check
    returns -EINVAL having only taken and dropped the descriptor (no key or
    value copied, no lock taken, store unchanged), and a call that does not
    pass it returns -EINVAL or -EOPNOTSUPP without any call at all.  -EBADF
    is what a call that passes the shape check returns on a descriptor that
    is not open. *)
Theorem fsconfig_foreign_descriptor
    (E : environment) (k : kernel) (fd : Z) (cmd _key _value aux : Z) :
  let R := fsconfig E fd cmd _key _value aux k in
  (forall fp file0,
      fdtable k !! fd = Some fp ->
      files k !! fp = Some file0 ->
      f_op file0 <> fscontext_fops ->
      result_of R <> Done (- EBADF)
      /\ kernel_of R = k
      /\ (0 <= fd -> fsconfig_check_shape cmd _key _value aux = None ->
          R = (Done (- EINVAL), k, [(EvFdget fd, k); (EvFdput fd, k)]))
      /\ (fd < 0 \/ fsconfig_check_shape cmd _key _value aux <> None ->
          (result_of R = Done (- EINVAL) \/ result_of R = Done (- EOPNOTSUPP))
          /\ trace_of R = []))
  /\ (fdtable k !! fd = None ->
      0 <= fd -> fsconfig_check_shape cmd _key _value aux = None ->
      R = (Done (- EBADF), k, [(EvFdget fd, k)])).
Proof.
  intros R. subst R. unfold fsconfig. split.
  - intros fp file0 Hfd Hfile Hop.
    destruct (fd <? 0) eqn:Hneg.
    { apply Z.ltb_lt in Hneg.
      split; [done|]. split; [done|]. split; [intros; lia|].
      intros _. split; [by left|done]. }
    apply Z.ltb_ge in Hneg.
    destruct (fsconfig_check_shape cmd _key _value aux) as [ret|] eqn:Hshape.
    { split; [|split; [done|split; [done|]]].
      - destruct (fsconfig_check_shape_errors _ _ _ _ _ Hshape) as [-> | ->];
          discriminate.
      - intros _. split; [|done].
        destruct (fsconfig_check_shape_errors _ _ _ _ _ Hshape) as [-> | ->];
          auto. }
    unfold out_f. unfold_monad. simpl. rewrite Hfd, Hfile. simpl.
    rewrite bool_decide_eq_false_2 by done. simpl.
    split; [done|]. split; [done|]. split; [done|].
    intros [?|?]; [lia|done].
  - intros Hfd Hpos Hshape. apply Z.ltb_ge in Hpos. rewrite Hpos, Hshape.
    unfold_monad. simpl. by rewrite Hfd.
Qed.

(** Descriptor 4 of the sample system is open on another kind of file. *)
Lemma fsconfig_foreign_descriptor_witness :
  let k := Sample.system FS_CONTEXT_CREATE_PARAMS in
  fsconfig (Sample.env "ro" 0) 4
    (fsconfig_command_to_Z fsconfig_set_flag) 100 0 0 k
  = (Done (- EINVAL), k, [(EvFdget 4, k); (EvFdput 4, k)]).
Proof.
  refine (proj1 (proj2 (proj2 (proj1
    (fsconfig_foreign_descriptor (Sample.env "ro" 0)
       (Sample.system FS_CONTEXT_CREATE_PARAMS) 4
       (fsconfig_command_to_Z fsconfig_set_flag) 100 0 0)
    2%nat {| f_op := other_fops 0; private_data := None |} _ _ _))) _ _);
    first [reflexivity | discriminate | simpl; lia].
Defined.

(** C4 as stated fails: on descriptor 4 of the sample system, open but not on
    a file of this kind, a well-formed call returns -EINVAL, not -EBADF. *)
Lemma fsconfig_foreign_descriptor_not_ebadf :
  let k := Sample.system FS_CONTEXT_CREATE_PARAMS in
  let R := fsconfig (Sample.env "ro" 0) 4
             (fsconfig_command_to_Z fsconfig_set_flag) 100 0 0 k in
  (exists fp file0,
      fdtable k !! 4 = Some fp /\ files k !! fp = Some file0
      /\ f_op file0 <> fscontext_fops)
  /\ result_of R = Done (- EINVAL)
  /\ result_of R <> Done (- EBADF).
Proof.
  split.
  - exists 2%nat, {| f_op := other_fops 0; private_data := None |}.
    split; [reflexivity|]. split; [reflexivity|]. discriminate.
  - vm_compute. split; [reflexivity | discriminate].
Qed.

(** C6.  A set-binary call whose aux is not between 1 and 1048576 returns
    -EINVAL without a single call into the kernel, the store unchanged; in
    particular with aux 1048577, 0 or a negative number.  A set-binary call
    that gets as far as resolving the descriptor has aux in that range, and
    every aux in that range, with a key, a value and a descriptor number
    that is not negative, does get there. *)
Theorem fsconfig_set_binary_length
    (E : environment) (k : kernel) (fd _key _value aux : Z) :
  let R := fsconfig E fd (fsconfig_command_to_Z fsconfig_set_binary)
             _key _value aux k in
  (~ (1 <= aux <= 1048576) -> R = (Done (- EINVAL), k, []))
  /\ (trace_of R <> [] -> 1 <= aux <= 1048576)
  /\ (0 <= fd -> _key <> 0 -> _value <> 0 -> 1 <= aux <= 1048576 ->
      exists t, trace_of R = (EvFdget fd, k) :: t).
Proof.
  intros R.
  assert (Hout : ~ (1 <= aux <= 1048576) -> R = (Done (- EINVAL), k, [])).
  { intros Haux. subst R. unfold fsconfig, fsconfig_check_shape. simpl.
    destruct (fd <? 0); [done|].
    assert (Hb : (aux <=? 0) || (1024 * 1024 <? aux) = true).
    { apply orb_true_iff. lia. }
    rewrite <- !orb_assoc, Hb, !orb_true_r. reflexivity. }
  split; [exact Hout|]. split.
  - intros Ht. destruct (decide (1 <= aux <= 1048576)) as [|Hn]; [done|].
    rewrite (Hout Hn) in Ht. done.
  - intros Hfd Hkey Hvalue Haux. subst R.
    unfold fsconfig, fsconfig_check_shape. simpl.
    apply Z.ltb_ge in Hfd. apply Z.eqb_neq in Hkey, Hvalue.
    rewrite Hfd, Hkey, Hvalue. simpl.
    assert (Hb : (aux <=? 0) || (1024 * 1024 <? aux) = false).
    { apply orb_false_iff. lia. }
    rewrite Hb. eexists. apply trace_of_emit.
Qed.

(** A blob of 1048577 bytes on the sample descriptor. *)
Lemma fsconfig_set_binary_length_witness :
  let k := Sample.system FS_CONTEXT_CREATE_PARAMS in
  fsconfig (Sample.env "blob" 0) 3
    (fsconfig_command_to_Z fsconfig_set_binary) 100 200 1048577 k
  = (Done (- EINVAL), k, []).
Proof.
  refine (proj1
    (fsconfig_set_binary_length (Sample.env "blob" 0)
       (Sample.system FS_CONTEXT_CREATE_PARAMS) 3 100 200 1048577) _).
  lia.
Defined.

(** ** fspick on a filesystem that cannot be reconfigured *)

(** C8.  A permitted fspick call with valid flags whose path resolves to a
    target whose superblock has no reconfigure operation returns
    -EOPNOTSUPP after exactly two calls, the path lookup and one path_put
    of the target: no context is created, no log allocated, no descriptor
    made, and the store is unchanged. *)
Theorem fspick_reconfigure_unsupported
    (E : environment) (logsize : nat) (k : kernel) (dfd upath flags ret : Z)
    (target : path) :
  ns_capable E = true ->
  Z.land flags (Z.lnot FSPICK_VALID_FLAGS) = 0 ->
  user_path_at E dfd upath (fspick_lookup_flags flags) = (ret, target) ->
  0 <= ret ->
  s_op_reconfigure (d_sb (path_dentry target)) = false ->
  let R := fspick E logsize dfd upath flags k in
  R = (Done (- EOPNOTSUPP), k,
       [(EvUserPathAt dfd upath (fspick_lookup_flags flags), k);
        (EvPathPut target, k)])
  /\ length (filter is_path_put (calls (trace_of R))) = 1%nat
  /\ filter builds_context (calls (trace_of R)) = []
  /\ contexts (kernel_of R) = contexts k.
Proof.
  intros Hcap Hflags Hpath Hret Hop R.
  assert (HR : R = (Done (- EOPNOTSUPP), k,
                    [(EvUserPathAt dfd upath (fspick_lookup_flags flags), k);
                     (EvPathPut target, k)])).
  { subst R. unfold fspick, path_put.
    rewrite Hcap, Hflags. simpl. unfold_monad. rewrite Hpath.
    apply Z.ltb_ge in Hret. rewrite Hret, Hop. reflexivity. }
  rewrite HR. repeat split.
Qed.

(** The target of the sample system cannot be reconfigured. *)
Lemma fspick_reconfigure_unsupported_witness :
  let k := Sample.system FS_CONTEXT_CREATE_PARAMS in
  fspick (Sample.env "source" 0) 8 (-100) 100 0 k
  = (Done (- EOPNOTSUPP), k,
     [(EvUserPathAt (-100) 100 5, k); (EvPathPut Sample.target, k)]).
Proof.
  refine (proj1
    (fspick_reconfigure_unsupported (Sample.env "source" 0) 8
       (Sample.system FS_CONTEXT_CREATE_PARAMS) (-100) 100 0 0 Sample.target
       _ _ _ _ _)); first [reflexivity | simpl; lia].
Defined.

(** * Further properties *)

(** ** fscontext_read, path by path *)

(** What a read does once the lock is acquired on a log that is not empty,
    [p] being the content of the slot at the tail. *)
Lemma fscontext_read_run E bits k f file0 fc c l p _buf len :
  files k !! f = Some file0 ->
  private_data file0 = Some fc ->
  contexts k !! fc = Some c ->
  log c = Some l ->
  0 <= mutex_lock_interruptible E ->
  log_head l <> log_tail l ->
  log_buffer l !! Z.to_nat (tail_index l) = Some p ->
  let k' := update_fc fc (set_log (Some (log_pop bits l (tail_index l))) c) k in
  fscontext_read E bits f _buf len k
  = match p with
    | None =>
        (Oops, k', [(EvMutexLockInterruptible fc, k); (EvMutexUnlock fc, k')])
    | Some msg =>
        (Done (if len <? strlen msg then - EMSGSIZE
               else if copy_to_user E _buf msg (strlen msg) =? 0
                    then strlen msg else - EFAULT),
         k',
         [(EvMutexLockInterruptible fc, k); (EvMutexUnlock fc, k')]
         ++ (if len <? strlen msg then []
             else [(EvCopyToUser _buf msg (strlen msg), k')])
         ++ (if need_free_bit l (tail_index l) then [(EvKfree msg, k')]
             else []))
    end.
Proof.
  intros Hf Hpd Hc Hl Hlock Hne Hp k'.
  assert (Hlk : (mutex_lock_interruptible E <? 0) = false) by lia.
  apply Z.eqb_neq in Hne.
  unfold fscontext_read. unfold_monad.
  rewrite Hf; simpl. rewrite Hpd, Hc; simpl. rewrite Hlk, Hc; simpl.
  rewrite Hl, Hne, Hp, Hc. fold k'. simpl.
  destruct p as [msg|]; [|reflexivity].
  destruct (len <? strlen msg); simpl.
  - by destruct (need_free_bit l (tail_index l)).
  - by destruct (copy_to_user E _buf msg (strlen msg) =? 0);
      destruct (need_free_bit l (tail_index l)).
Qed.

(** X1.  A read whose wait for the lock is interrupted returns the error of
    the wait; the log is not looked at, nothing is unlocked, copied or
    freed. *)
Theorem fscontext_read_interrupted
    (E : environment) (bits : Z) (k : kernel) (f : file_ptr) (file0 : file)
    (fc : fc_ptr) (c : fs_context) (_buf len : Z) :
  files k !! f = Some file0 ->
  private_data file0 = Some fc ->
  contexts k !! fc = Some c ->
  mutex_lock_interruptible E < 0 ->
  fscontext_read E bits f _buf len k
  = (Done (mutex_lock_interruptible E), k, [(EvMutexLockInterruptible fc, k)]).
Proof.
  intros Hf Hpd Hc Hlock. apply Z.ltb_lt in Hlock.
  unfold fscontext_read. unfold_monad.
  rewrite Hf; simpl. rewrite Hpd, Hc; simpl. by rewrite Hlock.
Qed.

(** X2.  A read of a message that fits the buffer copies exactly its
    [strlen] bytes to the caller and returns that length, or -EFAULT when
    the copy fails; either way the message has left the log, and it is
    freed exactly when it was owned.  The copy and the free happen after
    the lock is released. *)
Theorem fscontext_read_fitting_message
    (E : environment) (bits : Z) (k : kernel) (f : file_ptr) (file0 : file)
    (fc : fc_ptr) (c : fs_context) (l : fc_log) (msg : string)
    (_buf len : Z) :
  files k !! f = Some file0 ->
  private_data file0 = Some fc ->
  contexts k !! fc = Some c ->
  log c = Some l ->
  0 <= mutex_lock_interruptible E ->
  log_head l <> log_tail l ->
  log_buffer l !! Z.to_nat (tail_index l) = Some (Some msg) ->
  strlen msg <= len ->
  let R := fscontext_read E bits f _buf len k in
  let k' := update_fc fc (set_log (Some (log_pop bits l (tail_index l))) c) k in
  result_of R
  = Done (if copy_to_user E _buf msg (strlen msg) =? 0 then strlen msg
          else - EFAULT)
  /\ kernel_of R = k'
  /\ trace_of R
     = [(EvMutexLockInterruptible fc, k); (EvMutexUnlock fc, k');
        (EvCopyToUser _buf msg (strlen msg), k')]
       ++ (if need_free_bit l (tail_index l) then [(EvKfree msg, k')] else []).
Proof.
  intros Hf Hpd Hc Hl Hlock Hne Hp Hlen R k'. subst R.
  rewrite (fscontext_read_run E bits k f file0 fc c l (Some msg) _buf len)
    by done.
  assert (Hfit : (len <? strlen msg) = false) by lia.
  rewrite Hfit. done.
Qed.

(** X3.  However a read ends, if it returns at all it has asked for the lock
    once and, unless the wait was interrupted, released it once: it never
    returns with the lock held. *)
Theorem fscontext_read_lock_released
    (E : environment) (bits : Z) (k : kernel) (f : file_ptr) (_buf len : Z)
    (r : Z) :
  let R := fscontext_read E bits f _buf len k in
  result_of R = Done r ->
  count is_lock (trace_of R) = 1%nat
  /\ count is_unlock (trace_of R)
     = (if mutex_lock_interruptible E <? 0 then 0%nat else 1%nat).
Proof.
  intros R. subst R. unfold fscontext_read, count, calls, result_of, trace_of.
  unfold_monad.
  destruct (files k !! f) as [file0|]; simpl; [|done].
  destruct (private_data file0) as [fc|]; simpl; [|done].
  destruct (contexts k !! fc) as [c|] eqn:Hc; simpl; [|done].
  destruct (mutex_lock_interruptible E <? 0); simpl; [done|].
  rewrite Hc; simpl.
  destruct (log c) as [l|]; simpl; [|done].
  destruct (log_head l =? log_tail l); simpl; [done|].
  destruct (log_buffer l !! Z.to_nat (tail_index l)) as [[msg|]|]; simpl;
    rewrite ?Hc; simpl; try done.
  destruct (len <? strlen msg); simpl.
  - by destruct (need_free_bit l (tail_index l)).
  - by destruct (copy_to_user E _buf msg (strlen msg) =? 0);
      destruct (need_free_bit l (tail_index l)).
Qed.

(** ** The log as a ring *)

(** Taking a slot out of the log leaves the ownership bits of the other
    slots as they were. *)
Lemma need_free_bit_log_pop_other bits l i j :
  0 <= i -> 0 <= j -> i <> j ->
  need_free_bit (log_pop bits l i) j = need_free_bit l j.
Proof.
  intros Hi Hj Hne. unfold need_free_bit, log_pop; simpl. f_equal. f_equal.
  rewrite !Z.shiftl_1_l. apply Z.bits_inj'. intros n Hn.
  rewrite !Z.land_spec, Z.lnot_spec, !Z.pow2_bits_eqb by lia.
  destruct (Z.eqb_spec j n) as [<-|]; [|by rewrite !andb_false_r].
  destruct (Z.eqb_spec i j); [done|]. simpl. by rewrite andb_true_r.
Qed.

(** The number of waiting messages of a log with distinct counters, and
    after one is taken out. *)
Lemma log_pending_pos bits l :
  0 <= bits ->
  0 <= log_head l < 2 ^ bits -> 0 <= log_tail l < 2 ^ bits ->
  log_head l <> log_tail l ->
  0 < log_pending bits l.
Proof.
  intros Hb Hh Ht Hne. unfold log_pending.
  destruct (Z_lt_le_dec (log_tail l) (log_head l)).
  - rewrite Z.mod_small; lia.
  - rewrite <- (Z_mod_plus_full _ 1), Z.mod_small; lia.
Qed.

Lemma log_pending_log_pop bits l i :
  0 <= bits ->
  0 < log_pending bits l ->
  log_pending bits (log_pop bits l i) = log_pending bits l - 1.
Proof.
  intros Hb Hp. unfold log_pending, log_pop, tail_incr in *; simpl.
  assert (HM : 0 < 2 ^ bits) by (apply Z.pow_pos_nonneg; lia).
  rewrite Zminus_mod_idemp_r.
  replace (log_head l - (log_tail l + 1)) with (log_head l - log_tail l - 1)
    by lia.
  rewrite <- Zminus_mod_idemp_l.
  pose proof (Z.mod_pos_bound (log_head l - log_tail l) (2 ^ bits) HM).
  apply Z.mod_small. lia.
Qed.

(** X4.  A read whose lock is acquired on a log that is not empty leaves one
    message less waiting: the head is unchanged and the number of pending
    messages, counted modulo the width of the counters, goes down by one. *)
Theorem fscontext_read_one_message_less
    (E : environment) (bits : Z) (k : kernel) (f : file_ptr) (file0 : file)
    (fc : fc_ptr) (c : fs_context) (l : fc_log) (_buf len : Z) :
  files k !! f = Some file0 ->
  private_data file0 = Some fc ->
  contexts k !! fc = Some c ->
  log c = Some l ->
  0 <= mutex_lock_interruptible E ->
  0 <= bits ->
  0 <= log_head l < 2 ^ bits ->
  0 <= log_tail l < 2 ^ bits ->
  (0 < length (log_buffer l))%nat ->
  log_head l <> log_tail l ->
  exists c' l',
    contexts (kernel_of (fscontext_read E bits f _buf len k)) !! fc = Some c'
    /\ log c' = Some l'
    /\ log_head l' = log_head l
    /\ 0 < log_pending bits l
    /\ log_pending bits l' = log_pending bits l - 1.
Proof.
  intros Hf Hpd Hc Hl Hlock Hb Hh Ht Hn Hne.
  destruct (lookup_lt_is_Some_2 (log_buffer l) (Z.to_nat (tail_index l)))
    as [p Hp]; [apply tail_index_lt; lia|].
  pose proof (log_pending_pos bits l Hb Hh Ht Hne) as Hpos.
  exists (set_log (Some (log_pop bits l (tail_index l))) c),
    (log_pop bits l (tail_index l)).
  rewrite (fscontext_read_run E bits k f file0 fc c l p _buf len) by done.
  split.
  - destruct p; unfold kernel_of; cbn [fst snd]; apply contexts_update_fc.
  - repeat split; try done. by apply log_pending_log_pop.
Qed.

(** X5.  Reads go round the ring: with a slot array whose size is a power of
    two that the counter width covers, a read leaves every slot but the one
    at the tail, and its ownership bit, as they were, and the next read
    looks at the next slot, the first one after the last. *)
Theorem fscontext_read_ring_order
    (E : environment) (bits j : Z) (k : kernel) (f : file_ptr) (file0 : file)
    (fc : fc_ptr) (c : fs_context) (l : fc_log) (_buf len : Z) :
  files k !! f = Some file0 ->
  private_data file0 = Some fc ->
  contexts k !! fc = Some c ->
  log c = Some l ->
  0 <= mutex_lock_interruptible E ->
  log_head l <> log_tail l ->
  0 <= log_tail l ->
  0 <= j <= bits ->
  Z.of_nat (length (log_buffer l)) = 2 ^ j ->
  exists c' l',
    contexts (kernel_of (fscontext_read E bits f _buf len k)) !! fc = Some c'
    /\ log c' = Some l'
    /\ tail_index l' = (tail_index l + 1) mod 2 ^ j
    /\ length (log_buffer l') = length (log_buffer l)
    /\ (forall i, i <> Z.to_nat (tail_index l) ->
          log_buffer l' !! i = log_buffer l !! i)
    /\ (forall i, 0 <= i -> i <> tail_index l ->
          need_free_bit l' i = need_free_bit l i).
Proof.
  intros Hf Hpd Hc Hl Hlock Hne Ht Hj Hsize.
  assert (HM : 0 < 2 ^ j) by (apply Z.pow_pos_nonneg; lia).
  assert (Hidx : tail_index l = log_tail l mod 2 ^ j).
  { unfold tail_index. rewrite Hsize, <- Z.land_ones by lia.
    by rewrite Z.ones_equiv, <- Z.sub_1_r. }
  destruct (lookup_lt_is_Some_2 (log_buffer l) (Z.to_nat (tail_index l)))
    as [p Hp]; [apply tail_index_lt; lia|].
  exists (set_log (Some (log_pop bits l (tail_index l))) c),
    (log_pop bits l (tail_index l)).
  rewrite (fscontext_read_run E bits k f file0 fc c l p _buf len) by done.
  split.
  { destruct p; unfold kernel_of; cbn [fst snd]; apply contexts_update_fc. }
  split; [done|]. split; [|split; [|split]].
  - rewrite Hidx. unfold tail_index, log_pop, tail_incr; simpl.
    rewrite length_insert, Hsize.
    replace (2 ^ j - 1) with (Z.ones j)
      by (rewrite Z.ones_equiv; lia).
    rewrite Z.land_ones by lia.
    rewrite Z.mod_mod_divide, Zplus_mod_idemp_l; [done|].
    exists (2 ^ (bits - j)). rewrite <- Z.pow_add_r by lia. f_equal. lia.
  - simpl. apply length_insert.
  - intros i Hi. simpl. by apply list_lookup_insert_ne.
  - intros i Hi Hi'. apply need_free_bit_log_pop_other; [|done..].
    rewrite Hidx. apply Z.mod_pos_bound. lia.
Qed.

(** ** Composing runs *)

Lemma bind_run {A B} (m : M A) (g : A -> M B) k :
  (m ≫= g) k
  = match result_of (m k) with
    | Done a => after (trace_of (m k)) (g a (kernel_of (m k)))
    | Oops => (Oops, kernel_of (m k), trace_of (m k))
    end.
Proof.
  unfold mbind, M_bind, after, result_of, kernel_of, trace_of.
  destruct (m k) as [[[a|] k1] t1]; simpl; [|done].
  by destruct (g a k1) as [[r k2] t2].
Qed.

Lemma bind_emit {B} (e : event) (g : unit -> M B) k :
  (emit e ≫= g) k = after [(e, k)] (g tt k).
Proof. by rewrite bind_run. Qed.

Lemma after_nil {A} (x : outcome A * kernel * trace) : after [] x = x.
Proof. by destruct x as [[r k] t]. Qed.

Lemma after_after {A} t1 t2 (x : outcome A * kernel * trace) :
  after t1 (after t2 x) = after (t1 ++ t2) x.
Proof. unfold after, result_of, kernel_of, trace_of; simpl. by rewrite app_assoc. Qed.

Lemma result_of_after {A} t (x : outcome A * kernel * trace) :
  result_of (after t x) = result_of x.
Proof. reflexivity. Qed.

Lemma count_app p t1 t2 : count p (t1 ++ t2) = (count p t1 + count p t2)%nat.
Proof. unfold count, calls. by rewrite fmap_app, filter_app, length_app. Qed.

(** ** vfs_fsconfig stays within its context *)

Lemma same_but_refl fc k : same_but fc k k.
Proof. by repeat split. Qed.

Lemma same_but_trans fc k1 k2 k3 :
  same_but fc k1 k2 -> same_but fc k2 k3 -> same_but fc k1 k3.
Proof.
  intros (H1 & H2 & H3) (H4 & H5 & H6). repeat split; [congruence..|].
  intros fc' Hne. rewrite H6, H3; done.
Qed.

Lemma same_but_update_fc fc c k : same_but fc k (update_fc fc c k).
Proof.
  repeat split. intros fc' Hne. unfold update_fc; simpl.
  by apply lookup_insert_ne.
Qed.

Lemma local_mret {A} fc (a : A) : local_to fc (mret a).
Proof. intros k. split; [apply same_but_refl|]. intros e ks H. inversion H. Qed.

Lemma local_oops {A} fc : local_to fc (@oops A).
Proof. intros k. split; [apply same_but_refl|]. intros e ks H. inversion H. Qed.

Lemma local_bind {A B} fc (m : M A) (g : A -> M B) :
  local_to fc m -> (forall a, local_to fc (g a)) -> local_to fc (m ≫= g).
Proof.
  intros Hm Hg k. rewrite bind_run.
  destruct (Hm k) as [Hk Ht].
  destruct (result_of (m k)) as [a|]; [|done].
  destruct (Hg a (kernel_of (m k))) as [Hk' Ht'].
  split; [by eapply same_but_trans|].
  intros e ks Hin. unfold after, trace_of in Hin; simpl in Hin.
  apply elem_of_app in Hin as [Hin|Hin]; eauto.
Qed.

Lemma local_load_fc fc : local_to fc (load_fc fc).
Proof.
  intros k. unfold load_fc. destruct (contexts k !! fc);
    (split; [apply same_but_refl|]; intros e ks H; inversion H).
Qed.

Lemma local_store_fc fc c : local_to fc (store_fc fc c).
Proof.
  intros k. unfold store_fc. destruct (contexts k !! fc).
  - split; [apply same_but_update_fc|]. intros e ks H; inversion H.
  - split; [apply same_but_refl|]. intros e ks H; inversion H.
Qed.

Lemma local_emit fc e : is_collaborator e = true -> local_to fc (emit e).
Proof.
  intros He k. split; [apply same_but_refl|].
  intros e' ks Hin. apply list_elem_of_singleton in Hin. by injection Hin as -> _.
Qed.

Lemma local_store_phase fc ph : local_to fc (store_phase fc ph).
Proof.
  apply local_bind; [apply local_load_fc|]. intros c. apply local_store_fc.
Qed.

Lemma local_call fc ev f : is_collaborator ev = true -> local_to fc (call ev fc f).
Proof.
  intros Hev. unfold call.
  apply local_bind; [apply local_load_fc|]; intros c.
  apply local_bind; [by apply local_emit|]; intros _.
  apply local_bind; [apply local_store_fc|]; intros _.
  apply local_mret.
Qed.

Ltac local_step :=
  first
    [ apply local_mret | apply local_oops | apply local_load_fc
    | apply local_store_fc | apply local_store_phase
    | apply local_call; reflexivity
    | apply local_bind; [|intros ?]
    | match goal with
      | |- local_to _ (match ?x with _ => _ end) => destruct x
      | |- local_to _ (if ?b then _ else _) => destruct b
      end ].

Lemma local_vfs_fsconfig E fc cmd key value aux :
  local_to fc (vfs_fsconfig E fc cmd key value aux).
Proof.
  unfold vfs_fsconfig, vfs_fsconfig_reinit, vfs_fsconfig_switch,
    vfs_fsconfig_option.
  repeat local_step.
Qed.

(** X6.  vfs_fsconfig, whatever the command and however it ends, leaves the
    descriptor table, the files and every other context as they were, and
    the only calls it makes are those to the driver's init_fs_context, the
    security check, vfs_get_tree, vfs_set_fs_source and
    vfs_parse_fs_option. *)
Theorem vfs_fsconfig_local
    (E : environment) (k : kernel) (fc : fc_ptr) (cmd : Z)
    (key value : option string) (aux : Z) :
  let R := vfs_fsconfig E fc cmd key value aux k in
  fdtable (kernel_of R) = fdtable k
  /\ files (kernel_of R) = files k
  /\ (forall fc', fc' <> fc ->
        contexts (kernel_of R) !! fc' = contexts k !! fc')
  /\ (forall e, e ∈ calls (trace_of R) -> is_collaborator e = true).
Proof.
  intros R. destruct (local_vfs_fsconfig E fc cmd key value aux k)
    as [(H1 & H2 & H3) H4].
  repeat split; try done.
  intros e He. unfold calls in He. apply list_elem_of_fmap in He as [[e' ks] [-> Hin]].
  by apply (H4 e' ks).
Qed.

(** ** vfs_fsconfig as a state machine *)

Lemma closed_phase_not_params ph :
  closed_phase ph = true ->
  params_phase ph = false /\ ph <> FS_CONTEXT_CREATE_PARAMS
  /\ ph <> FS_CONTEXT_AWAITING_RECONF.
Proof. by destruct ph. Qed.

Lemma vfs_fsconfig_switch_closed E fc c cmd key value aux k :
  contexts k !! fc = Some c ->
  closed_phase (phase c) = true ->
  vfs_fsconfig_switch E fc cmd key value aux k
  = (Done match fsconfig_command_of_Z cmd with
          | Some fsconfig_cmd_reconfigure | None => - EOPNOTSUPP
          | Some _ => - EBUSY
          end, k, []).
Proof.
  intros Hc Hph. destruct (closed_phase_not_params _ Hph) as (Hp & Hcp & _).
  unfold vfs_fsconfig_switch, vfs_fsconfig_option.
  destruct (fsconfig_command_of_Z cmd) as [[]|]; run; rewrite ?Hp; try done.
  by rewrite bool_decide_eq_false_2.
Qed.

(** X7.  In the phases Creating, AwaitingMount and Failed nothing happens
    any more: every command returns at once, -EBUSY for the commands
    vfs_fsconfig has a case for and -EOPNOTSUPP for the others, without a
    call and with the store unchanged. *)
Theorem vfs_fsconfig_closed_phase
    (E : environment) (k : kernel) (fc : fc_ptr) (c : fs_context) (cmd : Z)
    (key value : option string) (aux : Z) :
  contexts k !! fc = Some c ->
  closed_phase (phase c) = true ->
  vfs_fsconfig E fc cmd key value aux k
  = (Done match fsconfig_command_of_Z cmd with
          | Some fsconfig_cmd_reconfigure | None => - EOPNOTSUPP
          | Some _ => - EBUSY
          end, k, []).
Proof.
  intros Hc Hph. destruct (closed_phase_not_params _ Hph) as (_ & _ & Har).
  rewrite (vfs_fsconfig_not_pending E fc c) by done.
  by apply vfs_fsconfig_switch_closed with c.
Qed.

(** X8.  The path and descriptor commands are not implemented: dispatched
    to vfs_fsconfig in a phase that accepts parameters they reach BUG(),
    before any call and with the store unchanged. *)
Theorem vfs_fsconfig_unimplemented_bug
    (E : environment) (k : kernel) (fc : fc_ptr) (c : fs_context)
    (cmd : fsconfig_command) (key value : option string) (aux : Z) :
  contexts k !! fc = Some c ->
  params_phase (phase c) = true ->
  cmd = fsconfig_set_path \/ cmd = fsconfig_set_path_empty
  \/ cmd = fsconfig_set_fd ->
  vfs_fsconfig E fc (fsconfig_command_to_Z cmd) key value aux k
  = (Oops, k, []).
Proof.
  intros Hc Hph Hcmd.
  rewrite (vfs_fsconfig_not_pending E fc c)
    by (done || (intros Heq; rewrite Heq in Hph; discriminate)).
  unfold vfs_fsconfig_switch.
  destruct Hcmd as [-> | [-> | ->]]; run; by rewrite Hph.
Qed.

(** From FS_CONTEXT_CREATE_PARAMS the [switch] leads to CreateParams,
    AwaitingMount or Failed. *)
Lemma vfs_fsconfig_switch_from_create_params E fc c cmd key value aux k :
  (forall c v n, phase (vfs_set_fs_source E c v n).2 = phase c) ->
  (forall c key v aux, phase (vfs_parse_fs_option E c key v aux).2 = phase c) ->
  contexts k !! fc = Some c ->
  phase c = FS_CONTEXT_CREATE_PARAMS ->
  exists ph',
    phase_of (kernel_of (vfs_fsconfig_switch E fc cmd key value aux k)) fc
    = Some ph'
    /\ phase_step FS_CONTEXT_CREATE_PARAMS ph' = true.
Proof.
  intros Hsrc Hopt Hc Hph.
  assert (Hk : phase_of k fc = Some FS_CONTEXT_CREATE_PARAMS)
    by (unfold phase_of; rewrite Hc; simpl; congruence).
  assert (Hsame : exists ph', phase_of k fc = Some ph'
                    /\ phase_step FS_CONTEXT_CREATE_PARAMS ph' = true)
    by (by exists FS_CONTEXT_CREATE_PARAMS).
  assert (Hupd : forall c', phase c' = FS_CONTEXT_CREATE_PARAMS ->
            exists ph', phase_of (update_fc fc c' k) fc = Some ph'
              /\ phase_step FS_CONTEXT_CREATE_PARAMS ph' = true).
  { intros c' Hc'. exists FS_CONTEXT_CREATE_PARAMS.
    by rewrite phase_of_update_fc, Hc'. }
  unfold vfs_fsconfig_switch, vfs_fsconfig_option.
  destruct (fsconfig_command_of_Z cmd) as [[]|]; run; rewrite ?Hph; simpl;
    try exact Hsame.
  - destruct key as [key|]; run; [|exact Hsame].
    apply Hupd. by rewrite Hopt.
  - destruct key as [key|]; run; [|exact Hsame].
    destruct (String.eqb key "source").
    + destruct value as [v|]; run; [|exact Hsame].
      apply Hupd. by rewrite Hsrc.
    + run. rewrite Hph; simpl. run. apply Hupd. by rewrite Hopt.
  - destruct key as [key|]; run; [|exact Hsame].
    apply Hupd. by rewrite Hopt.
  - run.
    destruct ((vfs_get_tree E (set_phase FS_CONTEXT_CREATING c)).1 =? 0); run;
      unfold kernel_of; cbn [fst snd]; rewrite phase_of_update_fc; eauto.
Qed.

(** X9.  With a source setter and an option parser that leave the phase
    alone, one call of vfs_fsconfig moves the phase only along the edges of
    the state machine: from CreateParams to CreateParams, AwaitingMount or
    Failed; from AwaitingReconf to ReconfParams or Failed; from every other
    phase nowhere.  In particular no call returns with the phase Creating
    unless it found it so, and no call brings a context back to
    CreateParams or AwaitingReconf. *)
Theorem vfs_fsconfig_phase_step
    (E : environment) (k : kernel) (fc : fc_ptr) (c : fs_context) (cmd : Z)
    (key value : option string) (aux : Z) :
  (forall c v n, phase (vfs_set_fs_source E c v n).2 = phase c) ->
  (forall c key v aux, phase (vfs_parse_fs_option E c key v aux).2 = phase c) ->
  contexts k !! fc = Some c ->
  exists ph',
    phase_of (kernel_of (vfs_fsconfig E fc cmd key value aux k)) fc = Some ph'
    /\ phase_step (phase c) ph' = true.
Proof.
  intros Hsrc Hopt Hc.
  destruct (phase c) eqn:Hph.
  - rewrite (vfs_fsconfig_not_pending E fc c) by (done || congruence).
    by apply vfs_fsconfig_switch_from_create_params with c.
  - rewrite (vfs_fsconfig_not_pending E fc c) by (done || congruence).
    rewrite (vfs_fsconfig_switch_closed E fc c) by (done || by rewrite Hph).
    exists FS_CONTEXT_CREATING. unfold phase_of, kernel_of; simpl.
    rewrite Hc; simpl. by rewrite Hph.
  - rewrite (vfs_fsconfig_not_pending E fc c) by (done || congruence).
    rewrite (vfs_fsconfig_switch_closed E fc c) by (done || by rewrite Hph).
    exists FS_CONTEXT_AWAITING_MOUNT. unfold phase_of, kernel_of; simpl.
    rewrite Hc; simpl. by rewrite Hph.
  - rewrite (vfs_fsconfig_pending E fc c _ key value aux k Hc Hph).
    destruct ((reinit_init E c).1 <? 0).
    { exists FS_CONTEXT_FAILED. unfold kernel_of; cbn [fst snd].
      by rewrite phase_of_update_fc. }
    destruct ((security_fs_context_alloc E (reinit_init E c).2).1 <? 0).
    { exists FS_CONTEXT_FAILED. unfold kernel_of; cbn [fst snd].
      by rewrite phase_of_update_fc. }
    exists FS_CONTEXT_RECONF_PARAMS. split; [|done].
    unfold kernel_of at 1; cbn [fst snd].
    eapply vfs_fsconfig_switch_keeps_reconf_params;
      [done | done | apply contexts_update_fc | done].
  - rewrite (vfs_fsconfig_not_pending E fc c) by (done || congruence).
    exists FS_CONTEXT_RECONF_PARAMS. split; [|done].
    by apply vfs_fsconfig_switch_keeps_reconf_params with c.
  - rewrite (vfs_fsconfig_not_pending E fc c) by (done || congruence).
    rewrite (vfs_fsconfig_switch_closed E fc c) by (done || by rewrite Hph).
    exists FS_CONTEXT_FAILED. unfold phase_of, kernel_of; simpl.
    rewrite Hc; simpl. by rewrite Hph.
Qed.

(** ** Descriptors and logs *)

Lemma fscontext_create_fd_run E fc o_flags k :
  fscontext_create_fd E fc o_flags k
  = if anon_inode_getfd E <? 0 then
      (Done (anon_inode_getfd E), k,
       [(EvAnonInodeGetfd fc (Z.lor O_RDWR o_flags), k);
        (EvPutFsContext fc, k)])
    else
      let fp := fresh (dom (files k)) in
      (Done (anon_inode_getfd E),
       set_fdtable (<[anon_inode_getfd E := fp]> (fdtable k))
         (update_file fp (fscontext_file fc) k),
       [(EvAnonInodeGetfd fc (Z.lor O_RDWR o_flags), k)]).
Proof.
  unfold fscontext_create_fd, put_fs_context. unfold_monad.
  by destruct (anon_inode_getfd E <? 0).
Qed.

Lemma fresh_file_unused k : files k !! fresh (dom (files k)) = None.
Proof. apply not_elem_of_dom, is_fresh. Qed.

Lemma fresh_context_unused k : contexts k !! fresh (dom (contexts k)) = None.
Proof. apply not_elem_of_dom, is_fresh. Qed.

(** The descriptor fscontext_create_fd returns is bound to the context. *)
Lemma fscontext_create_fd_binds E k fc o_flags c :
  0 <= anon_inode_getfd E ->
  contexts k !! fc = Some c ->
  fscontext_fd (kernel_of (fscontext_create_fd E fc o_flags k))
    (anon_inode_getfd E) fc c.
Proof.
  intros Hfd Hc. rewrite fscontext_create_fd_run.
  assert (Hneg : (anon_inode_getfd E <? 0) = false) by lia.
  rewrite Hneg. exists (fresh (dom (files k))), (fscontext_file fc).
  split; [apply lookup_insert_eq|]. split; [apply lookup_insert_eq|]. done.
Qed.

(** X10.  When no descriptor can be had, fscontext_create_fd returns the
    error of anon_inode_getfd and puts the context it was given, once;
    the store is unchanged. *)
Theorem fscontext_create_fd_failure
    (E : environment) (k : kernel) (fc : fc_ptr) (o_flags : Z) :
  anon_inode_getfd E < 0 ->
  fscontext_create_fd E fc o_flags k
  = (Done (anon_inode_getfd E), k,
     [(EvAnonInodeGetfd fc (Z.lor O_RDWR o_flags), k);
      (EvPutFsContext fc, k)]).
Proof.
  intros Hfd. apply Z.ltb_lt in Hfd.
  by rewrite fscontext_create_fd_run, Hfd.
Qed.

(** X11.  When anon_inode_getfd gives a descriptor, fscontext_create_fd
    returns it; the descriptor is then open on a new file of this kind
    whose private data is the context, read-write and with the flags asked
    for; the context is not put, and the files, descriptors and contexts
    there were are as they were. *)
Theorem fscontext_create_fd_success
    (E : environment) (k : kernel) (fc : fc_ptr) (o_flags : Z) :
  0 <= anon_inode_getfd E ->
  let fd := anon_inode_getfd E in
  let R := fscontext_create_fd E fc o_flags k in
  result_of R = Done fd
  /\ calls (trace_of R) = [EvAnonInodeGetfd fc (Z.lor O_RDWR o_flags)]
  /\ contexts (kernel_of R) = contexts k
  /\ (forall fd', fd' <> fd ->
        fdtable (kernel_of R) !! fd' = fdtable k !! fd')
  /\ exists fp,
       files k !! fp = None
       /\ fdtable (kernel_of R) !! fd = Some fp
       /\ files (kernel_of R) !! fp = Some (fscontext_file fc)
       /\ (forall fp', fp' <> fp ->
             files (kernel_of R) !! fp' = files k !! fp')
       /\ (forall c, contexts k !! fc = Some c ->
             fscontext_fd (kernel_of R) fd fc c).
Proof.
  intros Hfd fd R. subst R. rewrite fscontext_create_fd_run.
  assert (Hneg : (anon_inode_getfd E <? 0) = false) by lia.
  rewrite Hneg. unfold result_of, kernel_of, trace_of, calls; cbn [fst snd].
  split; [done|]. split; [done|]. split; [done|]. split.
  { intros fd' Hne. simpl. by apply lookup_insert_ne. }
  exists (fresh (dom (files k))).
  split; [apply fresh_file_unused|]. split; [apply lookup_insert_eq|].
  split; [apply lookup_insert_eq|]. split.
  { intros fp' Hne. simpl. by apply lookup_insert_ne. }
  intros c Hc.
  pose proof (fscontext_create_fd_binds E k fc o_flags c Hfd Hc) as Hb.
  by rewrite fscontext_create_fd_run, Hneg in Hb.
Qed.

(** X12.  Made and closed: releasing the file fscontext_create_fd has just
    made puts the context once and returns 0, and the file keeps no pointer
    to it. *)
Theorem fscontext_create_fd_release
    (E : environment) (k : kernel) (fc : fc_ptr) (o_flags : Z) (fp : file_ptr) :
  0 <= anon_inode_getfd E ->
  let k' := kernel_of (fscontext_create_fd E fc o_flags k) in
  fdtable k' !! anon_inode_getfd E = Some fp ->
  let R := fscontext_release fp k' in
  result_of R = Done 0
  /\ calls (trace_of R) = [EvPutFsContext fc]
  /\ private_data <$> files (kernel_of R) !! fp = Some None
  /\ result_of (fscontext_release fp (kernel_of R)) = Done 0
  /\ trace_of (fscontext_release fp (kernel_of R)) = [].
Proof.
  intros Hfd k' Hfp R. subst R k'.
  rewrite fscontext_create_fd_run in *.
  assert (Hneg : (anon_inode_getfd E <? 0) = false) by lia.
  rewrite Hneg in *. unfold kernel_of in *; cbn [fst snd] in *.
  simpl in Hfp. rewrite lookup_insert_eq in Hfp. injection Hfp as <-.
  set (k1 := set_fdtable _ _).
  assert (Hfile : files k1 !! fresh (dom (files k)) = Some (fscontext_file fc))
    by apply lookup_insert_eq.
  rewrite (fscontext_release_bound k1 _ _ fc Hfile eq_refl).
  cbn [fst snd]. unfold result_of, trace_of, calls; cbn [fst snd].
  rewrite files_update_file.
  erewrite fscontext_release_unbound; [done|apply files_update_file|done].
Qed.

(** A read on an empty log. *)
Lemma fscontext_read_empty E bits k f file0 fc c l _buf len :
  files k !! f = Some file0 ->
  private_data file0 = Some fc ->
  contexts k !! fc = Some c ->
  log c = Some l ->
  0 <= mutex_lock_interruptible E ->
  log_head l = log_tail l ->
  fscontext_read E bits f _buf len k
  = (Done (- ENODATA), k,
     [(EvMutexLockInterruptible fc, k); (EvMutexUnlock fc, k)]).
Proof.
  intros Hf Hpd Hc Hl Hlock Heq.
  assert (Hlk : (mutex_lock_interruptible E <? 0) = false) by lia.
  apply Z.eqb_eq in Heq.
  unfold fscontext_read. unfold_monad.
  rewrite Hf; simpl. rewrite Hpd, Hc; simpl. rewrite Hlk, Hc; simpl.
  by rewrite Hl, Heq.
Qed.

(** X13.  A log that has just been allocated is empty: fscontext_alloc_log
    returns 0 and a read on a file of the context then returns -ENODATA and
    changes nothing; when the allocation fails it returns -ENOMEM and the
    context has no log. *)
Theorem fscontext_alloc_log_empty
    (E : environment) (n : nat) (bits : Z) (k : kernel) (f : file_ptr)
    (file0 : file) (fc : fc_ptr) (c : fs_context) (_buf len : Z) :
  files k !! f = Some file0 ->
  private_data file0 = Some fc ->
  contexts k !! fc = Some c ->
  0 <= mutex_lock_interruptible E ->
  let R := fscontext_alloc_log E n fc k in
  (kzalloc_log E = true ->
     R = (Done 0, update_fc fc (set_log (Some (new_log n c)) c) k,
          [(EvKzallocLog fc, k)])
     /\ result_of (fscontext_read E bits f _buf len (kernel_of R))
        = Done (- ENODATA)
     /\ kernel_of (fscontext_read E bits f _buf len (kernel_of R))
        = kernel_of R)
  /\ (kzalloc_log E = false ->
      R = (Done (- ENOMEM), update_fc fc (set_log None c) k,
           [(EvKzallocLog fc, k)])).
Proof.
  intros Hf Hpd Hc Hlock R. subst R.
  unfold fscontext_alloc_log. split; intros Hz; rewrite Hz.
  - assert (HR : (emit (EvKzallocLog fc)
                   ≫= λ _ : (), load_fc fc
                   ≫= λ c0 : fs_context,
                        store_fc fc
                          (set_log
                             (Some
                                {| log_usage := 1; log_head := 0;
                                   log_tail := 0; log_need_free := 0;
                                   log_owner := fs_owner (fs_type c0);
                                   log_buffer := replicate n None |}) c0)
                        ≫= λ _ : (), mret 0) k
                = (Done 0, update_fc fc (set_log (Some (new_log n c)) c) k,
                   [(EvKzallocLog fc, k)])) by (by run).
    rewrite HR. split; [done|].
    unfold kernel_of at 1 3 4; cbn [fst snd].
    rewrite (fscontext_read_empty E bits _ f file0 fc
               (set_log (Some (new_log n c)) c) (new_log n c));
      [done | done | done | apply contexts_update_fc | done | done | done].
  - by run.
Qed.

(** ** Stepping through a computation *)

Lemma mret_run {A} (a : A) k : (mret a : M A) k = (Done a, k, []).
Proof. reflexivity. Qed.

Lemma bind_mret {A B} (a : A) (g : A -> M B) k : (mret a ≫= g) k = g a k.
Proof. rewrite bind_run. apply after_nil. Qed.

Lemma bind_get_kernel {B} (g : kernel -> M B) k : (get_kernel ≫= g) k = g k k.
Proof. rewrite bind_run. apply after_nil. Qed.

Lemma bind_put_kernel {B} k' (g : unit -> M B) k :
  (put_kernel k' ≫= g) k = g tt k'.
Proof. rewrite bind_run. apply after_nil. Qed.

Lemma bind_load_fc {B} fc c (g : fs_context -> M B) k :
  contexts k !! fc = Some c -> (load_fc fc ≫= g) k = g c k.
Proof.
  intros Hc. rewrite bind_run, (load_fc_run _ _ _ Hc). apply after_nil.
Qed.

Lemma bind_store_fc {B} fc c c' (g : unit -> M B) k :
  contexts k !! fc = Some c ->
  (store_fc fc c' ≫= g) k = g tt (update_fc fc c' k).
Proof.
  intros Hc. rewrite bind_run. unfold store_fc. rewrite Hc. apply after_nil.
Qed.

Lemma bind_store_phase {B} fc c ph (g : unit -> M B) k :
  contexts k !! fc = Some c ->
  (store_phase fc ph ≫= g) k = g tt (update_fc fc (set_phase ph c) k).
Proof.
  intros Hc. rewrite bind_run. unfold store_phase.
  rewrite (bind_load_fc _ _ _ _ Hc). unfold store_fc. rewrite Hc.
  apply after_nil.
Qed.

Lemma fscontext_alloc_log_run E n fc c k :
  contexts k !! fc = Some c ->
  fscontext_alloc_log E n fc k
  = if kzalloc_log E then
      (Done 0, update_fc fc (set_log (Some (new_log n c)) c) k,
       [(EvKzallocLog fc, k)])
    else
      (Done (- ENOMEM), update_fc fc (set_log None c) k,
       [(EvKzallocLog fc, k)]).
Proof.
  intros Hc. unfold fscontext_alloc_log.
  rewrite bind_emit, (bind_load_fc _ _ _ _ Hc).
  destruct (kzalloc_log E); by rewrite (bind_store_fc _ _ _ _ _ Hc).
Qed.

(** ** fspick, path by path *)

(** fspick once the path is resolved, the superblock can be reconfigured
    and a context [c] has been made for it. *)
Lemma fspick_run E n k dfd upath flags ret target c :
  ns_capable E = true ->
  Z.land flags (Z.lnot FSPICK_VALID_FLAGS) = 0 ->
  user_path_at E dfd upath (fspick_lookup_flags flags) = (ret, target) ->
  0 <= ret ->
  s_op_reconfigure (d_sb (path_dentry target)) = true ->
  vfs_new_fs_context E (s_type (d_sb (path_dentry target)))
    (Some (path_dentry target)) 0 FS_CONTEXT_FOR_RECONFIGURE = inr c ->
  let fc := fresh (dom (contexts k)) in
  let c1 := set_phase FS_CONTEXT_RECONF_PARAMS c in
  let k2 := update_fc fc c1 k in
  fspick E n dfd upath flags k
  = after
      [(EvUserPathAt dfd upath (fspick_lookup_flags flags), k);
       (EvVfsNewFsContext (s_type (d_sb (path_dentry target)))
          (Some (path_dentry target)) 0 FS_CONTEXT_FOR_RECONFIGURE, k)]
      (if kzalloc_log E then
         let k3 := update_fc fc (set_log (Some (new_log n c1)) c1) k in
         after [(EvKzallocLog fc, k2); (EvPathPut target, k3)]
           (fscontext_create_fd E fc
              (if flag_set flags FSPICK_CLOEXEC then O_CLOEXEC else 0) k3)
       else
         let k3 := update_fc fc (set_log None c1) k in
         (Done (- ENOMEM), k3,
          [(EvKzallocLog fc, k2); (EvPutFsContext fc, k3);
           (EvPathPut target, k3)])).
Proof.
  intros Hcap Hflags Hpath Hret Hop Hnew fc c1 k2.
  apply Z.ltb_ge in Hret.
  unfold fspick, path_put, put_fs_context.
  rewrite Hcap, Hflags. simpl.
  rewrite bind_emit, Hpath, Hret, Hop. simpl.
  rewrite bind_emit, Hnew, after_after. simpl. f_equal.
  rewrite bind_get_kernel, bind_put_kernel. fold fc.
  change (set_contexts (<[fc:=c]> (contexts k)) k) with (update_fc fc c k).
  rewrite (bind_store_phase _ _ _ _ _ (contexts_update_fc fc c k)).
  rewrite update_fc_twice. fold c1 k2.
  rewrite bind_run, (fscontext_alloc_log_run E n fc c1 k2)
    by apply contexts_update_fc.
  subst k2. destruct (kzalloc_log E); unfold result_of, kernel_of, trace_of;
    cbn [fst snd]; rewrite update_fc_twice.
  - simpl. rewrite bind_emit, after_after. reflexivity.
  - simpl. rewrite bind_emit, bind_emit. reflexivity.
Qed.

(** X14.  fspick checks the caller before anything else: without the
    capability it returns -EPERM whatever the flags, and with it a flag
    outside the four it knows gives -EINVAL; in both cases no path is looked
    up and the store is unchanged. *)
Theorem fspick_validation
    (E : environment) (n : nat) (k : kernel) (dfd upath flags : Z) :
  (ns_capable E = false ->
     fspick E n dfd upath flags k = (Done (- EPERM), k, []))
  /\ (ns_capable E = true ->
      Z.land flags (Z.lnot FSPICK_VALID_FLAGS) <> 0 ->
      fspick E n dfd upath flags k = (Done (- EINVAL), k, [])).
Proof.
  unfold fspick. split.
  - by intros ->.
  - intros -> Hflags. apply Z.eqb_neq in Hflags. by rewrite Hflags.
Qed.

(** X15.  The lookup flags fspick derives: symlinks are followed unless
    FSPICK_SYMLINK_NOFOLLOW is set, automounts triggered unless
    FSPICK_NO_AUTOMOUNT is set, an empty path allowed exactly when
    FSPICK_EMPTY_PATH is set; no other lookup flag is ever passed, and
    FSPICK_CLOEXEC has no part in it. *)
Theorem fspick_lookup_flags_meaning (flags : Z) :
  let lf := fspick_lookup_flags flags in
  flag_set lf LOOKUP_FOLLOW = negb (flag_set flags FSPICK_SYMLINK_NOFOLLOW)
  /\ flag_set lf LOOKUP_AUTOMOUNT = negb (flag_set flags FSPICK_NO_AUTOMOUNT)
  /\ flag_set lf LOOKUP_EMPTY = flag_set flags FSPICK_EMPTY_PATH
  /\ Z.land lf
       (Z.lnot (Z.lor LOOKUP_FOLLOW (Z.lor LOOKUP_AUTOMOUNT LOOKUP_EMPTY)))
     = 0
  /\ (flag_set flags FSPICK_CLOEXEC = true ->
      fspick_lookup_flags (Z.lxor flags FSPICK_CLOEXEC) = lf).
Proof.
  intros lf. subst lf.
  assert (Hx : forall b, 0 < b ->
            flag_set (Z.lxor flags FSPICK_CLOEXEC) (2 ^ b)
            = flag_set flags (2 ^ b)).
  { intros b Hb. unfold flag_set. do 2 f_equal.
    apply Z.bits_inj'. intros i Hi.
    rewrite !Z.land_spec, Z.lxor_spec, Z.pow2_bits_eqb by lia.
    destruct (Z.eqb_spec b i) as [Hbi|]; [|by rewrite !andb_false_r].
    unfold FSPICK_CLOEXEC. change 1 with (2 ^ 0).
    rewrite Z.pow2_bits_eqb by lia.
    destruct (Z.eqb_spec 0 i); [lia|]. by rewrite xorb_false_r. }
  unfold fspick_lookup_flags.
  change FSPICK_SYMLINK_NOFOLLOW with (2 ^ 1).
  change FSPICK_NO_AUTOMOUNT with (2 ^ 2).
  change FSPICK_EMPTY_PATH with (2 ^ 3).
  rewrite !Hx by lia.
  destruct (flag_set flags (2 ^ 1)), (flag_set flags (2 ^ 2)),
    (flag_set flags (2 ^ 3)); repeat split; reflexivity.
Qed.

(** X16.  When the path cannot be resolved fspick returns the error of the
    lookup; there is no path to release and none is released, and nothing
    is built. *)
Theorem fspick_lookup_failure
    (E : environment) (n : nat) (k : kernel) (dfd upath flags ret : Z)
    (target : path) :
  ns_capable E = true ->
  Z.land flags (Z.lnot FSPICK_VALID_FLAGS) = 0 ->
  user_path_at E dfd upath (fspick_lookup_flags flags) = (ret, target) ->
  ret < 0 ->
  fspick E n dfd upath flags k
  = (Done ret, k, [(EvUserPathAt dfd upath (fspick_lookup_flags flags), k)]).
Proof.
  intros Hcap Hflags Hpath Hret. apply Z.ltb_lt in Hret.
  unfold fspick. rewrite Hcap, Hflags. simpl.
  by rewrite bind_emit, Hpath, Hret.
Qed.

(** X17.  When no context can be made for the superblock fspick returns
    the error of vfs_new_fs_context after releasing the path once; no log
    and no descriptor are made and the store is unchanged. *)
Theorem fspick_context_error
    (E : environment) (n : nat) (k : kernel) (dfd upath flags ret : Z)
    (target : path) (err : Z) :
  ns_capable E = true ->
  Z.land flags (Z.lnot FSPICK_VALID_FLAGS) = 0 ->
  user_path_at E dfd upath (fspick_lookup_flags flags) = (ret, target) ->
  0 <= ret ->
  s_op_reconfigure (d_sb (path_dentry target)) = true ->
  vfs_new_fs_context E (s_type (d_sb (path_dentry target)))
    (Some (path_dentry target)) 0 FS_CONTEXT_FOR_RECONFIGURE = inl err ->
  fspick E n dfd upath flags k
  = (Done err, k,
     [(EvUserPathAt dfd upath (fspick_lookup_flags flags), k);
      (EvVfsNewFsContext (s_type (d_sb (path_dentry target)))
         (Some (path_dentry target)) 0 FS_CONTEXT_FOR_RECONFIGURE, k);
      (EvPathPut target, k)]).
Proof.
  intros Hcap Hflags Hpath Hret Hop Hnew. apply Z.ltb_ge in Hret.
  unfold fspick, path_put. rewrite Hcap, Hflags. simpl.
  rewrite bind_emit, Hpath, Hret, Hop. simpl.
  by rewrite bind_emit, Hnew, bind_emit.
Qed.

(** X18.  When the log cannot be allocated or no descriptor can be had,
    fspick returns that error (-ENOMEM for the log), having put the context
    it made exactly once and released the path exactly once; no descriptor
    and no file are added. *)
Theorem fspick_late_failure
    (E : environment) (n : nat) (k : kernel) (dfd upath flags ret : Z)
    (target : path) (c : fs_context) :
  ns_capable E = true ->
  Z.land flags (Z.lnot FSPICK_VALID_FLAGS) = 0 ->
  user_path_at E dfd upath (fspick_lookup_flags flags) = (ret, target) ->
  0 <= ret ->
  s_op_reconfigure (d_sb (path_dentry target)) = true ->
  vfs_new_fs_context E (s_type (d_sb (path_dentry target)))
    (Some (path_dentry target)) 0 FS_CONTEXT_FOR_RECONFIGURE = inr c ->
  kzalloc_log E = false \/ anon_inode_getfd E < 0 ->
  let R := fspick E n dfd upath flags k in
  result_of R
  = Done (if kzalloc_log E then anon_inode_getfd E else - ENOMEM)
  /\ count is_put_fs_context (trace_of R) = 1%nat
  /\ count is_path_put (trace_of R) = 1%nat
  /\ fdtable (kernel_of R) = fdtable k
  /\ files (kernel_of R) = files k.
Proof.
  intros Hcap Hflags Hpath Hret Hop Hnew Hfail R. subst R.
  rewrite (fspick_run E n k dfd upath flags ret target c) by done.
  cbv zeta. destruct (kzalloc_log E).
  - destruct Hfail as [|Hfd]; [done|].
    rewrite fscontext_create_fd_run. apply Z.ltb_lt in Hfd. rewrite Hfd.
    by repeat split.
  - by repeat split.
Qed.

(** X19.  When everything succeeds fspick returns the descriptor
    anon_inode_getfd gave.  The descriptor is open on a file of this kind
    bound to a context that did not exist before; the context is the one
    vfs_new_fs_context made for reconfiguration of the target, in phase
    ReconfParams, with an empty log of [n] slots.  The path has been
    released once, the context is not put, and the descriptor is made
    close-on-exec exactly when FSPICK_CLOEXEC is set. *)
Theorem fspick_success
    (E : environment) (n : nat) (k : kernel) (dfd upath flags ret : Z)
    (target : path) (c : fs_context) :
  ns_capable E = true ->
  Z.land flags (Z.lnot FSPICK_VALID_FLAGS) = 0 ->
  user_path_at E dfd upath (fspick_lookup_flags flags) = (ret, target) ->
  0 <= ret ->
  s_op_reconfigure (d_sb (path_dentry target)) = true ->
  vfs_new_fs_context E (s_type (d_sb (path_dentry target)))
    (Some (path_dentry target)) 0 FS_CONTEXT_FOR_RECONFIGURE = inr c ->
  kzalloc_log E = true ->
  0 <= anon_inode_getfd E ->
  let R := fspick E n dfd upath flags k in
  let c1 := set_phase FS_CONTEXT_RECONF_PARAMS c in
  let c' := set_log (Some (new_log n c1)) c1 in
  result_of R = Done (anon_inode_getfd E)
  /\ phase c' = FS_CONTEXT_RECONF_PARAMS
  /\ (exists fc,
        contexts k !! fc = None
        /\ fscontext_fd (kernel_of R) (anon_inode_getfd E) fc c'
        /\ EvAnonInodeGetfd fc
             (Z.lor O_RDWR
                (if flag_set flags FSPICK_CLOEXEC then O_CLOEXEC else 0))
           ∈ calls (trace_of R))
  /\ count is_path_put (trace_of R) = 1%nat
  /\ count is_put_fs_context (trace_of R) = 0%nat.
Proof.
  intros Hcap Hflags Hpath Hret Hop Hnew Hlog Hfd R c1 c'. subst R.
  rewrite (fspick_run E n k dfd upath flags ret target c) by done.
  cbv zeta. rewrite Hlog. fold c1 c'.
  set (fc := fresh (dom (contexts k))).
  set (o := if flag_set flags FSPICK_CLOEXEC then O_CLOEXEC else 0).
  pose proof (fscontext_create_fd_binds E (update_fc fc c' k) fc o c' Hfd
                (contexts_update_fc fc c' k)) as Hbound.
  rewrite fscontext_create_fd_run in *.
  assert (Hneg : (anon_inode_getfd E <? 0) = false) by lia.
  rewrite Hneg in *. cbv zeta in *.
  split; [done|]. split; [done|]. split; [|by split].
  exists fc. split; [apply fresh_context_unused|]. split.
  - exact Hbound.
  - unfold calls, trace_of, after; cbn [fst snd].
    apply list_elem_of_fmap.
    exists (EvAnonInodeGetfd fc (Z.lor O_RDWR o), update_fc fc c' k).
    split; [done|].
    repeat first [ apply list_elem_of_here | apply list_elem_of_further
                 | apply elem_of_app; right ].
Qed.

(** ** fsopen, path by path *)

(** X20.  fsopen checks the caller before anything else: without the
    capability it returns -EPERM whatever the flags, with it any flag other
    than FSOPEN_CLOEXEC gives -EINVAL, and a name that cannot be copied
    gives the error of the copy; no filesystem type is looked up and the
    store is unchanged. *)
Theorem fsopen_validation
    (E : environment) (n : nat) (PAGE_SIZE : Z)
    (get_fs_type : string -> M (option file_system_type))
    (put_filesystem : file_system_type -> M unit)
    (k : kernel) (_fs_name flags : Z) :
  let R := fsopen E n PAGE_SIZE get_fs_type put_filesystem _fs_name flags k in
  (ns_capable E = false -> R = (Done (- EPERM), k, []))
  /\ (ns_capable E = true ->
      Z.land flags (Z.lnot FSOPEN_CLOEXEC) <> 0 ->
      R = (Done (- EINVAL), k, []))
  /\ (forall err,
        ns_capable E = true ->
        Z.land flags (Z.lnot FSOPEN_CLOEXEC) = 0 ->
        strndup_user E _fs_name PAGE_SIZE = inl err ->
        R = (Done err, k, [(EvStrndupUser _fs_name PAGE_SIZE, k)])).
Proof.
  intros R. subst R. unfold fsopen. split; [|split].
  - by intros ->.
  - intros -> Hflags. apply Z.eqb_neq in Hflags. by rewrite Hflags.
  - intros err -> Hflags Hcopy. rewrite Hflags. simpl.
    by rewrite bind_emit, Hcopy.
Qed.

(** X21.  For a name that is no registered filesystem type, fsopen returns
    -ENODEV once it has freed its copy of the name; it makes no context and
    leaves the store as get_fs_type left it. *)
Theorem fsopen_unknown_filesystem
    (E : environment) (n : nat) (PAGE_SIZE : Z)
    (get_fs_type : string -> M (option file_system_type))
    (put_filesystem : file_system_type -> M unit)
    (k k1 : kernel) (t1 : trace) (_fs_name flags : Z) (name : string) :
  ns_capable E = true ->
  Z.land flags (Z.lnot FSOPEN_CLOEXEC) = 0 ->
  strndup_user E _fs_name PAGE_SIZE = inr name ->
  get_fs_type name k = (Done None, k1, t1) ->
  fsopen E n PAGE_SIZE get_fs_type put_filesystem _fs_name flags k
  = (Done (- ENODEV), k1,
     [(EvStrndupUser _fs_name PAGE_SIZE, k)] ++ t1 ++ [(EvKfree name, k1)]).
Proof.
  intros Hcap Hflags Hcopy Hget. unfold fsopen, kfree.
  rewrite Hcap, Hflags. simpl.
  rewrite bind_emit, Hcopy, bind_run, Hget.
  unfold result_of, kernel_of, trace_of; cbn [fst snd].
  rewrite bind_emit. unfold after, result_of, kernel_of, trace_of; simpl.
  done.
Qed.

(** fsopen once the filesystem type [t] is found, [put_filesystem] leaving
    the store alone. *)
Lemma fsopen_run E n PAGE_SIZE get_fs_type put_filesystem k k1 t1
    _fs_name flags name t :
  ns_capable E = true ->
  Z.land flags (Z.lnot FSOPEN_CLOEXEC) = 0 ->
  strndup_user E _fs_name PAGE_SIZE = inr name ->
  get_fs_type name k = (Done (Some t), k1, t1) ->
  (forall k0, result_of (put_filesystem t k0) = Done tt
              /\ kernel_of (put_filesystem t k0) = k0) ->
  let fc := fresh (dom (contexts k1)) in
  let ev := (EvVfsNewFsContext t None 0 FS_CONTEXT_FOR_USER_MOUNT, k1) in
  fsopen E n PAGE_SIZE get_fs_type put_filesystem _fs_name flags k
  = after ([(EvStrndupUser _fs_name PAGE_SIZE, k)] ++ t1
           ++ [(EvKfree name, k1); ev])
      match vfs_new_fs_context E t None 0 FS_CONTEXT_FOR_USER_MOUNT with
      | inl err => (Done err, k1, trace_of (put_filesystem t k1))
      | inr c =>
          let c1 := set_phase FS_CONTEXT_CREATE_PARAMS c in
          let k2 := update_fc fc c1 k1 in
          after (trace_of (put_filesystem t (update_fc fc c k1)))
            (if kzalloc_log E then
               let k3 := update_fc fc (set_log (Some (new_log n c1)) c1) k1 in
               after [(EvKzallocLog fc, k2)]
                 (fscontext_create_fd E fc
                    (if flag_set flags FSOPEN_CLOEXEC then O_CLOEXEC else 0)
                    k3)
             else
               let k3 := update_fc fc (set_log None c1) k1 in
               (Done (- ENOMEM), k3,
                [(EvKzallocLog fc, k2); (EvPutFsContext fc, k3)]))
      end.
Proof.
  intros Hcap Hflags Hcopy Hget Hput fc ev.
  unfold fsopen, kfree, put_fs_context.
  rewrite Hcap, Hflags. simpl.
  rewrite bind_emit, Hcopy, bind_run, Hget.
  unfold result_of at 1, kernel_of at 1, trace_of at 1; cbn [fst snd].
  rewrite bind_emit, bind_emit, !after_after.
  f_equal; [subst ev; simpl; by rewrite <- !app_assoc|].
  destruct (vfs_new_fs_context E t None 0 FS_CONTEXT_FOR_USER_MOUNT)
    as [err|c]; cbv beta iota.
  - rewrite bind_mret, bind_run.
    destruct (Hput k1) as [-> ->].
    unfold after, result_of, kernel_of, trace_of; simpl. by rewrite app_nil_r.
  - rewrite bind_run, bind_get_kernel, bind_put_kernel. fold fc.
    rewrite (mret_run (inr fc)).
    change (set_contexts (<[fc:=c]> (contexts k1)) k1)
      with (update_fc fc c k1).
    unfold result_of at 1, kernel_of at 1, trace_of at 1; cbn [fst snd].
    rewrite after_nil, bind_run.
    destruct (Hput (update_fc fc c k1)) as [-> ->]. f_equal.
    rewrite (bind_store_phase _ _ _ _ _ (contexts_update_fc fc c k1)).
    rewrite update_fc_twice.
    rewrite bind_run, (fscontext_alloc_log_run E n fc _ _)
      by apply contexts_update_fc.
    destruct (kzalloc_log E); unfold result_of, kernel_of, trace_of;
      cbn [fst snd]; rewrite update_fc_twice.
    + reflexivity.
    + simpl. by rewrite bind_emit.
Qed.

(** X22.  When everything succeeds, fsopen returns the descriptor
    anon_inode_getfd gave, open on a file of this kind bound to a context
    that did not exist before: the one vfs_new_fs_context made for a new
    mount of the type found, in phase CreateParams, with an empty log of
    [n] slots.  fsopen itself does not put the context. *)
Theorem fsopen_success
    (E : environment) (n : nat) (PAGE_SIZE : Z)
    (get_fs_type : string -> M (option file_system_type))
    (put_filesystem : file_system_type -> M unit)
    (k k1 : kernel) (t1 : trace) (_fs_name flags : Z) (name : string)
    (t : file_system_type) (c : fs_context) :
  ns_capable E = true ->
  Z.land flags (Z.lnot FSOPEN_CLOEXEC) = 0 ->
  strndup_user E _fs_name PAGE_SIZE = inr name ->
  get_fs_type name k = (Done (Some t), k1, t1) ->
  (forall k0, result_of (put_filesystem t k0) = Done tt
              /\ kernel_of (put_filesystem t k0) = k0) ->
  vfs_new_fs_context E t None 0 FS_CONTEXT_FOR_USER_MOUNT = inr c ->
  kzalloc_log E = true ->
  0 <= anon_inode_getfd E ->
  let R := fsopen E n PAGE_SIZE get_fs_type put_filesystem _fs_name flags k in
  let c1 := set_phase FS_CONTEXT_CREATE_PARAMS c in
  let c' := set_log (Some (new_log n c1)) c1 in
  let fc := fresh (dom (contexts k1)) in
  result_of R = Done (anon_inode_getfd E)
  /\ phase c' = FS_CONTEXT_CREATE_PARAMS
  /\ contexts k1 !! fc = None
  /\ fscontext_fd (kernel_of R) (anon_inode_getfd E) fc c'
  /\ EvAnonInodeGetfd fc
       (Z.lor O_RDWR (if flag_set flags FSOPEN_CLOEXEC then O_CLOEXEC else 0))
     ∈ calls (trace_of R)
  /\ count is_put_fs_context (trace_of R)
     = (count is_put_fs_context t1
        + count is_put_fs_context
            (trace_of (put_filesystem t (update_fc fc c k1))))%nat.
Proof.
  intros Hcap Hflags Hcopy Hget Hput Hnew Hlog Hfd R c1 c' fc. subst R.
  rewrite (fsopen_run E n PAGE_SIZE get_fs_type put_filesystem k k1 t1
             _fs_name flags name t) by done.
  cbv zeta. rewrite Hnew, Hlog. fold fc c1 c'.
  set (o := if flag_set flags FSOPEN_CLOEXEC then O_CLOEXEC else 0).
  pose proof (fscontext_create_fd_binds E (update_fc fc c' k1) fc o c' Hfd
                (contexts_update_fc fc c' k1)) as Hbound.
  rewrite fscontext_create_fd_run in *.
  assert (Hneg : (anon_inode_getfd E <? 0) = false) by lia.
  rewrite Hneg in *. cbv zeta in *.
  split; [done|]. split; [done|].
  split; [apply fresh_context_unused|]. split; [exact Hbound|]. split.
  - unfold calls, trace_of, after; cbn [fst snd].
    apply list_elem_of_fmap.
    exists (EvAnonInodeGetfd fc (Z.lor O_RDWR o), update_fc fc c' k1).
    split; [done|].
    repeat first [ apply list_elem_of_here | apply list_elem_of_further
                 | apply elem_of_app; right ].
  - unfold after, trace_of; cbn [fst snd].
    rewrite !count_app. unfold count at 1 3 5 6; simpl. lia.
Qed.

(** X23.  When the context is made but the log cannot be allocated or no
    descriptor can be had, fsopen returns that error (-ENOMEM for the log)
    having itself put the context exactly once; no descriptor and no file
    are added to what get_fs_type left. *)
Theorem fsopen_late_failure
    (E : environment) (n : nat) (PAGE_SIZE : Z)
    (get_fs_type : string -> M (option file_system_type))
    (put_filesystem : file_system_type -> M unit)
    (k k1 : kernel) (t1 : trace) (_fs_name flags : Z) (name : string)
    (t : file_system_type) (c : fs_context) :
  ns_capable E = true ->
  Z.land flags (Z.lnot FSOPEN_CLOEXEC) = 0 ->
  strndup_user E _fs_name PAGE_SIZE = inr name ->
  get_fs_type name k = (Done (Some t), k1, t1) ->
  (forall k0, result_of (put_filesystem t k0) = Done tt
              /\ kernel_of (put_filesystem t k0) = k0) ->
  vfs_new_fs_context E t None 0 FS_CONTEXT_FOR_USER_MOUNT = inr c ->
  kzalloc_log E = false \/ anon_inode_getfd E < 0 ->
  let R := fsopen E n PAGE_SIZE get_fs_type put_filesystem _fs_name flags k in
  let fc := fresh (dom (contexts k1)) in
  result_of R
  = Done (if kzalloc_log E then anon_inode_getfd E else - ENOMEM)
  /\ count is_put_fs_context (trace_of R)
     = (count is_put_fs_context t1
        + count is_put_fs_context
            (trace_of (put_filesystem t (update_fc fc c k1))) + 1)%nat
  /\ fdtable (kernel_of R) = fdtable k1
  /\ files (kernel_of R) = files k1.
Proof.
  intros Hcap Hflags Hcopy Hget Hput Hnew Hfail R fc. subst R.
  rewrite (fsopen_run E n PAGE_SIZE get_fs_type put_filesystem k k1 t1
             _fs_name flags name t) by done.
  cbv zeta. rewrite Hnew. fold fc.
  destruct (kzalloc_log E).
  - destruct Hfail as [|Hfd]; [done|].
    rewrite fscontext_create_fd_run.
    apply Z.ltb_lt in Hfd. rewrite Hfd.
    split; [done|]. split; [|done].
    unfold after, trace_of; cbn [fst snd].
    rewrite !count_app. unfold count at 1 3 5 6; simpl. lia.
  - split; [done|]. split; [|done].
    unfold after, trace_of; cbn [fst snd].
    rewrite !count_app. unfold count at 1 3 5; simpl. lia.
Qed.

(** ** The fsconfig system call, path by path *)

(** The system call as far as the copy of the key, on a descriptor of this
    kind. *)
Lemma fsconfig_bound_run E k fd fc c cmd _key _value aux :
  fscontext_fd k fd fc c ->
  0 <= fd ->
  fsconfig_check_shape cmd _key _value aux = None ->
  fsconfig E fd cmd _key _value aux k
  = after [(EvFdget fd, k)]
      (if _key =? 0 then fsconfig_copy_value E fd (Some fc) cmd None _value aux k
       else
         after [(EvStrndupUser _key 256, k)]
           match strndup_user E _key 256 with
           | inl err => (Done err, k, [(EvFdput fd, k)])
           | inr key =>
               fsconfig_copy_value E fd (Some fc) cmd (Some key) _value aux k
           end).
Proof.
  intros (fp & file0 & Hfd & Hfile & Hop & Hpd & Hc) Hpos Hshape.
  apply Z.ltb_ge in Hpos. unfold fsconfig. rewrite Hpos, Hshape.
  rewrite bind_emit, bind_get_kernel, Hfd. f_equal.
  rewrite bind_run. unfold load_file. rewrite Hfile.
  unfold result_of at 1, kernel_of at 1, trace_of at 1; cbn [fst snd].
  rewrite after_nil, Hop, bool_decide_eq_true_2 by done. simpl. rewrite Hpd.
  destruct (_key =? 0); simpl; [done|].
  rewrite bind_emit. f_equal.
  destruct (strndup_user E _key 256); [|done].
  unfold out_f. by rewrite bind_emit.
Qed.

(** From the lock to the end. *)
Lemma fsconfig_locked_run E k fd fc c cmd key value aux :
  contexts k !! fc = Some c ->
  (match fsconfig_command_of_Z cmd with
   | Some fsconfig_set_string | Some fsconfig_set_binary => True
   | _ => value = None
   end) ->
  let V := vfs_fsconfig E fc cmd key value aux k in
  fsconfig_locked E fd (Some fc) cmd key value aux k
  = after [(EvMutexLockInterruptible fc, k)]
      (if mutex_lock_interruptible E =? 0 then
         match result_of V with
         | Done r =>
             (Done r, kernel_of V,
              trace_of V ++ [(EvMutexUnlock fc, kernel_of V)]
              ++ fsconfig_cleanup fd key value (kernel_of V))
         | Oops => (Oops, kernel_of V, trace_of V)
         end
       else
         (Done (mutex_lock_interruptible E), k, fsconfig_cleanup fd key value k)).
Proof.
  intros Hc Hvalue V. unfold fsconfig_locked.
  rewrite (bind_load_fc _ _ _ _ Hc), bind_emit. f_equal.
  assert (Hclean : forall r k',
    ((match fsconfig_command_of_Z cmd with
      | Some fsconfig_set_string | Some fsconfig_set_binary => kfree value
      | _ => mret ()
      end) ≫= λ _ : (), out_key fd key r) k'
    = (Done r, k', fsconfig_cleanup fd key value k')).
  { intros r k'. unfold fsconfig_cleanup, out_key, out_f, kfree.
    assert (Hv : (match fsconfig_command_of_Z cmd with
                  | Some fsconfig_set_string | Some fsconfig_set_binary =>
                      match value with
                      | Some s => emit (EvKfree s)
                      | None => mret ()
                      end
                  | _ => mret ()
                  end)
                 = match value with
                   | Some s => emit (EvKfree s)
                   | None => mret ()
                   end).
    { destruct (fsconfig_command_of_Z cmd) as [[]|]; try done;
        by rewrite Hvalue. }
    rewrite Hv.
    destruct value as [v|], key as [s|];
      rewrite ?bind_emit, ?bind_mret, ?bind_emit; reflexivity. }
  destruct (mutex_lock_interruptible E =? 0).
  - assert (Hinner :
      (vfs_fsconfig E fc cmd key value aux
       ≫= λ r : Z, emit (EvMutexUnlock fc) ≫= λ _ : (), mret r) k
      = match result_of V with
        | Done r =>
            (Done r, kernel_of V,
             trace_of V ++ [(EvMutexUnlock fc, kernel_of V)])
        | Oops => (Oops, kernel_of V, trace_of V)
        end).
    { rewrite bind_run. fold V. destruct (result_of V) as [r|]; [|done].
      by rewrite bind_emit. }
    rewrite bind_run, Hinner.
    destruct (result_of V) as [r|]; [|done].
    unfold result_of at 1, kernel_of at 1, trace_of at 1; cbn [fst snd].
    rewrite Hclean. unfold after, result_of, kernel_of, trace_of; simpl.
    by rewrite <- app_assoc.
  - by rewrite bind_mret, Hclean.
Qed.

(** The whole system call for a command it takes to the lock, the copies
    of key and value succeeding. *)
Lemma fsconfig_dispatched_run E k fd fc c cmd _key _value aux key value :
  fscontext_fd k fd fc c ->
  0 <= fd ->
  fsconfig_check_shape cmd _key _value aux = None ->
  dispatched cmd = true ->
  key_copied E _key key ->
  value_copied E cmd _value aux value ->
  let V := vfs_fsconfig E fc cmd key value aux k in
  fsconfig E fd cmd _key _value aux k
  = after ([(EvFdget fd, k)] ++ fsconfig_copies cmd _key _value aux k
           ++ [(EvMutexLockInterruptible fc, k)])
      (if mutex_lock_interruptible E =? 0 then
         match result_of V with
         | Done r =>
             (Done r, kernel_of V,
              trace_of V ++ [(EvMutexUnlock fc, kernel_of V)]
              ++ fsconfig_cleanup fd key value (kernel_of V))
         | Oops => (Oops, kernel_of V, trace_of V)
         end
       else
         (Done (mutex_lock_interruptible E), k, fsconfig_cleanup fd key value k)).
Proof.
  intros Hbound Hpos Hshape Hd Hkey Hvalue V.
  rewrite (fsconfig_bound_run E k fd fc c) by done.
  destruct Hbound as (fp & file0 & Hfd & Hfile & Hop & Hpd & Hc).
  assert (Hcv : forall key,
    key_copied E _key key ->
    fsconfig_copy_value E fd (Some fc) cmd key _value aux k
    = after (match fsconfig_command_of_Z cmd with
             | Some fsconfig_set_string => [(EvStrndupUser _value 256, k)]
             | Some fsconfig_set_binary => [(EvMemdupUserNul _value aux, k)]
             | _ => []
             end)
        (fsconfig_locked E fd (Some fc) cmd key value aux k)).
  { intros key0 _. unfold fsconfig_copy_value, value_copied, dispatched in *.
    destruct (fsconfig_command_of_Z cmd) as [[]|]; try discriminate;
      try (destruct Hvalue as (v & -> & Hv); by rewrite bind_emit, Hv);
      subst value; by rewrite after_nil. }
  unfold fsconfig_copies, key_copied in *.
  destruct (_key =? 0).
  - subst key. rewrite (Hcv None) by done.
    rewrite (fsconfig_locked_run E k fd fc c) by
      (done || (unfold value_copied in Hvalue;
                by destruct (fsconfig_command_of_Z cmd) as [[]|])).
    fold V. rewrite !after_after. f_equal; try by rewrite <- ?app_assoc.
  - destruct Hkey as (s & -> & Hs). rewrite Hs, (Hcv (Some s)) by eauto.
    rewrite (fsconfig_locked_run E k fd fc c) by
      (done || (unfold value_copied in Hvalue;
                by destruct (fsconfig_command_of_Z cmd) as [[]|])).
    fold V. rewrite !after_after. f_equal; try by rewrite <- ?app_assoc.
Qed.

(** X24.  What fsconfig rejects before it looks at the descriptor: a
    negative descriptor number gives -EINVAL whatever the rest; a number
    that is no command gives -EOPNOTSUPP; a create or reconfigure command
    given a key, a value or a non-zero aux gives -EINVAL.  No call is made
    and the store is unchanged. *)
Theorem fsconfig_early_validation
    (E : environment) (k : kernel) (fd cmd _key _value aux : Z) :
  let R := fsconfig E fd cmd _key _value aux k in
  (fd < 0 -> R = (Done (- EINVAL), k, []))
  /\ (0 <= fd -> fsconfig_command_of_Z cmd = None ->
      R = (Done (- EOPNOTSUPP), k, []))
  /\ (0 <= fd ->
      fsconfig_command_of_Z cmd = Some fsconfig_cmd_create
      \/ fsconfig_command_of_Z cmd = Some fsconfig_cmd_reconfigure ->
      _key <> 0 \/ _value <> 0 \/ aux <> 0 ->
      R = (Done (- EINVAL), k, [])).
Proof.
  intros R. subst R. unfold fsconfig, fsconfig_check_shape.
  split; [|split].
  - intros Hfd. apply Z.ltb_lt in Hfd. by rewrite Hfd.
  - intros Hfd Hcmd. apply Z.ltb_ge in Hfd. by rewrite Hfd, Hcmd.
  - intros Hfd Hcmd Hargs. apply Z.ltb_ge in Hfd. rewrite Hfd.
    assert (Hb : negb (_key =? 0) || negb (_value =? 0) || negb (aux =? 0)
                 = true).
    { rewrite !orb_true_iff, !negb_true_iff, !Z.eqb_neq. tauto. }
    destruct Hcmd as [-> | ->]; by rewrite Hb.
Qed.

(** X25.  What the system call adds to vfs_fsconfig.  For a command it
    takes to the lock, on a descriptor of this kind, with key and value
    copied and the lock acquired, fsconfig returns what vfs_fsconfig returns
    on the copies and leaves the store vfs_fsconfig leaves.  Around the
    calls of vfs_fsconfig it takes the descriptor, copies, locks, and then
    unlocks, frees the value and the key and puts the descriptor, each once
    and in that order. *)
Theorem fsconfig_returns_vfs_fsconfig
    (E : environment) (k : kernel) (fd : Z) (fc : fc_ptr) (c : fs_context)
    (cmd _key _value aux : Z) (key value : option string) :
  fscontext_fd k fd fc c ->
  0 <= fd ->
  fsconfig_check_shape cmd _key _value aux = None ->
  dispatched cmd = true ->
  key_copied E _key key ->
  value_copied E cmd _value aux value ->
  mutex_lock_interruptible E = 0 ->
  let R := fsconfig E fd cmd _key _value aux k in
  let V := vfs_fsconfig E fc cmd key value aux k in
  result_of R = result_of V
  /\ kernel_of R = kernel_of V
  /\ (forall r, result_of V = Done r ->
        trace_of R
        = [(EvFdget fd, k)] ++ fsconfig_copies cmd _key _value aux k
          ++ [(EvMutexLockInterruptible fc, k)]
          ++ trace_of V ++ [(EvMutexUnlock fc, kernel_of V)]
          ++ fsconfig_cleanup fd key value (kernel_of V)).
Proof.
  intros Hbound Hfd Hshape Hd Hkey Hvalue Hlock R V. subst R.
  rewrite (fsconfig_dispatched_run E k fd fc c cmd _key _value aux key value)
    by done.
  fold V. rewrite Hlock. simpl.
  destruct (result_of V) as [r|] eqn:HV.
  - split; [done|]. split; [done|]. intros r' [= <-].
    unfold after, trace_of; cbn [fst snd]. by rewrite <- !app_assoc.
  - split; [done|]. split; [done|]. intros r' [=].
Qed.

(** X26.  When the wait for the lock is interrupted, fsconfig returns the
    error of the wait: vfs_fsconfig is not entered, the context and the
    rest of the store are unchanged, nothing is unlocked, and the copies of
    value and key are freed and the descriptor put all the same. *)
Theorem fsconfig_interrupted
    (E : environment) (k : kernel) (fd : Z) (fc : fc_ptr) (c : fs_context)
    (cmd _key _value aux : Z) (key value : option string) :
  fscontext_fd k fd fc c ->
  0 <= fd ->
  fsconfig_check_shape cmd _key _value aux = None ->
  dispatched cmd = true ->
  key_copied E _key key ->
  value_copied E cmd _value aux value ->
  mutex_lock_interruptible E <> 0 ->
  fsconfig E fd cmd _key _value aux k
  = (Done (mutex_lock_interruptible E), k,
     [(EvFdget fd, k)] ++ fsconfig_copies cmd _key _value aux k
     ++ [(EvMutexLockInterruptible fc, k)] ++ fsconfig_cleanup fd key value k).
Proof.
  intros Hbound Hfd Hshape Hd Hkey Hvalue Hlock.
  rewrite (fsconfig_dispatched_run E k fd fc c cmd _key _value aux key value)
    by done.
  apply Z.eqb_neq in Hlock. rewrite Hlock.
  unfold after, result_of, kernel_of, trace_of; cbn [fst snd].
  by rewrite <- !app_assoc.
Qed.

(** X27.  The path and descriptor commands never get as far as the BUG()
    of vfs_fsconfig through the system call: with the shape their command
    demands, on a descriptor of this kind, fsconfig copies the key, frees
    it and returns -EOPNOTSUPP; no lock is taken and the store is
    unchanged. *)
Theorem fsconfig_unimplemented
    (E : environment) (k : kernel) (fd : Z) (fc : fc_ptr) (c : fs_context)
    (cmd _key _value aux : Z) (s : string) :
  fscontext_fd k fd fc c ->
  0 <= fd ->
  fsconfig_check_shape cmd _key _value aux = None ->
  fsconfig_command_of_Z cmd = Some fsconfig_set_path
  \/ fsconfig_command_of_Z cmd = Some fsconfig_set_path_empty
  \/ fsconfig_command_of_Z cmd = Some fsconfig_set_fd ->
  strndup_user E _key 256 = inr s ->
  fsconfig E fd cmd _key _value aux k
  = (Done (- EOPNOTSUPP), k,
     [(EvFdget fd, k); (EvStrndupUser _key 256, k); (EvKfree s, k);
      (EvFdput fd, k)]).
Proof.
  intros Hbound Hfd Hshape Hcmd Hs.
  rewrite (fsconfig_bound_run E k fd fc c) by done.
  assert (Hkey : (_key =? 0) = false).
  { unfold fsconfig_check_shape in Hshape.
    destruct Hcmd as [H | [H | H]]; rewrite H in Hshape;
      by destruct (_key =? 0). }
  rewrite Hkey, Hs. unfold fsconfig_copy_value, out_key, out_f, kfree.
  destruct Hcmd as [-> | [-> | ->]]; by rewrite !bind_emit.
Qed.

(** X28.  A copy that fails ends the call with the error of the copy and
    before the lock: after a key that cannot be copied only the descriptor
    is put, and after a string value that cannot be copied the key is
    freed and the descriptor put.  The store is unchanged. *)
Theorem fsconfig_copy_failure
    (E : environment) (k : kernel) (fd : Z) (fc : fc_ptr) (c : fs_context)
    (cmd _key _value aux err : Z) :
  fscontext_fd k fd fc c ->
  0 <= fd ->
  fsconfig_check_shape cmd _key _value aux = None ->
  let R := fsconfig E fd cmd _key _value aux k in
  (_key <> 0 ->
   strndup_user E _key 256 = inl err ->
   R = (Done err, k,
        [(EvFdget fd, k); (EvStrndupUser _key 256, k); (EvFdput fd, k)]))
  /\ (forall s,
        fsconfig_command_of_Z cmd = Some fsconfig_set_string ->
        strndup_user E _key 256 = inr s ->
        strndup_user E _value 256 = inl err ->
        R = (Done err, k,
             [(EvFdget fd, k); (EvStrndupUser _key 256, k);
              (EvStrndupUser _value 256, k); (EvKfree s, k);
              (EvFdput fd, k)])).
Proof.
  intros Hbound Hfd Hshape R. subst R.
  rewrite (fsconfig_bound_run E k fd fc c) by done. split.
  - intros Hkey Herr. apply Z.eqb_neq in Hkey. by rewrite Hkey, Herr.
  - intros s Hcmd Hs Herr.
    assert (Hkey : (_key =? 0) = false).
    { unfold fsconfig_check_shape in Hshape. rewrite Hcmd in Hshape.
      by destruct (_key =? 0). }
    rewrite Hkey, Hs. unfold fsconfig_copy_value, out_key, out_f, kfree.
    by rewrite Hcmd, bind_emit, Herr, !bind_emit.
Qed.

(** ** What the system call never does *)

(** With a key for the parameter commands and a value for the string
    command, the [switch] of vfs_fsconfig ends in no oops for the commands
    the system call takes to it. *)
Lemma vfs_fsconfig_switch_no_oops E fc c cmd key value aux k :
  contexts k !! fc = Some c ->
  dispatched cmd = true ->
  (match fsconfig_command_of_Z cmd with
   | Some fsconfig_set_flag | Some fsconfig_set_string
   | Some fsconfig_set_binary => is_Some key
   | _ => True
   end) ->
  (fsconfig_command_of_Z cmd = Some fsconfig_set_string -> is_Some value) ->
  result_of (vfs_fsconfig_switch E fc cmd key value aux k) <> Oops.
Proof.
  intros Hc Hd Hkey Hvalue.
  unfold vfs_fsconfig_switch, vfs_fsconfig_option, dispatched in *.
  destruct (fsconfig_command_of_Z cmd) as [[]|]; try discriminate; run;
    try done.
  - destruct Hkey as [s ->]. by destruct (params_phase (phase c)); run.
  - destruct Hkey as [s ->], (Hvalue eq_refl) as [v ->].
    destruct (params_phase (phase c)) eqn:Hp; run; [|done].
    destruct (String.eqb s "source"); run; [done|]. rewrite Hp. by run.
  - destruct Hkey as [s ->]. by destruct (params_phase (phase c)); run.
  - destruct (bool_decide (phase c = FS_CONTEXT_CREATE_PARAMS)); run; [|done].
    by destruct ((vfs_get_tree E (set_phase FS_CONTEXT_CREATING c)).1 =? 0);
      run.
Qed.

Lemma vfs_fsconfig_no_oops E fc c cmd key value aux k :
  contexts k !! fc = Some c ->
  dispatched cmd = true ->
  (match fsconfig_command_of_Z cmd with
   | Some fsconfig_set_flag | Some fsconfig_set_string
   | Some fsconfig_set_binary => is_Some key
   | _ => True
   end) ->
  (fsconfig_command_of_Z cmd = Some fsconfig_set_string -> is_Some value) ->
  result_of (vfs_fsconfig E fc cmd key value aux k) <> Oops.
Proof.
  intros Hc Hd Hkey Hvalue.
  destruct (decide (phase c = FS_CONTEXT_AWAITING_RECONF)) as [Hph|Hph].
  - rewrite (vfs_fsconfig_pending E fc c _ key value aux k Hc Hph).
    destruct (_ <? 0); [done|]. destruct (_ <? 0); [done|].
    unfold result_of at 1; cbn [fst snd].
    eapply vfs_fsconfig_switch_no_oops; [apply contexts_update_fc|done..].
  - rewrite (vfs_fsconfig_not_pending E fc c) by done.
    by eapply vfs_fsconfig_switch_no_oops.
Qed.

(** The shape check leaves the parameter commands a key. *)
Lemma fsconfig_check_shape_key cmd _key _value aux :
  fsconfig_check_shape cmd _key _value aux = None ->
  match fsconfig_command_of_Z cmd with
  | Some fsconfig_cmd_create | Some fsconfig_cmd_reconfigure => _key = 0
  | Some _ => _key <> 0
  | None => False
  end.
Proof.
  unfold fsconfig_check_shape.
  destruct (fsconfig_command_of_Z cmd) as [[]|];
    destruct (Z.eqb_spec _key 0); simpl; try done.
Qed.

(** X29.  On a store in which every descriptor is open on a file and every
    file of this kind holds a context, the system call never ends in an
    oops, whatever its arguments and whatever the rest of the kernel
    answers: neither the BUG() of the unimplemented commands, nor the
    [strcmp] on the key, nor the [strlen] of the value is reached with
    what they cannot take. *)
Theorem fsconfig_never_oops
    (E : environment) (k : kernel) (fd cmd _key _value aux : Z) :
  well_formed k ->
  result_of (fsconfig E fd cmd _key _value aux k) <> Oops.
Proof.
  intros Hwf.
  destruct (Z_lt_le_dec fd 0) as [Hfd|Hfd].
  { unfold fsconfig. apply Z.ltb_lt in Hfd. by rewrite Hfd. }
  destruct (fsconfig_check_shape cmd _key _value aux) as [ret|] eqn:Hshape.
  { unfold fsconfig. apply Z.ltb_ge in Hfd. by rewrite Hfd, Hshape. }
  destruct (fdtable k !! fd) as [fp|] eqn:Hfp.
  2:{ unfold fsconfig. apply Z.ltb_ge in Hfd. rewrite Hfd, Hshape.
      by rewrite bind_emit, bind_get_kernel, Hfp. }
  destruct (Hwf fd fp Hfp) as (file0 & Hfile & Hctx).
  destruct (decide (f_op file0 = fscontext_fops)) as [Hop|Hop].
  2:{ unfold fsconfig, out_f. apply Z.ltb_ge in Hfd. rewrite Hfd, Hshape.
      rewrite bind_emit, bind_get_kernel, Hfp, bind_run.
      unfold load_file. rewrite Hfile.
      unfold result_of at 2, kernel_of at 1, trace_of at 1; cbn [fst snd].
      rewrite bool_decide_eq_false_2 by done. simpl.
      by rewrite bind_emit. }
  destruct (Hctx Hop) as (fc & c & Hpd & Hc).
  assert (Hbound : fscontext_fd k fd fc c) by (by exists fp, file0).
  pose proof (fsconfig_check_shape_key _ _ _ _ Hshape) as Hk.
  rewrite (fsconfig_bound_run E k fd fc c) by done.
  rewrite result_of_after.
  assert (Hcv : forall key,
    (match fsconfig_command_of_Z cmd with
     | Some fsconfig_set_flag | Some fsconfig_set_string
     | Some fsconfig_set_binary => is_Some key
     | _ => True
     end) ->
    result_of (fsconfig_copy_value E fd (Some fc) cmd key _value aux k)
    <> Oops).
  { intros key Hkey. unfold fsconfig_copy_value, out_key, out_f, kfree.
    assert (Hlocked : forall value,
      dispatched cmd = true ->
      (match fsconfig_command_of_Z cmd with
       | Some fsconfig_set_string | Some fsconfig_set_binary => True
       | _ => value = None
       end) ->
      (fsconfig_command_of_Z cmd = Some fsconfig_set_string ->
       is_Some value) ->
      result_of (fsconfig_locked E fd (Some fc) cmd key value aux k) <> Oops).
    { intros value Hd Hv Hsv.
      rewrite (fsconfig_locked_run E k fd fc c) by done.
      rewrite result_of_after.
      destruct (mutex_lock_interruptible E =? 0); [|done].
      pose proof (vfs_fsconfig_no_oops E fc c cmd key value aux k Hc Hd
                    Hkey Hsv) as Hno.
      by destruct (result_of (vfs_fsconfig E fc cmd key value aux k)). }
    destruct (fsconfig_command_of_Z cmd) as [[]|] eqn:Hcmd;
      try (apply Hlocked; [by unfold dispatched; rewrite Hcmd|done|done]).
    - rewrite bind_emit, result_of_after.
      destruct (strndup_user E _value 256) as [err|v].
      + destruct key; by rewrite ?bind_emit.
      + apply Hlocked; [by unfold dispatched; rewrite Hcmd|done|eauto].
    - rewrite bind_emit, result_of_after.
      destruct (memdup_user_nul E _value aux) as [err|v].
      + destruct key; by rewrite ?bind_emit.
      + apply Hlocked; [by unfold dispatched; rewrite Hcmd|done|done].
    - destruct key; by rewrite ?bind_emit.
    - destruct key; by rewrite ?bind_emit.
    - destruct key; by rewrite ?bind_emit. }
  destruct (Z.eqb_spec _key 0) as [Hkey|Hkey].
  - apply Hcv. by destruct (fsconfig_command_of_Z cmd) as [[]|].
  - rewrite result_of_after.
    destruct (strndup_user E _key 256) as [err|s]; [done|].
    apply Hcv. destruct (fsconfig_command_of_Z cmd) as [[]|]; eauto.
Qed.

(** ** A created context takes no more configuration *)

Lemma fscontext_fd_update_fc k fd fc c c' :
  fscontext_fd k fd fc c -> fscontext_fd (update_fc fc c' k) fd fc c'.
Proof.
  intros (fp & file0 & Hfd & Hfile & Hop & Hpd & Hc).
  exists fp, file0. repeat split; try done. apply contexts_update_fc.
Qed.

(** X30.  Through the system call, from creation on: a create command on a
    descriptor whose context is in CreateParams, the tree being built,
    returns 0 and leaves the descriptor bound to the context in
    AwaitingMount; from then on every flag, string, binary or create
    command on the descriptor returns -EBUSY, and a reconfigure command
    -EOPNOTSUPP, and none of them changes the store. *)
Theorem fsconfig_created_is_closed
    (E : environment) (k : kernel) (fd : Z) (fc : fc_ptr) (c : fs_context) :
  fscontext_fd k fd fc c ->
  0 <= fd ->
  phase c = FS_CONTEXT_CREATE_PARAMS ->
  mutex_lock_interruptible E = 0 ->
  (vfs_get_tree E (set_phase FS_CONTEXT_CREATING c)).1 = 0 ->
  let R1 := fsconfig E fd (fsconfig_command_to_Z fsconfig_cmd_create) 0 0 0 k in
  result_of R1 = Done 0
  /\ exists c',
       fscontext_fd (kernel_of R1) fd fc c'
       /\ phase c' = FS_CONTEXT_AWAITING_MOUNT
       /\ forall cmd _key _value aux key value,
            fsconfig_check_shape cmd _key _value aux = None ->
            dispatched cmd = true ->
            key_copied E _key key ->
            value_copied E cmd _value aux value ->
            let R2 := fsconfig E fd cmd _key _value aux (kernel_of R1) in
            result_of R2
            = Done match fsconfig_command_of_Z cmd with
                   | Some fsconfig_cmd_reconfigure | None => - EOPNOTSUPP
                   | Some _ => - EBUSY
                   end
            /\ kernel_of R2 = kernel_of R1.
Proof.
  intros Hbound Hfd Hph Hlock Htree R1.
  assert (Hc : contexts k !! fc = Some c)
    by (by destruct Hbound as (? & ? & ? & ? & ? & ? & ?)).
  set (c' := set_phase FS_CONTEXT_AWAITING_MOUNT
               (vfs_get_tree E (set_phase FS_CONTEXT_CREATING c)).2).
  assert (HV : vfs_fsconfig E fc (fsconfig_command_to_Z fsconfig_cmd_create)
                 None None 0 k
               = (Done 0, update_fc fc c' k,
                  [(EvVfsGetTree fc,
                    update_fc fc (set_phase FS_CONTEXT_CREATING c) k)])).
  { rewrite (vfs_fsconfig_not_pending E fc c) by (done || congruence).
    rewrite (vfs_fsconfig_switch_create E fc c) by done.
    cbv zeta. by rewrite Htree. }
  assert (HR1 : result_of R1 = Done 0 /\ kernel_of R1 = update_fc fc c' k).
  { subst R1.
    rewrite (fsconfig_dispatched_run E k fd fc c _ 0 0 0 None None)
      by done.
    by rewrite Hlock, HV. }
  destruct HR1 as [Hr1 Hk1]. split; [done|]. exists c'. rewrite Hk1.
  pose proof (fscontext_fd_update_fc k fd fc c c' Hbound) as Hbound'.
  split; [done|]. split; [done|].
  intros cmd _key _value aux key value Hshape Hd Hkey Hvalue R2. subst R2.
  rewrite (fsconfig_dispatched_run E _ fd fc c' cmd _key _value aux key value)
    by done.
  rewrite Hlock. simpl.
  rewrite (vfs_fsconfig_not_pending E fc c') by (done || apply contexts_update_fc).
  rewrite (vfs_fsconfig_switch_closed E fc c')
    by (done || apply contexts_update_fc).
  done.
Qed.

(** ** The further properties on the sample system *)

Lemma fscontext_read_interrupted_witness :
  let k := Sample.system FS_CONTEXT_CREATE_PARAMS in
  fscontext_read
    (Further.env "source" true (0, Further.target_rw) (inl (- ENOMEM)) true 5
       (-4)) 8 1%nat 0 3 k
  = (Done (-4), k, [(EvMutexLockInterruptible 7%nat, k)]).
Proof.
  apply (fscontext_read_interrupted
           (Further.env "source" true (0, Further.target_rw) (inl (- ENOMEM))
              true 5 (-4))
           8 (Sample.system FS_CONTEXT_CREATE_PARAMS) 1%nat Further.bound_file
           7%nat (Sample.ctx FS_CONTEXT_CREATE_PARAMS) 0 3);
    first [reflexivity | simpl; lia].
Defined.

Lemma fscontext_read_fitting_message_witness :
  result_of
    (fscontext_read (Further.ok "source") 8 1%nat 0 10
       (Sample.system FS_CONTEXT_CREATE_PARAMS))
  = Done 5.
Proof.
  refine (proj1
    (fscontext_read_fitting_message (Further.ok "source") 8
       (Sample.system FS_CONTEXT_CREATE_PARAMS) 1%nat Further.bound_file
       7%nat (Sample.ctx FS_CONTEXT_CREATE_PARAMS) Sample.one_message
       "hello"%string 0 10 _ _ _ _ _ _ _ _));
    first [reflexivity | discriminate | simpl; lia | vm_compute; discriminate].
Defined.

Lemma fscontext_read_lock_released_witness :
  count is_unlock
    (trace_of
       (fscontext_read (Further.ok "source") 8 1%nat 0 3
          (Sample.system FS_CONTEXT_CREATE_PARAMS)))
  = 1%nat.
Proof.
  refine (proj2
    (fscontext_read_lock_released (Further.ok "source") 8
       (Sample.system FS_CONTEXT_CREATE_PARAMS) 1%nat 0 3 (- EMSGSIZE) _)).
  reflexivity.
Defined.

Lemma fscontext_read_one_message_less_witness :
  exists c' l',
    contexts
      (kernel_of
         (fscontext_read (Further.ok "source") 8 1%nat 0 3
            (Sample.system FS_CONTEXT_CREATE_PARAMS))) !! 7%nat = Some c'
    /\ log c' = Some l'
    /\ log_head l' = 1
    /\ 0 < log_pending 8 Sample.one_message
    /\ log_pending 8 l' = log_pending 8 Sample.one_message - 1.
Proof.
  apply (fscontext_read_one_message_less (Further.ok "source") 8
           (Sample.system FS_CONTEXT_CREATE_PARAMS) 1%nat Further.bound_file
           7%nat (Sample.ctx FS_CONTEXT_CREATE_PARAMS) Sample.one_message 0 3);
    first [reflexivity | discriminate | simpl; lia].
Defined.

Lemma fscontext_read_ring_order_witness :
  exists c' l',
    contexts
      (kernel_of
         (fscontext_read (Further.ok "source") 8 1%nat 0 3
            (Sample.system FS_CONTEXT_CREATE_PARAMS))) !! 7%nat = Some c'
    /\ log c' = Some l'
    /\ tail_index l' = (tail_index Sample.one_message + 1) mod 2 ^ 1
    /\ length (log_buffer l') = 2%nat
    /\ (forall i, i <> 0%nat ->
          log_buffer l' !! i = log_buffer Sample.one_message !! i)
    /\ (forall i, 0 <= i -> i <> 0 ->
          need_free_bit l' i = need_free_bit Sample.one_message i).
Proof.
  apply (fscontext_read_ring_order (Further.ok "source") 8 1
           (Sample.system FS_CONTEXT_CREATE_PARAMS) 1%nat Further.bound_file
           7%nat (Sample.ctx FS_CONTEXT_CREATE_PARAMS) Sample.one_message 0 3);
    first [reflexivity | discriminate | simpl; lia].
Defined.

Lemma vfs_fsconfig_local_witness :
  files
    (kernel_of
       (vfs_fsconfig (Further.ok "source") 7%nat
          (fsconfig_command_to_Z fsconfig_cmd_create) None None 0
          (Sample.system FS_CONTEXT_CREATE_PARAMS)))
  = files (Sample.system FS_CONTEXT_CREATE_PARAMS).
Proof.
  exact (proj1 (proj2
    (vfs_fsconfig_local (Further.ok "source")
       (Sample.system FS_CONTEXT_CREATE_PARAMS) 7%nat
       (fsconfig_command_to_Z fsconfig_cmd_create) None None 0))).
Defined.

Lemma vfs_fsconfig_closed_phase_witness :
  let k := Sample.system FS_CONTEXT_FAILED in
  vfs_fsconfig (Further.ok "source") 7%nat
    (fsconfig_command_to_Z fsconfig_set_string) (Some "source"%string)
    (Some "none"%string) 0 k
  = (Done (- EBUSY), k, []).
Proof.
  apply (vfs_fsconfig_closed_phase (Further.ok "source")
           (Sample.system FS_CONTEXT_FAILED) 7%nat
           (Sample.ctx FS_CONTEXT_FAILED)
           (fsconfig_command_to_Z fsconfig_set_string));
    reflexivity.
Defined.

Lemma vfs_fsconfig_unimplemented_bug_witness :
  let k := Sample.system FS_CONTEXT_CREATE_PARAMS in
  vfs_fsconfig (Further.ok "source") 7%nat
    (fsconfig_command_to_Z fsconfig_set_fd) (Some "source"%string) None 3 k
  = (Oops, k, []).
Proof.
  apply (vfs_fsconfig_unimplemented_bug (Further.ok "source")
           (Sample.system FS_CONTEXT_CREATE_PARAMS) 7%nat
           (Sample.ctx FS_CONTEXT_CREATE_PARAMS) fsconfig_set_fd);
    [reflexivity | reflexivity | right; right; reflexivity].
Defined.

Lemma vfs_fsconfig_phase_step_witness :
  exists ph',
    phase_of
      (kernel_of
         (vfs_fsconfig (Further.ok "source") 7%nat
            (fsconfig_command_to_Z fsconfig_cmd_create) None None 0
            (Sample.system FS_CONTEXT_AWAITING_RECONF))) 7%nat = Some ph'
    /\ phase_step FS_CONTEXT_AWAITING_RECONF ph' = true.
Proof.
  apply (vfs_fsconfig_phase_step (Further.ok "source")
           (Sample.system FS_CONTEXT_AWAITING_RECONF) 7%nat
           (Sample.ctx FS_CONTEXT_AWAITING_RECONF)
           (fsconfig_command_to_Z fsconfig_cmd_create) None None 0
           (fun _ _ _ => eq_refl) (fun _ _ _ _ => eq_refl) eq_refl).
Defined.

Lemma sample_well_formed ph : well_formed (Sample.system ph).
Proof.
  intros fd fp Hfd. unfold Sample.system in Hfd; simpl in Hfd.
  apply lookup_insert_Some in Hfd as [[<- <-]|[_ Hfd]].
  - exists Further.bound_file. split; [done|]. intros _.
    by exists 7%nat, (Sample.ctx ph).
  - apply lookup_singleton_Some in Hfd as [<- <-].
    exists {| f_op := other_fops 0; private_data := None |}.
    split; [done|]. intros [=].
Qed.

Lemma fscontext_create_fd_failure_witness :
  let k := Sample.system FS_CONTEXT_CREATE_PARAMS in
  fscontext_create_fd
    (Further.env "source" true (0, Further.target_rw) (inl (- ENOMEM)) true
       (-24) 0) 7%nat 0 k
  = (Done (-24), k,
     [(EvAnonInodeGetfd 7%nat (Z.lor O_RDWR 0), k); (EvPutFsContext 7%nat, k)]).
Proof.
  apply (fscontext_create_fd_failure
           (Further.env "source" true (0, Further.target_rw) (inl (- ENOMEM))
              true (-24) 0)
           (Sample.system FS_CONTEXT_CREATE_PARAMS) 7%nat 0).
  simpl; lia.
Defined.

Lemma fscontext_create_fd_success_witness :
  result_of
    (fscontext_create_fd (Further.ok "source") 7%nat O_CLOEXEC
       (Sample.system FS_CONTEXT_CREATE_PARAMS))
  = Done 5.
Proof.
  refine (proj1
    (fscontext_create_fd_success (Further.ok "source")
       (Sample.system FS_CONTEXT_CREATE_PARAMS) 7%nat O_CLOEXEC _)).
  simpl; lia.
Defined.

Lemma fscontext_create_fd_release_witness :
  let k := Sample.system FS_CONTEXT_CREATE_PARAMS in
  let k' := kernel_of (fscontext_create_fd (Further.ok "source") 7%nat 0 k) in
  calls (trace_of (fscontext_release (fresh (dom (files k))) k'))
  = [EvPutFsContext 7%nat].
Proof.
  refine (proj1 (proj2
    (fscontext_create_fd_release (Further.ok "source")
       (Sample.system FS_CONTEXT_CREATE_PARAMS) 7%nat 0
       (fresh (dom (files (Sample.system FS_CONTEXT_CREATE_PARAMS)))) _ _)));
    first [simpl; lia | apply lookup_insert_eq].
Defined.

Lemma fscontext_alloc_log_empty_witness :
  let k := Sample.system FS_CONTEXT_CREATE_PARAMS in
  result_of
    (fscontext_read (Further.ok "source") 8 1%nat 0 3
       (kernel_of (fscontext_alloc_log (Further.ok "source") 8 7%nat k)))
  = Done (- ENODATA).
Proof.
  refine (proj1 (proj2 (proj1
    (fscontext_alloc_log_empty (Further.ok "source") 8 8
       (Sample.system FS_CONTEXT_CREATE_PARAMS) 1%nat Further.bound_file
       7%nat (Sample.ctx FS_CONTEXT_CREATE_PARAMS) 0 3 _ _ _ _) _)));
    first [reflexivity | simpl; lia].
Defined.

Lemma fspick_validation_witness :
  let k := Sample.system FS_CONTEXT_CREATE_PARAMS in
  fspick
    (Further.env "source" false (0, Further.target_rw) (inl (- ENOMEM)) true
       5 0) 8 (-100) 100 16 k
  = (Done (- EPERM), k, []).
Proof.
  refine (proj1
    (fspick_validation
       (Further.env "source" false (0, Further.target_rw) (inl (- ENOMEM))
          true 5 0) 8 (Sample.system FS_CONTEXT_CREATE_PARAMS) (-100) 100 16)
    _).
  reflexivity.
Defined.

Lemma fspick_lookup_flags_meaning_witness :
  fspick_lookup_flags (Z.lxor 3 FSPICK_CLOEXEC) = fspick_lookup_flags 3.
Proof.
  refine (proj2 (proj2 (proj2 (proj2 (fspick_lookup_flags_meaning 3)))) _).
  reflexivity.
Defined.

Lemma fspick_lookup_failure_witness :
  let k := Sample.system FS_CONTEXT_CREATE_PARAMS in
  fspick
    (Further.env "source" true (-2, Further.target_rw) (inl (- ENOMEM)) true
       5 0) 8 (-100) 100 0 k
  = (Done (-2), k, [(EvUserPathAt (-100) 100 (fspick_lookup_flags 0), k)]).
Proof.
  apply (fspick_lookup_failure
           (Further.env "source" true (-2, Further.target_rw)
              (inl (- ENOMEM)) true 5 0)
           8 (Sample.system FS_CONTEXT_CREATE_PARAMS) (-100) 100 0 (-2)
           Further.target_rw);
    first [reflexivity | simpl; lia].
Defined.

Lemma fspick_context_error_witness :
  result_of
    (fspick
       (Further.env "source" true (0, Further.target_rw) (inl (- ENOMEM)) true
          5 0) 8 (-100) 100 0 (Sample.system FS_CONTEXT_CREATE_PARAMS))
  = Done (- ENOMEM).
Proof.
  refine (f_equal result_of
    (fspick_context_error
       (Further.env "source" true (0, Further.target_rw) (inl (- ENOMEM))
          true 5 0)
       8 (Sample.system FS_CONTEXT_CREATE_PARAMS) (-100) 100 0 0
       Further.target_rw (- ENOMEM) _ _ _ _ _ _));
    first [reflexivity | simpl; lia].
Defined.

Lemma fspick_late_failure_witness :
  count is_put_fs_context
    (trace_of
       (fspick
          (Further.env "source" true (0, Further.target_rw)
             (inr (Further.made FS_CONTEXT_FOR_RECONFIGURE)) false 5 0)
          8 (-100) 100 0 (Sample.system FS_CONTEXT_CREATE_PARAMS)))
  = 1%nat.
Proof.
  refine (proj1 (proj2
    (fspick_late_failure
       (Further.env "source" true (0, Further.target_rw)
          (inr (Further.made FS_CONTEXT_FOR_RECONFIGURE)) false 5 0)
       8 (Sample.system FS_CONTEXT_CREATE_PARAMS) (-100) 100 0 0
       Further.target_rw (Further.made FS_CONTEXT_FOR_RECONFIGURE)
       _ _ _ _ _ _ _)));
    first [reflexivity | simpl; lia | left; reflexivity].
Defined.

Lemma fspick_success_witness :
  result_of
    (fspick (Further.ok "source") 8 (-100) 100 1
       (Sample.system FS_CONTEXT_CREATE_PARAMS))
  = Done 5.
Proof.
  refine (proj1
    (fspick_success (Further.ok "source") 8
       (Sample.system FS_CONTEXT_CREATE_PARAMS) (-100) 100 1 0
       Further.target_rw (Further.made FS_CONTEXT_FOR_RECONFIGURE)
       _ _ _ _ _ _ _ _));
    first [reflexivity | simpl; lia].
Defined.

Lemma fsopen_validation_witness :
  let k := Sample.system FS_CONTEXT_CREATE_PARAMS in
  fsopen
    (Further.env "tmpfs" false (0, Further.target_rw) (inl (- ENOMEM)) true
       5 0) 8 4096 Further.registry Further.release_type 100 0 k
  = (Done (- EPERM), k, []).
Proof.
  refine (proj1
    (fsopen_validation
       (Further.env "tmpfs" false (0, Further.target_rw) (inl (- ENOMEM))
          true 5 0) 8 4096 Further.registry Further.release_type
       (Sample.system FS_CONTEXT_CREATE_PARAMS) 100 0) _).
  reflexivity.
Defined.

Lemma fsopen_unknown_filesystem_witness :
  let k := Sample.system FS_CONTEXT_CREATE_PARAMS in
  fsopen (Further.ok "ext9") 8 4096 Further.registry Further.release_type
    100 0 k
  = (Done (- ENODEV), k,
     [(EvStrndupUser 100 4096, k)] ++ [] ++ [(EvKfree "ext9", k)]).
Proof.
  apply (fsopen_unknown_filesystem (Further.ok "ext9") 8 4096
           Further.registry Further.release_type
           (Sample.system FS_CONTEXT_CREATE_PARAMS)
           (Sample.system FS_CONTEXT_CREATE_PARAMS) [] 100 0 "ext9"%string);
    reflexivity.
Defined.

Lemma fsopen_success_witness :
  result_of
    (fsopen
       (Further.env "tmpfs" true (0, Further.target_rw)
          (inr (Further.made FS_CONTEXT_FOR_USER_MOUNT)) true 5 0)
       8 4096 Further.registry Further.release_type 100 1
       (Sample.system FS_CONTEXT_CREATE_PARAMS))
  = Done 5.
Proof.
  refine (proj1
    (fsopen_success
       (Further.env "tmpfs" true (0, Further.target_rw)
          (inr (Further.made FS_CONTEXT_FOR_USER_MOUNT)) true 5 0)
       8 4096 Further.registry Further.release_type
       (Sample.system FS_CONTEXT_CREATE_PARAMS)
       (Sample.system FS_CONTEXT_CREATE_PARAMS) [] 100 1 "tmpfs"%string
       Sample.tmpfs (Further.made FS_CONTEXT_FOR_USER_MOUNT)
       _ _ _ _ _ _ _ _));
    first [reflexivity | simpl; lia | by intros; split].
Defined.

Lemma fsopen_late_failure_witness :
  result_of
    (fsopen
       (Further.env "tmpfs" true (0, Further.target_rw)
          (inr (Further.made FS_CONTEXT_FOR_USER_MOUNT)) true (-24) 0)
       8 4096 Further.registry Further.release_type 100 0
       (Sample.system FS_CONTEXT_CREATE_PARAMS))
  = Done (-24).
Proof.
  refine (proj1
    (fsopen_late_failure
       (Further.env "tmpfs" true (0, Further.target_rw)
          (inr (Further.made FS_CONTEXT_FOR_USER_MOUNT)) true (-24) 0)
       8 4096 Further.registry Further.release_type
       (Sample.system FS_CONTEXT_CREATE_PARAMS)
       (Sample.system FS_CONTEXT_CREATE_PARAMS) [] 100 0 "tmpfs"%string
       Sample.tmpfs (Further.made FS_CONTEXT_FOR_USER_MOUNT)
       _ _ _ _ _ _ _));
    first [reflexivity | by intros; split | right; simpl; lia].
Defined.

Lemma fsconfig_early_validation_witness :
  let k := Sample.system FS_CONTEXT_CREATE_PARAMS in
  fsconfig (Further.ok "source") (-1) 99 0 0 0 k = (Done (- EINVAL), k, []).
Proof.
  refine (proj1
    (fsconfig_early_validation (Further.ok "source")
       (Sample.system FS_CONTEXT_CREATE_PARAMS) (-1) 99 0 0 0) _).
  lia.
Defined.

Lemma fsconfig_returns_vfs_fsconfig_witness :
  let k := Sample.system FS_CONTEXT_CREATE_PARAMS in
  result_of
    (fsconfig (Further.ok "source") 3
       (fsconfig_command_to_Z fsconfig_set_string) 100 200 0 k)
  = result_of
      (vfs_fsconfig (Further.ok "source") 7%nat
         (fsconfig_command_to_Z fsconfig_set_string) (Some "source"%string)
         (Some "none"%string) 0 k).
Proof.
  refine (proj1
    (fsconfig_returns_vfs_fsconfig (Further.ok "source")
       (Sample.system FS_CONTEXT_CREATE_PARAMS) 3 7%nat
       (Sample.ctx FS_CONTEXT_CREATE_PARAMS)
       (fsconfig_command_to_Z fsconfig_set_string) 100 200 0
       (Some "source"%string) (Some "none"%string)
       _ _ _ _ _ _ _));
    first [reflexivity | simpl; lia
          | by exists 1%nat, Further.bound_file
          | by eexists; split; [reflexivity | reflexivity]].
Defined.

Lemma fsconfig_interrupted_witness :
  let k := Sample.system FS_CONTEXT_CREATE_PARAMS in
  result_of
    (fsconfig
       (Further.env "ro" true (0, Further.target_rw) (inl (- ENOMEM)) true 5
          (-4)) 3 (fsconfig_command_to_Z fsconfig_set_flag) 100 0 0 k)
  = Done (-4).
Proof.
  refine (f_equal result_of
    (fsconfig_interrupted
       (Further.env "ro" true (0, Further.target_rw) (inl (- ENOMEM)) true 5
          (-4))
       (Sample.system FS_CONTEXT_CREATE_PARAMS) 3 7%nat
       (Sample.ctx FS_CONTEXT_CREATE_PARAMS)
       (fsconfig_command_to_Z fsconfig_set_flag) 100 0 0
       (Some "ro"%string) None _ _ _ _ _ _ _));
    first [reflexivity | simpl; lia | discriminate
          | by exists 1%nat, Further.bound_file
          | by eexists; split; [reflexivity | reflexivity]].
Defined.

Lemma fsconfig_unimplemented_witness :
  let k := Sample.system FS_CONTEXT_CREATE_PARAMS in
  fsconfig (Further.ok "dev") 3 (fsconfig_command_to_Z fsconfig_set_fd)
    100 0 4 k
  = (Done (- EOPNOTSUPP), k,
     [(EvFdget 3, k); (EvStrndupUser 100 256, k); (EvKfree "dev", k);
      (EvFdput 3, k)]).
Proof.
  refine (fsconfig_unimplemented (Further.ok "dev")
            (Sample.system FS_CONTEXT_CREATE_PARAMS) 3 7%nat
            (Sample.ctx FS_CONTEXT_CREATE_PARAMS)
            (fsconfig_command_to_Z fsconfig_set_fd) 100 0 4 "dev"%string
            _ _ _ _ _);
    first [reflexivity | simpl; lia | right; right; reflexivity
          | by exists 1%nat, Further.bound_file].
Defined.

Lemma fsconfig_copy_failure_witness :
  let k := Sample.system FS_CONTEXT_CREATE_PARAMS in
  fsconfig (Further.ok "ro") 3 (fsconfig_command_to_Z fsconfig_set_flag)
    300 0 0 k
  = (Done (- EFAULT), k,
     [(EvFdget 3, k); (EvStrndupUser 300 256, k); (EvFdput 3, k)]).
Proof.
  refine (proj1
    (fsconfig_copy_failure (Further.ok "ro")
       (Sample.system FS_CONTEXT_CREATE_PARAMS) 3 7%nat
       (Sample.ctx FS_CONTEXT_CREATE_PARAMS)
       (fsconfig_command_to_Z fsconfig_set_flag) 300 0 0 (- EFAULT)
       _ _ _) _ _);
    first [reflexivity | simpl; lia | discriminate
          | by exists 1%nat, Further.bound_file].
Defined.

Lemma fsconfig_never_oops_witness :
  result_of
    (fsconfig (Further.ok "source") 3 (fsconfig_command_to_Z fsconfig_set_path)
       100 200 (-100) (Sample.system FS_CONTEXT_CREATE_PARAMS))
  <> Oops.
Proof.
  apply (fsconfig_never_oops (Further.ok "source")
           (Sample.system FS_CONTEXT_CREATE_PARAMS) 3
           (fsconfig_command_to_Z fsconfig_set_path) 100 200 (-100)
           (sample_well_formed _)).
Defined.

Lemma fsconfig_created_is_closed_witness :
  result_of
    (fsconfig (Further.ok "source") 3
       (fsconfig_command_to_Z fsconfig_cmd_create) 0 0 0
       (Sample.system FS_CONTEXT_CREATE_PARAMS))
  = Done 0.
Proof.
  refine (proj1
    (fsconfig_created_is_closed (Further.ok "source")
       (Sample.system FS_CONTEXT_CREATE_PARAMS) 3 7%nat
       (Sample.ctx FS_CONTEXT_CREATE_PARAMS) _ _ _ _ _));
    first [reflexivity | simpl; lia | by exists 1%nat, Further.bound_file].
Defined.
